(** * SQLQueryValidator: a shallow embedding of the query checker

    The Python class [SQLQueryValidator] parses a query with sqlglot and then
    runs five rule methods over the syntax tree, appending entries to a
    result dict [{"is_valid", "errors", "suggestions"}].

    This development embeds

    - Python's exceptions, as an error monad ([Py.res]);
    - Python's insertion-ordered [dict] with string keys ([Dict.t]);
    - the part of sqlglot's tree that the rules look at ([expr], [join],
      [statement]) together with [walk]/[find_all], which sqlglot runs
      breadth first;
    - the methods [validate], [_validate_select_statement],
      [_validate_joins], [_validate_where], [_validate_having],
      [_extract_tables_and_columns], [_validate_tables_and_columns] and
      [get_formatted_errors].

    Three things belong to the environment and are taken as parameters of
    the section that holds the methods: the parser [sqlglot.parse_one], the
    text rendering [str(expr)] of a tree, and the order in which CPython
    enumerates a [set] of strings. *)

From Stdlib Require Import List String Ascii Bool Arith Lia.
Import ListNotations.
Open Scope string_scope.
Open Scope list_scope.

(* ================================================================== *)
(** ** Python exceptions *)

Module Py.

(** The exceptions that the modelled statements can raise. *)
Inductive exn : Type :=
| AttributeError              (* attribute access on [None], e.g. [None.args] *)
| KeyError (key : string)     (* [d[k]] with [k] not in [d] *)
| IndexError                  (* [l[i]] out of range *)
| TokenError (msg : string).  (* sqlglot.errors.TokenError, not a ParseError *)

Inductive res (A : Type) : Type :=
| Return (a : A)
| Raise (e : exn).
Arguments Return {A} a.
Arguments Raise {A} e.

Definition bind {A B} (m : res A) (k : A -> res B) : res B :=
  match m with
  | Return a => k a
  | Raise e => Raise e
  end.

(** [for x in xs: s = body(s, x)], stopping at the first exception. *)
Fixpoint for_each {A S} (body : S -> A -> res S) (xs : list A) (s : S) : res S :=
  match xs with
  | [] => Return s
  | x :: xs' => bind (body s x) (for_each body xs')
  end.

Definition returns {A} (m : res A) : bool :=
  match m with Return _ => true | Raise _ => false end.

(** [l[i]] *)
Definition index {A} (l : list A) (i : nat) : res A :=
  match nth_error l i with
  | Some a => Return a
  | None => Raise IndexError
  end.

End Py.

Notation "x <- m ;; k" := (Py.bind m (fun x => k))
  (at level 61, m at next level, right associativity).

(* ================================================================== *)
(** ** Python dicts with string keys (insertion ordered) *)

Module Dict.

Definition t (V : Type) : Type := list (string * V).

(** [d.get(k)] *)
Fixpoint get {V} (d : t V) (k : string) : option V :=
  match d with
  | [] => None
  | (k', v) :: d' => if String.eqb k' k then Some v else get d' k
  end.

(** [k in d] *)
Definition mem {V} (d : t V) (k : string) : bool :=
  match get d k with Some _ => true | None => false end.

(** [d[k]] *)
Definition getitem {V} (d : t V) (k : string) : Py.res V :=
  match get d k with
  | Some v => Py.Return v
  | None => Py.Raise (Py.KeyError k)
  end.

(** [d[k] = v]: an existing key keeps its position, a new one goes last. *)
Fixpoint set {V} (d : t V) (k : string) (v : V) : t V :=
  match d with
  | [] => [(k, v)]
  | (k', v') :: d' =>
      if String.eqb k' k then (k, v) :: d' else (k', v') :: set d' k v
  end.

(** [d.keys()], [list(d)] *)
Definition keys {V} (d : t V) : list string := map fst d.

(** [bool(d)] *)
Definition nonempty {V} (d : t V) : bool :=
  match d with [] => false | _ :: _ => true end.

End Dict.

(* ================================================================== *)
(** ** Strings *)

Module Str.

Definition upper_ascii (c : ascii) : ascii :=
  let n := nat_of_ascii c in
  if ((97 <=? n) && (n <=? 122))%nat then ascii_of_nat (n - 32) else c.

(** [s.upper()] on ASCII letters. *)
Fixpoint upper (s : string) : string :=
  match s with
  | EmptyString => EmptyString
  | String c s' => String (upper_ascii c) (upper s')
  end.

(** [s.startswith(p)] *)
Definition startswith (s p : string) : bool := String.prefix p s.

(** [s.replace('.', '', 1)] *)
Fixpoint remove_first_dot (s : string) : string :=
  match s with
  | EmptyString => EmptyString
  | String c s' => if Ascii.eqb c "."%char then s' else String c (remove_first_dot s')
  end.

Definition is_digit_ascii (c : ascii) : bool :=
  let n := nat_of_ascii c in ((48 <=? n) && (n <=? 57))%nat.

Fixpoint all_digits (s : string) : bool :=
  match s with
  | EmptyString => true
  | String c s' => is_digit_ascii c && all_digits s'
  end.

(** [s.isdigit()] for ASCII text: non-empty and digits only. Python also
    counts the digits of other scripts; on a text with a character outside
    ASCII this definition answers [false], so it stands for [str.isdigit]
    on ASCII texts only (see [ascii_text]). *)
Definition isdigit (s : string) : bool :=
  match s with
  | EmptyString => false
  | _ => all_digits s
  end.

(** [bool(s)] *)
Definition truthy (s : string) : bool := negb (String.eqb s EmptyString).

(** [x in l] for a list of strings. *)
Definition In_b (x : string) (l : list string) : bool :=
  existsb (String.eqb x) l.

End Str.

(** [bool(l)] for a list. *)
Definition nonempty {A} (l : list A) : bool :=
  match l with [] => false | _ :: _ => true end.

Definition is_some {A} (o : option A) : bool :=
  match o with Some _ => true | None => false end.

(* ================================================================== *)
(** ** The syntax tree produced by sqlglot *)

(** Subclasses of [exp.Binary]. [IS NOT] has no class of its own: sqlglot
    parses [x IS NOT y] as [Not(Is(x, y))]. *)
Inductive binop : Type :=
| EQ | NEQ | GT | GTE | LT | LTE | Is | Like | And | Or | Add | Sub | Mul | Div.

Inductive unop : Type := Not | Paren | Neg.

(** [exp.DataType], the annotation that [Expression.type] returns once
    sqlglot's type annotator has run; [parse_one] leaves it [None]. *)
Inductive DataType : Type := DType (name : string).

(** The expression nodes. [Func] stands for any other node with operands
    (a function call, DISTINCT, CASE, ...). The identifiers below a
    [Column] are folded into its two strings: they are leaves of no class
    that a rule searches for. *)
#[warnings="-register-all"]
Inductive expr : Type :=
| Column (table name : string)          (* [.table] is empty when unqualified *)
| Literal (this : string) (is_string : bool)
| Null
| Identifier (name : string)
| Star
| Binary (op : binop) (type : option DataType) (left right : expr)
| Unary (op : unop) (this : expr)
| AggFunc (fname : string) (args : list expr)
| Func (fname : string) (args : list expr)
| Alias (this : expr) (alias : string).

(** [exp.Table]: [.name] and [.alias] (empty when there is none). *)
Record table_ref : Type := { t_name : string; t_alias : string }.

(** [exp.Join]: [.kind], [.this], [args["on"]], [args["using"]] (the names of
    the listed identifiers; the empty list when the clause is absent). *)
Record join : Type := {
  j_kind : string;
  j_this : table_ref;
  j_on : option expr;
  j_using : list string
}.

Inductive stmt_class : Type := Select | OtherStatement.

(** The parsed statement. [from_] holds the [exp.Table] nodes of the FROM
    clause, [rest] the expressions of the clauses that no rule reads by name
    (ORDER BY, LIMIT, ...) and that only a traversal of the whole statement
    reaches. Nested queries are not part of the model. *)
Record statement : Type := {
  class : stmt_class;
  expressions : list expr;
  from_ : option (list table_ref);
  joins : list join;
  where_ : option expr;
  group : option (list expr);
  having : option expr;
  rest : list expr
}.

Definition is_Column (e : expr) : bool :=
  match e with Column _ _ => true | _ => false end.
Definition is_Literal (e : expr) : bool :=
  match e with Literal _ _ => true | _ => false end.
Definition is_Null (e : expr) : bool :=
  match e with Null => true | _ => false end.
Definition is_Identifier (e : expr) : bool :=
  match e with Identifier _ => true | _ => false end.
Definition is_Binary (e : expr) : bool :=
  match e with Binary _ _ _ _ => true | _ => false end.
Definition is_AggFunc (e : expr) : bool :=
  match e with AggFunc _ _ => true | _ => false end.
Definition is_Alias (e : expr) : bool :=
  match e with Alias _ _ => true | _ => false end.

(** [e.name] *)
Definition name_of (e : expr) : string :=
  match e with
  | Column _ n => n
  | Literal s _ => s
  | Identifier n => n
  | Star => "*"
  | _ => EmptyString
  end.

(** [e.table] *)
Definition table_of (e : expr) : string :=
  match e with Column t _ => t | _ => EmptyString end.

(** [e.alias] *)
Definition alias_of (e : expr) : string :=
  match e with Alias _ a => a | _ => EmptyString end.

(** [t.alias or t.name], which is also [t.alias_or_name]. *)
Definition alias_or_name (t : table_ref) : string :=
  if Str.truthy (t_alias t) then t_alias t else t_name t.

(** [f"{col.table}.{col.name}" if col.table else col.name] *)
Definition qualified_name (col : expr) : string :=
  if Str.truthy (table_of col)
  then (table_of col ++ "." ++ name_of col)%string
  else name_of col.

(* ------------------------------------------------------------------ *)
(** *** Traversal: [walk] and [find_all] (breadth first) *)

Definition children (e : expr) : list expr :=
  match e with
  | Binary _ _ l r => [l; r]
  | Unary _ e' => [e']
  | AggFunc _ args => args
  | Func _ args => args
  | Alias e' _ => [e']
  | _ => []
  end.

Fixpoint depth (e : expr) : nat :=
  match e with
  | Binary _ _ l r => S (Nat.max (depth l) (depth r))
  | Unary _ e' => S (depth e')
  | AggFunc _ args => S (list_max (map depth args))
  | Func _ args => S (list_max (map depth args))
  | Alias e' _ => S (depth e')
  | _ => 0
  end.

(** A visited node with its [.parent]; [None] stands for the clause node
    ([Select], [Where], [Having], [Join]) above the root, which is never an
    aggregate. *)
Definition visited : Type := (option expr * expr)%type.

(** The nodes [n] levels below [e], left to right. *)
Fixpoint level (n : nat) (parent : option expr) (e : expr) : list visited :=
  match n with
  | 0 => [(parent, e)]
  | S m => flat_map (level m (Some e)) (children e)
  end.

(** [e.walk(bfs=True)]: level by level. *)
Definition walk (e : expr) : list visited :=
  flat_map (fun n => level n None e) (seq 0 (S (depth e))).

(** [e.find_all(cls)] *)
Definition find_all (cls : expr -> bool) (e : expr) : list visited :=
  filter (fun v => cls (snd v)) (walk e).

(** [isinstance(x.parent, exp.AggFunc)] *)
Definition parent_is_AggFunc (v : visited) : bool :=
  match fst v with Some p => is_AggFunc p | None => false end.

(** The expression roots below a statement; [statement.find_all(cls)] visits
    every node below them. Its results are only tested for emptiness or
    collected into a set, so the order between roots is immaterial. *)
Definition statement_roots (s : statement) : list expr :=
  expressions s
  ++ flat_map (fun j => match j_on j with Some e => [e] | None => [] end) (joins s)
  ++ match where_ s with Some e => [e] | None => [] end
  ++ match group s with Some g => g | None => [] end
  ++ match having s with Some e => [e] | None => [] end
  ++ rest s.

Definition find_all_in_statement (cls : expr -> bool) (s : statement) : list visited :=
  flat_map (find_all cls) (statement_roots s).

(* ================================================================== *)
(** ** Diagnostics and the result dict *)

(** One constructor per kind of entry that the rules append. The source
    tags an entry with a ["type"] text and a ["message"]; kinds that share a
    type text differ by their message. *)
Inductive DiagKind : Type :=
| SyntaxError            (* "语法错误" *)
| MissingFrom            (* "结构错误", "SELECT 语句缺少 FROM 子句" *)
| MissingGroupBy         (* "结构错误", "... 但缺少 GROUP BY 子句" *)
| IncompleteGroupBy      (* "GROUP BY不完整" *)
| MissingJoinCondition   (* "JOIN 错误", "... 缺少连接条件" *)
| ColumnNotFound         (* "列不存在" *)
| JoinError              (* "JOIN 错误", "... 仅在表 ... 中存在" *)
| UnknownTableReference  (* "对象不存在" *)
| TypeMismatch           (* "类型不匹配" *)
| NullComparisonError    (* "空值比较错误" *)
| MisusedHaving          (* "误用HAVING" *)
| IllegalHavingColumn    (* "非法HAVING列" *)
| TableNotFound.         (* "表不存在" *)

Definition DiagKind_eqb (a b : DiagKind) : bool :=
  match a, b with
  | SyntaxError, SyntaxError | MissingFrom, MissingFrom
  | MissingGroupBy, MissingGroupBy | IncompleteGroupBy, IncompleteGroupBy
  | MissingJoinCondition, MissingJoinCondition
  | ColumnNotFound, ColumnNotFound | JoinError, JoinError
  | UnknownTableReference, UnknownTableReference
  | TypeMismatch, TypeMismatch | NullComparisonError, NullComparisonError
  | MisusedHaving, MisusedHaving | IllegalHavingColumn, IllegalHavingColumn
  | TableNotFound, TableNotFound => true
  | _, _ => false
  end.

(** [error["type"]] *)
Definition error_type (k : DiagKind) : string :=
  match k with
  | SyntaxError => "语法错误"
  | MissingFrom | MissingGroupBy => "结构错误"
  | IncompleteGroupBy => "GROUP BY不完整"
  | MissingJoinCondition | JoinError => "JOIN 错误"
  | ColumnNotFound => "列不存在"
  | UnknownTableReference => "对象不存在"
  | TypeMismatch => "类型不匹配"
  | NullComparisonError => "空值比较错误"
  | MisusedHaving => "误用HAVING"
  | IllegalHavingColumn => "非法HAVING列"
  | TableNotFound => "表不存在"
  end.

(** An entry of [result["errors"]]: its kind and, in [info], the values that
    the source interpolates into the message and the suggestion, in order. *)
Record Diagnostic : Type := { kind : DiagKind; info : list string }.

(** The result dict. Its third key, ["suggestions"], is created empty and
    never written. *)
Record Result : Type := { is_valid : bool; errors : list Diagnostic }.

(** [{"is_valid": True, "errors": [], "suggestions": []}] *)
Definition fresh_result : Result := {| is_valid := true; errors := [] |}.

(** [result["is_valid"] = False; result["errors"].append({...})] *)
Definition report (r : Result) (k : DiagKind) (i : list string) : Result :=
  {| is_valid := false; errors := errors r ++ [{| kind := k; info := i |}] |}.

(** How many entries of kind [k] a result holds. *)
Definition count_kind (k : DiagKind) (r : Result) : nat :=
  List.length (filter (fun d => DiagKind_eqb (kind d) k) (errors r)).

(* ================================================================== *)
(** ** The schema catalog and the validator object *)

Definition ColumnMap : Type := Dict.t string.        (* column -> data type *)
Definition SchemaCatalog : Type := Dict.t ColumnMap. (* table -> columns *)

(** The fields of [self] that [validate] reads or writes. *)
Record validator : Type := {
  metadata : SchemaCatalog;
  parsed : option statement;
  query : string
}.

(** The object as [__init__] leaves it, with the catalog already loaded. *)
Definition new_validator (md : SchemaCatalog) : validator :=
  {| metadata := md; parsed := None; query := EmptyString |}.

(** What [sqlglot.parse_one] can do with a text. *)
Inductive parse_outcome : Type :=
| Parsed (s : statement)
| ParseError (msg : string)
| OtherFault (e : Py.exn).

(** An entry of a join's table list, [{"name": ..., "alias": ...}]. *)
Record table_info : Type := { name : string; alias : string }.

(** A value that [Expression.type] can hold, or a string it is compared
    with. Python's [==] between values of different classes is [False]. *)
Inductive py_val : Type :=
| PyNone
| PyStr (s : string)
| PyDataType (d : DataType).

Definition py_eqb (a b : py_val) : bool :=
  match a, b with
  | PyNone, PyNone => true
  | PyStr s, PyStr s' => String.eqb s s'
  | PyDataType (DType n), PyDataType (DType n') => String.eqb n n'
  | _, _ => false
  end.

(** [v in l] *)
Definition py_in (v : py_val) (l : list py_val) : bool := existsb (py_eqb v) l.

(** [str(v)] *)
Definition py_str (v : py_val) : string :=
  match v with
  | PyNone => "None"
  | PyStr s => s
  | PyDataType (DType n) => n
  end.

(** [e.type]: the type annotation of the node, not its operator. *)
Definition type_of (e : expr) : py_val :=
  match e with
  | Binary _ (Some d) _ _ => PyDataType d
  | _ => PyNone
  end.

(** [lit.is_string] *)
Definition is_string_of (e : expr) : bool :=
  match e with Literal _ b => b | _ => false end.

(** [s.add(x)] on a set of strings kept as a duplicate-free list. *)
Definition set_add (x : string) (s : list string) : list string :=
  if Str.In_b x s then s else s ++ [x].

(* ================================================================== *)
(** ** The rule methods *)

Section Validator.

(** [sqlglot.parse_one(query, dialect=self.dialect)] *)
Variable parse_one : string -> parse_outcome.
(** [str(expr)], the SQL text that sqlglot generates for a tree *)
Variable sql_text : expr -> string.
(** the order in which [list(set(l))] and [', '.join(set(l))] enumerate *)
Variable set_iter : list string -> list string.

(** [self.parsed.args...]: every rule method starts by reading an
    attribute of [self.parsed], which fails when that is [None]. *)
Definition with_parsed (self : validator)
    (body : statement -> Py.res Result) : Py.res Result :=
  match parsed self with
  | Some s => body s
  | None => Py.Raise Py.AttributeError
  end.

(* ---------------------------------------------------------------- *)
(** *** [_validate_select_statement] *)

Definition select_rule (s : statement) (result : Result) : Result :=
  let result :=
    if negb (is_some (from_ s)) then report result MissingFrom [] else result in
  let aggregates := find_all_in_statement is_AggFunc s in
  let selected_columns := filter is_Column (expressions s) in
  let group_by_clause := group s in
  let group_by_columns :=
    match group_by_clause with
    | Some g => filter is_Column g
    | None => []
    end in
  let result :=
    if nonempty aggregates && nonempty selected_columns
       && negb (is_some (group s))
    then report result MissingGroupBy []
    else result in
  if is_some group_by_clause && nonempty selected_columns then
    let select_col_names := map qualified_name selected_columns in
    let group_by_col_names := map qualified_name group_by_columns in
    let missing_columns :=
      filter (fun n => negb (Str.In_b n group_by_col_names)) select_col_names in
    if nonempty missing_columns
    then report result IncompleteGroupBy
           (set_iter missing_columns ++ set_iter missing_columns)
    else result
  else result.

Definition _validate_select_statement (self : validator) (result : Result)
    : Py.res Result :=
  with_parsed self (fun s => Py.Return (select_rule s result)).

(* ---------------------------------------------------------------- *)
(** *** [_validate_joins] *)

(** [base_tables] after the loop over the FROM clause. *)
Definition base_tables_of (s : statement) : list table_info :=
  match from_ s with
  | Some tables =>
      map (fun t => {| name := t_name t; alias := alias_or_name t |}) tables
  | None => []
  end.

(** [table_aliases] after the loops over the FROM clause and the joins. *)
Definition table_aliases_of (s : statement) : Dict.t string :=
  let from_tables := match from_ s with Some ts => ts | None => [] end in
  let d := fold_left (fun d t => Dict.set d (alias_or_name t) (t_name t))
             from_tables [] in
  fold_left
    (fun d j => Dict.set d (alias_or_name (j_this j)) (t_name (j_this j)))
    (joins s) d.

(** [join_tables] as the loop body builds it for one join. *)
Definition join_tables_of (base_tables : list table_info) (j : join)
    : list table_info :=
  let join_tables : list table_info := [] in
  let join_tables :=
    if negb (nonempty join_tables) && nonempty base_tables
    then join_tables ++ base_tables
    else join_tables in
  join_tables
    ++ [{| name := t_name (j_this j); alias := alias_or_name (j_this j) |}].

(** [t in self.metadata and c in self.metadata[t]] *)
Definition has_column (md : SchemaCatalog) (t c : string) : Py.res bool :=
  if Dict.mem md t
  then cols <- Dict.getitem md t ;; Py.Return (Dict.mem cols c)
  else Py.Return false.

(** [valid_tables] for one USING column. *)
Definition using_valid_tables (md : SchemaCatalog) (col_name : string)
    (join_tables : list table_info) : Py.res (list string) :=
  Py.for_each
    (fun valid_tables table_info =>
       hit <- has_column md (name table_info) col_name ;;
       Py.Return (if hit then valid_tables ++ [alias table_info]
                  else valid_tables))
    join_tables [].

(** The pieces of the "可用列" suggestion of a USING column. *)
Definition available_columns (md : SchemaCatalog)
    (join_tables : list table_info) : Py.res (list string) :=
  Py.for_each
    (fun acc t =>
       if Str.In_b t (map name join_tables)
       then cols <- Dict.getitem md t ;; Py.Return (acc ++ t :: Dict.keys cols)
       else Py.Return acc)
    (Dict.keys md) [].

Definition check_using_column (md : SchemaCatalog)
    (join_tables : list table_info) (result : Result) (col_name : string)
    : Py.res Result :=
  valid_tables <- using_valid_tables md col_name join_tables ;;
  if negb (nonempty valid_tables) then
    available <- available_columns md join_tables ;;
    Py.Return (report result ColumnNotFound
                 (col_name :: map alias join_tables ++ available))
  else if (List.length valid_tables <? 2)%nat then
    first <- Py.index valid_tables 0 ;;
    Py.Return (report result JoinError [col_name; first])
  else Py.Return result.

Definition check_on_column (md : SchemaCatalog) (table_aliases : Dict.t string)
    (join_tables : list table_info) (result : Result) (column : visited)
    : Py.res Result :=
  let col_table := table_of (snd column) in
  let col_name := name_of (snd column) in
  real_table <- (if Dict.mem table_aliases col_table
                 then Dict.getitem table_aliases col_table
                 else Py.Return col_table) ;;
  let table_exists :=
    existsb (fun t => String.eqb (name t) real_table) join_tables in
  if negb table_exists then
    Py.Return (report result UnknownTableReference
                 (col_table :: map alias join_tables))
  else
    found <- has_column md real_table col_name ;;
    if found then Py.Return result
    else
      available <- (if Dict.mem md real_table
                    then cols <- Dict.getitem md real_table ;;
                         Py.Return (Dict.keys cols)
                    else Py.Return ["无可用列信息"]) ;;
      Py.Return (report result ColumnNotFound
                   (real_table :: col_name :: available)).

(** The body of [for join in joins]. *)
Definition check_join (md : SchemaCatalog) (base_tables : list table_info)
    (table_aliases : Dict.t string) (result : Result) (j : join)
    : Py.res Result :=
  let join_kind := Str.upper (j_kind j) in
  let on_clause := j_on j in
  let using_columns := j_using j in
  let join_tables := join_tables_of base_tables j in
  if negb (is_some on_clause) && negb (nonempty using_columns) then
    Py.Return (report result MissingJoinCondition [join_kind])
  else if nonempty using_columns then
    Py.for_each (check_using_column md join_tables) using_columns result
  else
    match on_clause with
    | Some on =>
        Py.for_each (check_on_column md table_aliases join_tables)
          (find_all is_Column on) result
    | None => Py.Return result
    end.

Definition joins_rule (md : SchemaCatalog) (s : statement) (result : Result)
    : Py.res Result :=
  Py.for_each (check_join md (base_tables_of s) (table_aliases_of s))
    (joins s) result.

Definition _validate_joins (self : validator) (result : Result)
    : Py.res Result :=
  with_parsed self (fun s => joins_rule (metadata self) s result).

(* ---------------------------------------------------------------- *)
(** *** [_validate_where] *)

(** [column_types]: the catalog flattened to column -> type; a column
    name that occurs in several tables keeps the type of the last one. *)
Definition column_types_of (md : SchemaCatalog) : Dict.t string :=
  fold_left
    (fun d tc => fold_left (fun d cd => Dict.set d (fst cd) (snd cd)) (snd tc) d)
    md [].

(** The column-against-literal part of the loop body; [None] is the
    [continue] taken when the column has no known type. *)
Definition type_check (column_types : Dict.t string) (result : Result)
    (left_ right_ : expr) : option Result :=
  if is_Column left_ && is_Literal right_ then
    let column_name := name_of left_ in
    match Dict.get column_types column_name with
    | None => None
    | Some column_type =>
        if negb (Str.truthy column_type) then None
        else if Str.startswith column_type "integer"
                && is_string_of right_
                && negb (Str.isdigit (Str.remove_first_dot (name_of right_)))
        then Some (report result TypeMismatch [column_name; name_of right_])
        else if Str.startswith column_type "character"
                && negb (is_string_of right_)
        then Some (report result TypeMismatch [column_name])
        else Some result
    end
  else Some result.

(** [is_null_value] *)
Definition is_null_value (right_ : expr) : bool :=
  if is_Null right_ then true
  else if is_Identifier right_ && String.eqb (Str.upper (name_of right_)) "NULL"
  then true
  else false.

(** The body of [for condition in where_clause.find_all(exp.Binary)]. *)
Definition check_condition (column_types : Dict.t string) (result : Result)
    (condition : visited) : Result :=
  match snd condition with
  | Binary _ _ left_ right_ =>
      match type_check column_types result left_ right_ with
      | None => result
      | Some result =>
          if is_null_value right_
             && negb (py_in (type_of (snd condition))
                        [PyStr "IS"; PyStr "IS NOT"])
          then report result NullComparisonError
                 [py_str (type_of (snd condition))]
          else result
      end
  | _ => result
  end.

Definition where_rule (md : SchemaCatalog) (s : statement) (result : Result)
    : Result :=
  match where_ s with
  | None => result
  | Some where_clause =>
      fold_left (check_condition (column_types_of md))
        (find_all is_Binary where_clause) result
  end.

Definition _validate_where (self : validator) (result : Result)
    : Py.res Result :=
  with_parsed self (fun s => Py.Return (where_rule (metadata self) s result)).

(* ---------------------------------------------------------------- *)
(** *** [_validate_having] *)

(** What one select-list expression adds to [select_columns]. *)
Definition expose (select_columns : list string) (e : expr) : list string :=
  match e with
  | Alias inner_expr alias =>
      let select_columns := set_add alias select_columns in
      if is_Column inner_expr then
        let select_columns := set_add (name_of inner_expr) select_columns in
        if Str.truthy (table_of inner_expr)
        then set_add (table_of inner_expr ++ "." ++ name_of inner_expr)%string
               select_columns
        else select_columns
      else select_columns
  | Column table name =>
      let select_columns := set_add name select_columns in
      if Str.truthy table
      then set_add (table ++ "." ++ name)%string select_columns
      else select_columns
  | AggFunc _ _ => select_columns
  | _ =>
      if Str.truthy (alias_of e)
      then set_add (alias_of e) select_columns
      else set_add (sql_text e) select_columns
  end.

(** The body of [for column in having_clause.find_all(exp.Column)]. *)
Definition check_having_column (select_columns : list string)
    (result : Result) (column : visited) : Result :=
  if parent_is_AggFunc column then result
  else
    let full_name := qualified_name (snd column) in
    let simple_name := name_of (snd column) in
    if negb (Str.In_b full_name select_columns)
       && negb (Str.In_b simple_name select_columns)
    then report result IllegalHavingColumn [full_name]
    else result.

(** The body of [for expr in self.parsed.selects], which holds the loop
    over the HAVING columns; the state is [(select_columns, result)]. *)
Definition having_step (having_clause : expr)
    (st : list string * Result) (e : expr) : list string * Result :=
  let select_columns := expose (fst st) e in
  (select_columns,
   fold_left (check_having_column select_columns)
     (find_all is_Column having_clause) (snd st)).

Definition having_rule (s : statement) (result : Result) : Result :=
  match having s with
  | None => result
  | Some having_clause =>
      let result :=
        if negb (is_some (group s)) then
          if negb (nonempty (find_all is_AggFunc having_clause))
          then report result MisusedHaving []
          else result
        else result in
      snd (fold_left (having_step having_clause) (expressions s) ([], result))
  end.

Definition _validate_having (self : validator) (result : Result)
    : Py.res Result :=
  with_parsed self (fun s => Py.Return (having_rule s result)).

(* ---------------------------------------------------------------- *)
(** *** [_extract_tables_and_columns], [_validate_tables_and_columns] *)

Record extraction : Type := {
  tables : list string;
  columns : list string;
  table_aliases : Dict.t string
}.

Definition extract_tables_and_columns (s : statement) : extraction :=
  let from_tables := match from_ s with Some ts => ts | None => [] end in
  let tables :=
    map t_name from_tables ++ map (fun j => t_name (j_this j)) (joins s) in
  let columns :=
    map (fun v => name_of (snd v)) (find_all_in_statement is_Column s) in
  {| tables := set_iter tables;
     columns := set_iter columns;
     table_aliases := table_aliases_of s |}.

Definition tables_and_columns_rule (md : SchemaCatalog) (s : statement)
    (result : Result) : Result :=
  let extraction_result := extract_tables_and_columns s in
  let all_columns := flat_map (fun tc => Dict.keys (snd tc)) md in
  let result :=
    fold_left
      (fun result table =>
         if negb (Dict.mem md table)
         then report result TableNotFound (table :: Dict.keys md)
         else result)
      (tables extraction_result) result in
  fold_left
    (fun result column =>
       if negb (Str.In_b column all_columns)
       then report result ColumnNotFound (column :: set_iter all_columns)
       else result)
    (columns extraction_result) result.

Definition _validate_tables_and_columns (self : validator) (result : Result)
    : Py.res Result :=
  with_parsed self
    (fun s => Py.Return (tables_and_columns_rule (metadata self) s result)).

(* ---------------------------------------------------------------- *)
(** *** [validate] *)

(** [isinstance(self.parsed, exp.Select)] *)
Definition parsed_is_Select (self : validator) : bool :=
  match parsed self with
  | Some s => match class s with Select => true | OtherStatement => false end
  | None => false
  end.

(** The statements of [validate] after the [try] block. *)
Definition run_rules (self : validator) (result : Result) : Py.res Result :=
  result <- (if parsed_is_Select self
             then _validate_select_statement self result
             else Py.Return result) ;;
  result <- _validate_joins self result ;;
  result <- _validate_where self result ;;
  result <- _validate_having self result ;;
  if Dict.nonempty (metadata self)
  then _validate_tables_and_columns self result
  else Py.Return result.

(** [validate(query)]: the object after the call, and what the call
    returns or raises. *)
Definition validate (self : validator) (q : string)
    : validator * Py.res Result :=
  let self := {| metadata := metadata self; parsed := parsed self; query := q |} in
  let result := fresh_result in
  match parse_one q with
  | Parsed s =>
      let self := {| metadata := metadata self; parsed := Some s; query := q |} in
      (self, run_rules self result)
  | ParseError msg =>
      let result := report result SyntaxError [msg] in
      (self, run_rules self result)
  | OtherFault e => (self, Py.Raise e)
  end.

(* ---------------------------------------------------------------- *)
(** *** [get_formatted_errors] *)

Inductive formatted : Type :=
| PassMessage                                  (* "✅ 查询验证通过，未发现错误" *)
| ErrorList (entries : list (nat * Diagnostic)). (* numbered from 1 *)

Definition get_formatted_errors (result : Result) : formatted :=
  if is_valid result then PassMessage
  else ErrorList (combine (seq 1 (List.length (errors result))) (errors result)).

End Validator.

Arguments validate parse_one sql_text set_iter self q : assert.

(* ================================================================== *)
(** ** Example inputs *)

Module Examples.

Definition table (n : string) : table_ref := {| t_name := n; t_alias := EmptyString |}.

Definition select (exprs : list expr) (tables : list table_ref)
    (js : list join) (w : option expr) (g : option (list expr))
    (h : option expr) : statement :=
  {| class := Select; expressions := exprs; from_ := Some tables;
     joins := js; where_ := w; group := g; having := h; rest := [] |}.

(** A parser that knows one query text. *)
Definition parser (text : string) (s : statement) : string -> parse_outcome :=
  fun q => if String.eqb q text then Parsed s
           else ParseError "Invalid expression / Unexpected token".

(** A parser that rejects every text. *)
Definition rejecting_parser : string -> parse_outcome :=
  fun _ => ParseError "Invalid expression / Unexpected token".

Definition first_seen : list string -> list string := nodup string_dec.

Definition no_text : expr -> string := fun _ => EmptyString.

Definition users_catalog : SchemaCatalog :=
  [("users", [("user_id", "integer");
              ("username", "character varying");
              ("e_mail", "character varying")])].

(** [SELECT user_id FROM users WHERE e_mail IS NULL] *)
Definition is_null_text : string :=
  "SELECT user_id FROM users WHERE e_mail IS NULL".
Definition is_null_query : statement :=
  select [Column EmptyString "user_id"] [table "users"] []
    (Some (Binary Is None (Column EmptyString "e_mail") Null)) None None.

(** [SELECT user_id FROM users WHERE e_mail IS NOT NULL] *)
Definition is_not_null_query : statement :=
  select [Column EmptyString "user_id"] [table "users"] []
    (Some (Unary Not (Binary Is None (Column EmptyString "e_mail") Null))) None None.

(** [SELECT user_id FROM users WHERE e_mail = NULL] *)
Definition eq_null_query : statement :=
  select [Column EmptyString "user_id"] [table "users"] []
    (Some (Binary EQ None (Column EmptyString "e_mail") Null)) None None.

(** [SELECT user_id FROM users WHERE 'abc' = user_id] *)
Definition literal_left_text : string :=
  "SELECT user_id FROM users WHERE 'abc' = user_id".
Definition literal_left_query : statement :=
  select [Column EmptyString "user_id"] [table "users"] []
    (Some (Binary EQ None (Literal "abc" true) (Column EmptyString "user_id")))
    None None.

(** [SELECT user_id, COUNT( * ) FROM users] *)
Definition no_group_text : string := "SELECT user_id, COUNT(*) FROM users".
Definition no_group_query : statement :=
  select [Column EmptyString "user_id"; AggFunc "COUNT" [Star]] [table "users"] []
    None None None.

(** [SELECT user_id AS uid, COUNT( * ) FROM users] *)
Definition aliased_text : string :=
  "SELECT user_id AS uid, COUNT(*) FROM users".
Definition aliased_query : statement :=
  select [Alias (Column EmptyString "user_id") "uid"; AggFunc "COUNT" [Star]]
    [table "users"] [] None None None.

(** [SELECT * FROM a JOIN b ON a.x = b.x JOIN c USING (y)] with [y] a
    column of [b] and [c] only. *)
Definition abc_catalog : SchemaCatalog :=
  [("a", [("x", "integer")]);
   ("b", [("x", "integer"); ("y", "integer")]);
   ("c", [("y", "integer")])].
Definition join_b : join :=
  {| j_kind := EmptyString; j_this := table "b";
     j_on := Some (Binary EQ None (Column "a" "x") (Column "b" "x"));
     j_using := [] |}.
Definition join_c_using_y : join :=
  {| j_kind := EmptyString; j_this := table "c"; j_on := None; j_using := ["y"] |}.
Definition three_tables_text : string :=
  "SELECT * FROM a JOIN b ON a.x = b.x JOIN c USING (y)".
Definition three_tables_query : statement :=
  select [Star] [table "a"] [join_b; join_c_using_y] None None None.

(** [SELECT * FROM a JOIN b ON a.x = b.x] *)
Definition two_tables_text : string := "SELECT * FROM a JOIN b ON a.x = b.x".
Definition two_tables_query : statement :=
  select [Star] [table "a"] [join_b] None None None.

(** [SELECT * FROM a CROSS JOIN b] *)
Definition cross_join : join :=
  {| j_kind := "CROSS"; j_this := table "b"; j_on := None; j_using := [] |}.
Definition cross_join_query : statement :=
  select [Star] [table "a"] [cross_join] None None None.

(** [SELECT COUNT( * ), user_id FROM users GROUP BY user_id
     HAVING user_id > 0] *)
Definition having_exposed_text : string :=
  "SELECT COUNT(*), user_id FROM users GROUP BY user_id HAVING user_id > 0".
Definition having_exposed_query : statement :=
  select [AggFunc "COUNT" [Star]; Column EmptyString "user_id"] [table "users"] []
    None (Some [Column EmptyString "user_id"])
    (Some (Binary GT None (Column EmptyString "user_id") (Literal "0" false))).

(** [SELECT user_id, COUNT( * ) FROM users GROUP BY user_id
     HAVING phone_num > 0] *)
Definition having_hidden_text : string :=
  "SELECT user_id, COUNT(*) FROM users GROUP BY user_id HAVING phone_num > 0".
Definition having_hidden_query : statement :=
  select [Column EmptyString "user_id"; AggFunc "COUNT" [Star]] [table "users"] []
    None (Some [Column EmptyString "user_id"])
    (Some (Binary GT None (Column EmptyString "phone_num") (Literal "0" false))).

End Examples.

(* ================================================================== *)
(** ** Notions used in the statements *)

(** [r'] is [r] after zero or more entries were appended, all of kinds that
    [allowed] accepts, with [is_valid] cleared as soon as one was. *)
Definition emits (allowed : DiagKind -> bool) (r r' : Result) : Prop :=
  exists ds,
    errors r' = errors r ++ ds
    /\ is_valid r' = is_valid r && negb (nonempty ds)
    /\ forallb (fun d => allowed (kind d)) ds = true.

(** The flag and the list agree. *)
Definition consistent (r : Result) : Prop :=
  is_valid r = false <-> errors r <> [].

Definition any_kind : DiagKind -> bool := fun _ => true.

(** The kinds that the loop over USING and ON columns can append. *)
Definition join_column_kind (k : DiagKind) : bool :=
  match k with
  | ColumnNotFound | JoinError | UnknownTableReference => true
  | _ => false
  end.

(** The kinds that each rule can append. *)
Definition join_kind (k : DiagKind) : bool :=
  match k with
  | MissingJoinCondition => true
  | _ => join_column_kind k
  end.

Definition select_kind (k : DiagKind) : bool :=
  match k with
  | MissingFrom | MissingGroupBy | IncompleteGroupBy => true
  | _ => false
  end.

Definition where_kind (k : DiagKind) : bool :=
  match k with
  | TypeMismatch | NullComparisonError => true
  | _ => false
  end.

Definition having_kind (k : DiagKind) : bool :=
  match k with
  | MisusedHaving | IllegalHavingColumn => true
  | _ => false
  end.

Definition catalog_kind (k : DiagKind) : bool :=
  match k with
  | TableNotFound | ColumnNotFound => true
  | _ => false
  end.

(** The kinds that the rules after [_validate_select_statement] append. *)
Definition later_kind (k : DiagKind) : bool :=
  join_kind k || where_kind k || having_kind k || catalog_kind k.

(** The rules that follow [_validate_joins], as one pure step. *)
Definition later_rules (sql_text : expr -> string)
    (set_iter : list string -> list string) (md : SchemaCatalog)
    (s : statement) (r2 : Result) : Result :=
  let r3 := where_rule md s r2 in
  let r4 := having_rule sql_text s r3 in
  if Dict.nonempty md then tables_and_columns_rule set_iter md s r4 else r4.

(** Some node of the tree [e] is of class [cls]. *)
Fixpoint contains (cls : expr -> bool) (e : expr) : bool :=
  cls e ||
  match e with
  | Binary _ _ l r => contains cls l || contains cls r
  | Unary _ e' => contains cls e'
  | AggFunc _ args => existsb (contains cls) args
  | Func _ args => existsb (contains cls) args
  | Alias e' _ => contains cls e'
  | _ => false
  end.

(** The ColumnMap of table [t] exists and contains column [c]. *)
Definition column_in_table (md : SchemaCatalog) (t c : string) : bool :=
  match Dict.get md t with
  | Some cols => Dict.mem cols c
  | None => false
  end.

(** The entries of a join's table list whose ColumnMap contains [c]. *)
Definition tables_with_column (md : SchemaCatalog) (c : string)
    (join_tables : list table_info) : list table_info :=
  filter (fun ti => column_in_table md (name ti) c) join_tables.

(** A join with neither ON nor USING. *)
Definition no_condition (j : join) : bool :=
  negb (is_some (j_on j)) && negb (nonempty (j_using j)).

(** The real table that a qualifier stands for: [table_aliases[q]] when
    [q] is a key, [q] itself otherwise. *)
Definition resolve (table_aliases : Dict.t string) (q : string) : string :=
  match Dict.get table_aliases q with
  | Some t => t
  | None => q
  end.

(** The select-exposed names of a whole select list. *)
Definition exposed_names (sql_text : expr -> string) (exprs : list expr)
    : list string :=
  fold_left (expose sql_text) exprs [].

(* ================================================================== *)
(** ** Notions used for the rules taken together *)

(** [r] with the entries [ds] appended behind its own. *)
Definition append_entries (r : Result) (ds : list Diagnostic) : Result :=
  {| is_valid := is_valid r && negb (nonempty ds); errors := errors r ++ ds |}.

(** A step that appends entries which do not depend on the result it is
    given. *)
Definition appends (f : Result -> Result) : Prop :=
  forall r, f r = append_entries r (errors (f fresh_result)).

(** The same for a step that may raise. *)
Definition appendsM (f : Result -> Py.res Result) : Prop :=
  forall r,
    f r = match f fresh_result with
          | Py.Return r0 => Py.Return (append_entries r (errors r0))
          | Py.Raise e => Py.Raise e
          end.

(** How many entries of kind [k] a list holds. *)
Definition count_in (k : DiagKind) (ds : list Diagnostic) : nat :=
  List.length (filter (fun d => DiagKind_eqb (kind d) k) ds).

(** The first interpolated value of an entry: the table or column that the
    entry is about. *)
Definition subject (d : Diagnostic) : string := hd EmptyString (info d).

(** How many entries of kind [k] about [x] a list holds. *)
Definition count_about (k : DiagKind) (x : string) (ds : list Diagnostic) : nat :=
  List.length
    (filter (fun d => DiagKind_eqb (kind d) k && String.eqb (subject d) x) ds).

(** What each rule reports when it starts from the fresh result. *)
Definition select_entries (set_iter : list string -> list string)
    (s : statement) : list Diagnostic :=
  match class s with
  | Select => errors (select_rule set_iter s fresh_result)
  | OtherStatement => []
  end.

Definition join_entries (md : SchemaCatalog) (s : statement) : list Diagnostic :=
  match joins_rule md s fresh_result with
  | Py.Return r => errors r
  | Py.Raise _ => []
  end.

Definition where_entries (md : SchemaCatalog) (s : statement) : list Diagnostic :=
  errors (where_rule md s fresh_result).

Definition having_entries (sql_text : expr -> string) (s : statement)
    : list Diagnostic :=
  errors (having_rule sql_text s fresh_result).

Definition catalog_entries (set_iter : list string -> list string)
    (md : SchemaCatalog) (s : statement) : list Diagnostic :=
  if Dict.nonempty md
  then errors (tables_and_columns_rule set_iter md s fresh_result)
  else [].

Definition all_entries (sql_text : expr -> string)
    (set_iter : list string -> list string) (md : SchemaCatalog)
    (s : statement) : list Diagnostic :=
  select_entries set_iter s ++ join_entries md s ++ where_entries md s
  ++ having_entries sql_text s ++ catalog_entries set_iter md s.

(** The (alias, table) pairs in the order in which [_validate_joins] writes
    them into [table_aliases]: the FROM tables, then the joins. *)
Definition alias_bindings (s : statement) : list (string * string) :=
  map (fun t => (alias_or_name t, t_name t))
    (match from_ s with Some ts => ts | None => [] end)
  ++ map (fun j => (alias_or_name (j_this j), t_name (j_this j))) (joins s).

(** The (column, type) pairs of the catalog, table after table. *)
Definition catalog_columns (md : SchemaCatalog) : list (string * string) :=
  flat_map snd md.

(** The table names that [_extract_tables_and_columns] collects. *)
Definition referenced_tables (s : statement) : list string :=
  map t_name (match from_ s with Some ts => ts | None => [] end)
  ++ map (fun j => t_name (j_this j)) (joins s).

(** The column names that [_extract_tables_and_columns] collects. *)
Definition referenced_columns (s : statement) : list string :=
  map (fun v => name_of (snd v)) (find_all_in_statement is_Column s).

(** [set_iter] enumerates the elements of a set once each. *)
Definition enumerates_sets (set_iter : list string -> list string) : Prop :=
  forall l, NoDup (set_iter l) /\ forall x, In x (set_iter l) <-> In x l.

(** A text made of ASCII digits with at most one dot and at least one
    digit. *)
Definition numeric_literal (v : string) : Prop :=
  (v <> EmptyString /\ Str.all_digits v = true)
  \/ exists a b,
       v = (a ++ "." ++ b)%string
       /\ Str.all_digits a = true /\ Str.all_digits b = true
       /\ (a ++ b)%string <> EmptyString.

(** A HAVING column that the check reports against the names
    [select_columns]. *)
Definition hidden_from (select_columns : list string) (column : visited) : bool :=
  negb (parent_is_AggFunc column)
  && (negb (Str.In_b (qualified_name (snd column)) select_columns)
      && negb (Str.In_b (name_of (snd column)) select_columns)).

(** The right operand of a binary node is a NULL. *)
Definition null_on_the_right (v : visited) : bool :=
  match snd v with
  | Binary _ _ _ rhs => is_null_value rhs
  | _ => false
  end.

(** A text whose characters are all ASCII. *)
Fixpoint ascii_text (v : string) : bool :=
  match v with
  | EmptyString => true
  | String c v' => (nat_of_ascii c <? 128)%nat && ascii_text v'
  end.

(** The entry of a join's own table in a table list. *)
Definition own_table (j : join) : table_info :=
  {| name := t_name (j_this j); alias := alias_or_name (j_this j) |}.

(** The JoinTableSet of the [k]-th join in the words of the specification
    (4.1): the tables accumulated from FROM and from the joins before it,
    and the join's own table, that is the FROM tables and the tables of
    joins 1 to [k]. *)
Definition spec_JoinTableSet (s : statement) (k : nat) : list table_info :=
  base_tables_of s ++ map own_table (firstn k (joins s)).

(* ================================================================== *)
(** ** Facts about the Python layer *)

Lemma bind_Return_inv {A B} (m : Py.res A) (k : A -> Py.res B) (b : B) :
  Py.bind m k = Py.Return b -> exists a, m = Py.Return a /\ k a = Py.Return b.
Proof.
  destruct m as [a|e]; simpl; intros H.
  - exists a. split; [reflexivity | exact H].
  - discriminate H.
Qed.

(** A loop whose body always returns, returns. *)
Lemma for_each_total {A S} (body : S -> A -> Py.res S) (xs : list A) :
  (forall s x, In x xs -> exists s', body s x = Py.Return s') ->
  forall s, exists s', Py.for_each body xs s = Py.Return s'.
Proof.
  induction xs as [|x xs IH]; intros Hbody s; simpl.
  - exists s. reflexivity.
  - destruct (Hbody s x (or_introl eq_refl)) as [s1 H1]. rewrite H1. simpl.
    apply IH. intros s0 y Hy. apply Hbody. right. exact Hy.
Qed.

(** A loop whose body is a pure function is a left fold. *)
Lemma for_each_pure {A S} (body : S -> A -> Py.res S) (f : S -> A -> S)
    (xs : list A) :
  (forall s x, In x xs -> body s x = Py.Return (f s x)) ->
  forall s, Py.for_each body xs s = Py.Return (fold_left f xs s).
Proof.
  induction xs as [|x xs IH]; intros Hbody s; simpl.
  - reflexivity.
  - rewrite (Hbody s x (or_introl eq_refl)). simpl.
    apply IH. intros s0 y Hy. apply Hbody. right. exact Hy.
Qed.

Lemma Dict_mem_get {V} (d : Dict.t V) (k : string) :
  Dict.mem d k = true -> exists v, Dict.get d k = Some v.
Proof.
  unfold Dict.mem. destruct (Dict.get d k) as [v|]; intros H.
  - exists v. reflexivity.
  - discriminate H.
Qed.

Lemma Dict_keys_mem {V} (d : Dict.t V) (k : string) :
  In k (Dict.keys d) -> Dict.mem d k = true.
Proof.
  unfold Dict.mem, Dict.keys.
  induction d as [|[k' v] d IH]; simpl; intros H.
  - contradiction.
  - destruct (String.eqb k' k) eqn:E; [reflexivity|].
    destruct H as [H|H].
    + subst k'. rewrite String.eqb_refl in E. discriminate E.
    + apply IH. exact H.
Qed.

Lemma In_b_In (x : string) (l : list string) :
  Str.In_b x l = true <-> In x l.
Proof.
  unfold Str.In_b. rewrite existsb_exists. split.
  - intros [y [Hy E]]. apply String.eqb_eq in E. subst y. exact Hy.
  - intros H. exists x. split; [exact H | apply String.eqb_refl].
Qed.

Lemma nonempty_In {A} (x : A) (l : list A) : In x l -> nonempty l = true.
Proof. destruct l; simpl; [contradiction | reflexivity]. Qed.

(* ================================================================== *)
(** ** Appending entries: [emits] *)

Lemma emits_refl (a : DiagKind -> bool) (r : Result) : emits a r r.
Proof.
  exists []. rewrite app_nil_r. simpl. rewrite andb_true_r. auto.
Qed.

Lemma emits_report (a : DiagKind -> bool) (r : Result) (k : DiagKind)
    (i : list string) :
  a k = true -> emits a r (report r k i).
Proof.
  intros Hk. exists [{| kind := k; info := i |}]. simpl.
  rewrite Hk, andb_false_r. auto.
Qed.

Lemma emits_trans (a : DiagKind -> bool) (r1 r2 r3 : Result) :
  emits a r1 r2 -> emits a r2 r3 -> emits a r1 r3.
Proof.
  intros [ds1 [E1 [V1 F1]]] [ds2 [E2 [V2 F2]]].
  exists (ds1 ++ ds2). repeat split.
  - rewrite E2, E1, app_assoc. reflexivity.
  - rewrite V2, V1. destruct ds1, ds2; simpl;
      rewrite ?andb_true_r, ?andb_false_r; reflexivity.
  - rewrite forallb_app, F1, F2. reflexivity.
Qed.

Lemma emits_weaken (a b : DiagKind -> bool) (r r' : Result) :
  (forall k, a k = true -> b k = true) -> emits a r r' -> emits b r r'.
Proof.
  intros Hab [ds [E [V F]]]. exists ds. repeat split; auto.
  rewrite forallb_forall in *. intros d Hd. apply Hab, F, Hd.
Qed.

Lemma emits_fold_left {A} (a : DiagKind -> bool) (f : Result -> A -> Result)
    (xs : list A) :
  (forall r x, emits a r (f r x)) ->
  forall r, emits a r (fold_left f xs r).
Proof.
  intros Hf. induction xs as [|x xs IH]; intros r; simpl.
  - apply emits_refl.
  - eapply emits_trans; [apply Hf | apply IH].
Qed.

Lemma emits_for_each {A} (a : DiagKind -> bool)
    (body : Result -> A -> Py.res Result) (xs : list A) :
  (forall r x r', body r x = Py.Return r' -> emits a r r') ->
  forall r r', Py.for_each body xs r = Py.Return r' -> emits a r r'.
Proof.
  intros Hbody. induction xs as [|x xs IH]; intros r r' H; simpl in H.
  - injection H as <-. apply emits_refl.
  - apply bind_Return_inv in H. destruct H as [r1 [H1 H2]].
    eapply emits_trans; [eapply Hbody; exact H1 | apply IH; exact H2].
Qed.

Lemma emits_consistent (a : DiagKind -> bool) (r r' : Result) :
  consistent r -> emits a r r' -> consistent r'.
Proof.
  unfold consistent. intros [C1 C2] [ds [E [V F]]]. rewrite E, V.
  destruct ds as [|d ds].
  - simpl. rewrite andb_true_r, app_nil_r. split; assumption.
  - simpl. rewrite andb_false_r. split; [|reflexivity].
    intros _ H. apply app_eq_nil in H. destruct H as [_ H]. discriminate H.
Qed.

Lemma count_kind_app (k : DiagKind) (r r' : Result) (ds : list Diagnostic) :
  errors r' = errors r ++ ds ->
  count_kind k r' =
  count_kind k r + List.length (filter (fun d => DiagKind_eqb (kind d) k) ds).
Proof.
  unfold count_kind. intros ->. rewrite filter_app, length_app. reflexivity.
Qed.

Lemma DiagKind_eqb_eq (k k' : DiagKind) : DiagKind_eqb k k' = true <-> k = k'.
Proof.
  split.
  - destruct k, k'; simpl; intros H; try discriminate H; reflexivity.
  - intros ->. destruct k'; reflexivity.
Qed.

Lemma filter_kind_none (a : DiagKind -> bool) (k : DiagKind)
    (ds : list Diagnostic) :
  a k = false ->
  forallb (fun d => a (kind d)) ds = true ->
  filter (fun d => DiagKind_eqb (kind d) k) ds = [].
Proof.
  intros Hk. induction ds as [|d ds IH]; simpl; intros F; [reflexivity|].
  apply andb_true_iff in F. destruct F as [Fd F].
  destruct (DiagKind_eqb (kind d) k) eqn:E.
  - apply DiagKind_eqb_eq in E. congruence.
  - apply IH. exact F.
Qed.

(** Entries of other kinds leave the count of kind [k] alone. *)
Lemma emits_count (a : DiagKind -> bool) (k : DiagKind) (r r' : Result) :
  a k = false -> emits a r r' -> count_kind k r' = count_kind k r.
Proof.
  intros Hk [ds [E [_ F]]]. rewrite (count_kind_app k r r' ds E).
  rewrite (filter_kind_none a k ds Hk F). simpl. lia.
Qed.

Lemma count_kind_report (k k' : DiagKind) (r : Result) (i : list string) :
  count_kind k (report r k' i) =
  count_kind k r + (if DiagKind_eqb k' k then 1 else 0).
Proof.
  rewrite (count_kind_app k r (report r k' i) [{| kind := k'; info := i |}]);
    [|reflexivity].
  simpl. destruct (DiagKind_eqb k' k); reflexivity.
Qed.

(** Goals [emits a r r'] where [r'] is [r] under conditionals and
    [report]s. *)
Ltac emits_cases :=
  repeat first
    [ apply emits_refl
    | apply emits_report; reflexivity
    | match goal with
      | |- emits _ _ (if ?b then _ else _) => destruct b
      | |- emits _ _ (report ?r0 _ _) =>
          apply (emits_trans _ _ r0); [|apply emits_report; reflexivity]
      end ].

(* ================================================================== *)
(** ** The join rule: guarded look-ups never fail *)

Lemma getitem_of_mem {V} (d : Dict.t V) (k : string) :
  Dict.mem d k = true -> exists v, Dict.getitem d k = Py.Return v.
Proof.
  intros H. destruct (Dict_mem_get d k H) as [v Hv].
  exists v. unfold Dict.getitem. rewrite Hv. reflexivity.
Qed.

Lemma has_column_eq (md : SchemaCatalog) (t c : string) :
  has_column md t c = Py.Return (column_in_table md t c).
Proof.
  unfold has_column, column_in_table, Dict.mem, Dict.getitem.
  destruct (Dict.get md t); reflexivity.
Qed.

Lemma using_valid_tables_from (md : SchemaCatalog) (c : string)
    (jts : list table_info) (acc : list string) :
  Py.for_each
    (fun valid_tables table_info =>
       hit <- has_column md (name table_info) c ;;
       Py.Return (if hit then valid_tables ++ [alias table_info]
                  else valid_tables))
    jts acc
  = Py.Return (acc ++ map alias (tables_with_column md c jts)).
Proof.
  revert acc. induction jts as [|ti jts IH]; intros acc; simpl.
  - rewrite app_nil_r. reflexivity.
  - rewrite has_column_eq. simpl. rewrite IH.
    destruct (column_in_table md (name ti) c); simpl.
    + rewrite <- app_assoc. reflexivity.
    + reflexivity.
Qed.

Lemma using_valid_tables_eq (md : SchemaCatalog) (c : string)
    (jts : list table_info) :
  using_valid_tables md c jts
  = Py.Return (map alias (tables_with_column md c jts)).
Proof. unfold using_valid_tables. apply using_valid_tables_from. Qed.

Lemma available_columns_total (md : SchemaCatalog) (jts : list table_info) :
  exists l, available_columns md jts = Py.Return l.
Proof.
  unfold available_columns. apply for_each_total.
  intros acc t Ht. destruct (Str.In_b t (map name jts)).
  - destruct (getitem_of_mem md t (Dict_keys_mem md t Ht)) as [cols Hc].
    rewrite Hc. simpl. eexists. reflexivity.
  - eexists. reflexivity.
Qed.

(** One USING column: the call returns, and the number of joined tables
    that hold the column picks the entry. *)
Lemma check_using_column_cases (md : SchemaCatalog) (jts : list table_info)
    (r : Result) (col : string) :
  exists r',
    check_using_column md jts r col = Py.Return r'
    /\ match List.length (tables_with_column md col jts) with
       | 0 => exists i, r' = report r ColumnNotFound i
       | 1 => exists i, r' = report r JoinError i
       | _ => r' = r
       end.
Proof.
  unfold check_using_column. rewrite using_valid_tables_eq. simpl.
  destruct (tables_with_column md col jts) as [|t1 [|t2 ts]]; simpl.
  - destruct (available_columns_total md jts) as [l Hl]. rewrite Hl. simpl.
    eexists. split; [reflexivity|]. eexists. reflexivity.
  - eexists. split; [reflexivity|]. eexists. reflexivity.
  - eexists. split; reflexivity.
Qed.

Lemma check_using_column_emits (md : SchemaCatalog) (jts : list table_info)
    (r r' : Result) (col : string) :
  check_using_column md jts r col = Py.Return r' -> emits join_column_kind r r'.
Proof.
  intros H. destruct (check_using_column_cases md jts r col) as [r0 [H0 C]].
  rewrite H0 in H. injection H as <-.
  destruct (List.length (tables_with_column md col jts)) as [|[|n]].
  - destruct C as [i ->]. apply emits_report. reflexivity.
  - destruct C as [i ->]. apply emits_report. reflexivity.
  - subst r0. apply emits_refl.
Qed.

Lemma resolve_eq (table_aliases : Dict.t string) (q : string) :
  (if Dict.mem table_aliases q then Dict.getitem table_aliases q
   else Py.Return q) = Py.Return (resolve table_aliases q).
Proof.
  unfold resolve, Dict.mem, Dict.getitem.
  destruct (Dict.get table_aliases q); reflexivity.
Qed.

(** One ON column: the call returns, and says which of the three ways. *)
Lemma check_on_column_cases (md : SchemaCatalog) (table_aliases : Dict.t string)
    (jts : list table_info) (r : Result) (column : visited) :
  let real_table := resolve table_aliases (table_of (snd column)) in
  exists r',
    check_on_column md table_aliases jts r column = Py.Return r'
    /\ (if negb (existsb (fun t => String.eqb (name t) real_table) jts)
        then exists i, r' = report r UnknownTableReference i
        else if column_in_table md real_table (name_of (snd column))
        then r' = r
        else exists i, r' = report r ColumnNotFound i).
Proof.
  intros real_table. unfold check_on_column. rewrite resolve_eq. simpl.
  fold real_table.
  destruct (existsb (fun t => String.eqb (name t) real_table) jts); simpl.
  - rewrite has_column_eq. simpl.
    destruct (column_in_table md real_table (name_of (snd column))).
    + eexists. split; reflexivity.
    + destruct (Dict.mem md real_table) eqn:M.
      * destruct (getitem_of_mem md real_table M) as [cols Hc].
        rewrite Hc. simpl. eexists. split; [reflexivity|]. eexists. reflexivity.
      * simpl. eexists. split; [reflexivity|]. eexists. reflexivity.
  - eexists. split; [reflexivity|]. eexists. reflexivity.
Qed.

Lemma check_on_column_emits (md : SchemaCatalog) (table_aliases : Dict.t string)
    (jts : list table_info) (r r' : Result) (column : visited) :
  check_on_column md table_aliases jts r column = Py.Return r' ->
  emits join_column_kind r r'.
Proof.
  intros H.
  destruct (check_on_column_cases md table_aliases jts r column) as [r0 [H0 C]].
  rewrite H0 in H. injection H as <-.
  destruct (negb _).
  - destruct C as [i ->]. apply emits_report. reflexivity.
  - destruct (column_in_table _ _ _).
    + subst r0. apply emits_refl.
    + destruct C as [i ->]. apply emits_report. reflexivity.
Qed.

Lemma check_join_total (md : SchemaCatalog) (base : list table_info)
    (table_aliases : Dict.t string) (r : Result) (j : join) :
  exists r', check_join md base table_aliases r j = Py.Return r'.
Proof.
  unfold check_join.
  destruct (negb (is_some (j_on j)) && negb (nonempty (j_using j))).
  - eexists. reflexivity.
  - destruct (nonempty (j_using j)).
    + apply for_each_total. intros r0 col _.
      destruct (check_using_column_cases md (join_tables_of base j) r0 col)
        as [r1 [H1 _]].
      exists r1. exact H1.
    + destruct (j_on j) as [on|].
      * apply for_each_total. intros r0 column _.
        destruct (check_on_column_cases md table_aliases
                    (join_tables_of base j) r0 column) as [r1 [H1 _]].
        exists r1. exact H1.
      * eexists. reflexivity.
Qed.

(** A join with a condition appends only column entries. *)
Lemma check_join_emits (md : SchemaCatalog) (base : list table_info)
    (table_aliases : Dict.t string) (r r' : Result) (j : join) :
  no_condition j = false ->
  check_join md base table_aliases r j = Py.Return r' ->
  emits join_column_kind r r'.
Proof.
  unfold check_join, no_condition. intros -> H.
  destruct (nonempty (j_using j)).
  - revert H. apply emits_for_each. intros r0 col r1.
    apply check_using_column_emits.
  - destruct (j_on j) as [on|].
    + revert H. apply emits_for_each. intros r0 column r1.
      apply check_on_column_emits.
    + injection H as <-. apply emits_refl.
Qed.

Lemma check_join_no_condition (md : SchemaCatalog) (base : list table_info)
    (table_aliases : Dict.t string) (r : Result) (j : join) :
  no_condition j = true ->
  check_join md base table_aliases r j
  = Py.Return (report r MissingJoinCondition [Str.upper (j_kind j)]).
Proof. unfold check_join, no_condition. intros ->. reflexivity. Qed.

Lemma joins_rule_total (md : SchemaCatalog) (s : statement) (r : Result) :
  exists r', joins_rule md s r = Py.Return r'.
Proof.
  unfold joins_rule. apply for_each_total. intros r0 j _. apply check_join_total.
Qed.

Lemma joins_rule_emits (md : SchemaCatalog) (s : statement) (r r' : Result) :
  joins_rule md s r = Py.Return r' -> emits join_kind r r'.
Proof.
  unfold joins_rule. apply emits_for_each. intros r0 j r1 H.
  destruct (no_condition j) eqn:N.
  - rewrite check_join_no_condition in H by exact N. injection H as <-.
    apply emits_report. reflexivity.
  - apply (emits_weaken join_column_kind).
    + intros k Hk. destruct k; simpl in *; congruence.
    + eapply check_join_emits; eassumption.
Qed.

(* ================================================================== *)
(** ** What each of the other rules can append *)

Section RuleKinds.

Variable sql_text : expr -> string.
Variable set_iter : list string -> list string.

Lemma select_rule_emits (s : statement) (r : Result) :
  emits select_kind r (select_rule set_iter s r).
Proof. unfold select_rule. cbv zeta. emits_cases. Qed.

Lemma check_condition_emits (ct : Dict.t string) (r : Result) (c : visited) :
  emits where_kind r (check_condition ct r c).
Proof.
  unfold check_condition. destruct (snd c); try apply emits_refl.
  unfold type_check.
  destruct (is_Column e1 && is_Literal e2); simpl; [|emits_cases].
  destruct (Dict.get ct (name_of e1)) as [ty|]; [|apply emits_refl].
  destruct (negb (Str.truthy ty)); [apply emits_refl|].
  destruct (Str.startswith ty "integer" && is_string_of e2 && _);
    [emits_cases|].
  destruct (Str.startswith ty "character" && negb (is_string_of e2));
    emits_cases.
Qed.

Lemma where_rule_emits (md : SchemaCatalog) (s : statement) (r : Result) :
  emits where_kind r (where_rule md s r).
Proof.
  unfold where_rule. destruct (where_ s) as [w|]; [|apply emits_refl].
  apply emits_fold_left. intros r0 c. apply check_condition_emits.
Qed.

Lemma check_having_column_emits (sc : list string) (r : Result) (c : visited) :
  emits having_kind r (check_having_column sc r c).
Proof.
  unfold check_having_column.
  destruct (parent_is_AggFunc c); [apply emits_refl|].
  destruct (negb _ && negb _);
    [apply emits_report; reflexivity | apply emits_refl].
Qed.

Lemma having_loop_emits (h : expr) (es : list expr)
    (st : list string * Result) :
  emits having_kind (snd st)
    (snd (fold_left (having_step sql_text h) es st)).
Proof.
  revert st. induction es as [|e es IH]; intros st; simpl.
  - apply emits_refl.
  - eapply emits_trans; [|apply IH]. unfold having_step. simpl.
    apply emits_fold_left. intros r0 c. apply check_having_column_emits.
Qed.

Lemma having_rule_emits (s : statement) (r : Result) :
  emits having_kind r (having_rule sql_text s r).
Proof.
  unfold having_rule. destruct (having s) as [h|]; [|apply emits_refl].
  eapply emits_trans; [|apply (having_loop_emits h (expressions s) ([], _))].
  simpl. destruct (negb (is_some (group s))); [|apply emits_refl].
  destruct (negb _); [apply emits_report; reflexivity | apply emits_refl].
Qed.

Lemma tables_and_columns_rule_emits (md : SchemaCatalog) (s : statement)
    (r : Result) :
  emits catalog_kind r (tables_and_columns_rule set_iter md s r).
Proof.
  unfold tables_and_columns_rule. cbv zeta.
  match goal with
  | |- emits _ _ (fold_left _ _ (fold_left ?g ?ys ?r0)) =>
      apply (emits_trans _ _ (fold_left g ys r0))
  end.
  - apply emits_fold_left. intros r0 t. emits_cases.
  - apply emits_fold_left. intros r0 c. emits_cases.
Qed.

Lemma later_rules_emits (md : SchemaCatalog) (s : statement) (r : Result) :
  emits later_kind r (later_rules sql_text set_iter md s r).
Proof.
  unfold later_rules.
  apply (emits_trans _ _ (where_rule md s r)).
  { apply (emits_weaken where_kind); [|apply where_rule_emits].
    intros k H. unfold later_kind. rewrite H, !orb_true_r. reflexivity. }
  apply (emits_trans _ _ (having_rule sql_text s (where_rule md s r))).
  { apply (emits_weaken having_kind); [|apply having_rule_emits].
    intros k H. unfold later_kind. rewrite H, !orb_true_r. reflexivity. }
  destruct (Dict.nonempty md); [|apply emits_refl].
  apply (emits_weaken catalog_kind); [|apply tables_and_columns_rule_emits].
  intros k H. unfold later_kind. rewrite H, !orb_true_r. reflexivity.
Qed.

(** With a tree in [self.parsed] the rules run to the end: the only
    monadic step is the join rule, and it returns. *)
Lemma run_rules_parsed (self : validator) (s : statement) (r : Result) :
  parsed self = Some s ->
  let r1 := match class s with
            | Select => select_rule set_iter s r
            | OtherStatement => r
            end in
  exists r2,
    joins_rule (metadata self) s r1 = Py.Return r2
    /\ run_rules sql_text set_iter self r
       = Py.Return (later_rules sql_text set_iter (metadata self) s r2).
Proof.
  intros P r1.
  destruct (joins_rule_total (metadata self) s r1) as [r2 H2].
  exists r2. split; [exact H2|].
  unfold run_rules, parsed_is_Select, _validate_select_statement,
    _validate_joins, _validate_where, _validate_having,
    _validate_tables_and_columns, with_parsed.
  rewrite P. subst r1. unfold later_rules.
  destruct (class s); simpl; rewrite H2; simpl;
    destruct (Dict.nonempty (metadata self)); reflexivity.
Qed.

(** Without one, the first rule that reads [self.parsed.args] fails. *)
Lemma run_rules_unparsed (self : validator) (r : Result) :
  parsed self = None ->
  run_rules sql_text set_iter self r = Py.Raise Py.AttributeError.
Proof.
  intros P. unfold run_rules, parsed_is_Select, _validate_joins, with_parsed.
  rewrite P. reflexivity.
Qed.

Lemma run_rules_emits (self : validator) (r r' : Result) :
  run_rules sql_text set_iter self r = Py.Return r' -> emits any_kind r r'.
Proof.
  intros H. destruct (parsed self) as [s|] eqn:P.
  - destruct (run_rules_parsed self s r P) as [r2 [H2 H3]].
    rewrite H3 in H. injection H as <-.
    apply (emits_trans _ _
             (match class s with
              | Select => select_rule set_iter s r
              | OtherStatement => r
              end)).
    { destruct (class s); [|apply emits_refl].
      apply (emits_weaken select_kind); [reflexivity | apply select_rule_emits]. }
    apply (emits_trans _ _ r2).
    { apply (emits_weaken join_kind); [reflexivity|].
      eapply joins_rule_emits; exact H2. }
    apply (emits_weaken later_kind); [reflexivity | apply later_rules_emits].
  - rewrite run_rules_unparsed in H by exact P. discriminate H.
Qed.

End RuleKinds.

(* ================================================================== *)
(** ** Traversal: every node of a tree is visited *)

Lemma list_max_In (x : nat) (l : list nat) : In x l -> x <= list_max l.
Proof.
  intros H. assert (F : Forall (fun k => k <= list_max l) l).
  { apply list_max_le. apply Nat.le_refl. }
  rewrite Forall_forall in F. apply F. exact H.
Qed.

Lemma children_depth (e c : expr) : In c (children e) -> depth c < depth e.
Proof.
  destruct e; simpl; intros H; try contradiction.
  - destruct H as [<-|[<-|[]]]; lia.
  - destruct H as [<-|[]]. lia.
  - apply Nat.lt_succ_r. apply list_max_In. apply in_map. exact H.
  - apply Nat.lt_succ_r. apply list_max_In. apply in_map. exact H.
  - destruct H as [<-|[]]. lia.
Qed.

Lemma level_depth (n : nat) :
  forall (p : option expr) (e : expr) (v : visited),
    In v (level n p e) -> n <= depth e.
Proof.
  induction n as [|n IH]; intros p e v H; [lia|].
  simpl in H. apply in_flat_map in H. destruct H as [c [Hc Hv]].
  apply IH in Hv. apply children_depth in Hc. lia.
Qed.

Lemma level_in_walk (n : nat) (e : expr) (v : visited) :
  In v (level n None e) -> In v (walk e).
Proof.
  intros H. unfold walk. apply in_flat_map. exists n. split; [|exact H].
  apply in_seq. apply level_depth in H. lia.
Qed.

Lemma contains_children (cls : expr -> bool) (e : expr) :
  contains cls e = cls e || existsb (contains cls) (children e).
Proof.
  destruct e; simpl; rewrite ?orb_false_r; reflexivity.
Qed.

Lemma contains_level (cls : expr -> bool) (d : nat) :
  forall (e : expr) (p : option expr),
    depth e <= d -> contains cls e = true ->
    exists n v, In v (level n p e) /\ cls (snd v) = true.
Proof.
  induction d as [|d IH]; intros e p Hd Hc;
    rewrite contains_children in Hc; apply orb_true_iff in Hc;
    destruct Hc as [Hc|Hc].
  - exists 0, (p, e). split; [left; reflexivity | exact Hc].
  - apply existsb_exists in Hc. destruct Hc as [c [Hin _]].
    apply children_depth in Hin. lia.
  - exists 0, (p, e). split; [left; reflexivity | exact Hc].
  - apply existsb_exists in Hc. destruct Hc as [c [Hin Hcc]].
    assert (Hlt : depth c <= d) by (apply children_depth in Hin; lia).
    destruct (IH c (Some e) Hlt Hcc) as [n [v [Hv Hcls]]].
    exists (S n), v. split; [|exact Hcls].
    simpl. apply in_flat_map. exists c. split; assumption.
Qed.

(** [find_all] finds a node of a class whenever the tree has one. *)
Lemma contains_find_all (cls : expr -> bool) (e : expr) :
  contains cls e = true -> nonempty (find_all cls e) = true.
Proof.
  intros H.
  destruct (contains_level cls (depth e) e None (Nat.le_refl _) H)
    as [n [v [Hv Hcls]]].
  apply (nonempty_In v). unfold find_all. apply filter_In.
  split; [eapply level_in_walk; exact Hv | exact Hcls].
Qed.



(* ================================================================== *)
(** ** Parse failures *)

(** C1 (the code departs from the claim). When [parse_one] raises
    [ParseError] on the first query given to a validator, [validate] records
    the syntax entry, goes on to the rule methods, and the first of them to
    read [self.parsed.args] raises [AttributeError], [self.parsed] still
    being [None]: no result is returned. *)
Theorem validate_parse_failure_raises
    (parse_one : string -> parse_outcome) (sql_text : expr -> string)
    (set_iter : list string -> list string) (md : SchemaCatalog)
    (q msg : string) :
  parse_one q = ParseError msg ->
  snd (validate parse_one sql_text set_iter (new_validator md) q)
  = Py.Raise Py.AttributeError.
Proof.
  intros H. unfold validate. rewrite H. simpl.
  apply run_rules_unparsed. reflexivity.
Qed.

Lemma validate_parse_failure_raises_witness :
  Examples.rejecting_parser "SELECT * FROM users WHERE ("
    = ParseError "Invalid expression / Unexpected token"
  /\ snd (validate Examples.rejecting_parser Examples.no_text
            Examples.first_seen (new_validator Examples.users_catalog)
            "SELECT * FROM users WHERE (")
     = Py.Raise Py.AttributeError.
Proof.
  split; [reflexivity|].
  apply (validate_parse_failure_raises Examples.rejecting_parser
           Examples.no_text Examples.first_seen Examples.users_catalog
           "SELECT * FROM users WHERE ("
           "Invalid expression / Unexpected token").
  reflexivity.
Defined.

(** On a validator that still holds the tree of an earlier query, the rules
    run on that tree, after the syntax entry. *)
Lemma validate_parse_failure_reuses_tree
    (parse_one : string -> parse_outcome) (sql_text : expr -> string)
    (set_iter : list string -> list string) (self : validator)
    (q msg : string) :
  parse_one q = ParseError msg ->
  snd (validate parse_one sql_text set_iter self q)
  = run_rules sql_text set_iter
      {| metadata := metadata self; parsed := parsed self; query := q |}
      (report fresh_result SyntaxError [msg]).
Proof. intros H. unfold validate. rewrite H. reflexivity. Qed.

(** A fault of the parser that is not a [ParseError] leaves [validate]. *)
Lemma validate_other_fault
    (parse_one : string -> parse_outcome) (sql_text : expr -> string)
    (set_iter : list string -> list string) (self : validator)
    (q : string) (e : Py.exn) :
  parse_one q = OtherFault e ->
  snd (validate parse_one sql_text set_iter self q) = Py.Raise e.
Proof. intros H. unfold validate. rewrite H. reflexivity. Qed.

(* ================================================================== *)
(** ** NULL comparisons *)

Lemma type_is_never_an_operator_name (e : expr) :
  py_in (type_of e) [PyStr "IS"; PyStr "IS NOT"] = false.
Proof. destruct e; try reflexivity. destruct type as [[n]|]; reflexivity. Qed.

(** C2 (the code departs from the claim). The test
    [condition.type not in ["IS", "IS NOT"]] reads the type annotation of
    the node, which is never one of these strings, so a NULL on the right
    is reported under every operator: under [=], as the claim says, and
    under [IS] too, against it. [e_mail IS NULL] and [e_mail IS NOT NULL]
    both get the entry. *)
Theorem null_comparison_reported_under_IS :
  (forall ct r p op ty lhs,
      check_condition ct r (p, Binary op ty lhs Null)
      = report r NullComparisonError [py_str (type_of (Binary op ty lhs Null))])
  /\ where_rule Examples.users_catalog Examples.eq_null_query fresh_result
     = report fresh_result NullComparisonError ["None"]
  /\ where_rule Examples.users_catalog Examples.is_null_query fresh_result
     = report fresh_result NullComparisonError ["None"]
  /\ where_rule Examples.users_catalog Examples.is_not_null_query fresh_result
     = report fresh_result NullComparisonError ["None"]
  /\ snd (validate (Examples.parser Examples.is_null_text Examples.is_null_query)
            Examples.no_text Examples.first_seen
            (new_validator Examples.users_catalog) Examples.is_null_text)
     = Py.Return (report fresh_result NullComparisonError ["None"]).
Proof.
  split; [|repeat split; reflexivity].
  intros ct r p op ty lhs. unfold check_condition, type_check. simpl snd.
  rewrite type_is_never_an_operator_name.
  destruct (is_Column lhs); reflexivity.
Qed.

(* ================================================================== *)
(** ** The table list of a join *)

(** C3 (the code departs from the claim). The table list of a join is
    rebuilt from the FROM tables at every iteration: it holds them and the
    join's own table, never the tables of earlier joins. In
    [FROM a JOIN b ON a.x = b.x JOIN c USING (y)], with [y] a column of [b]
    and [c], two of the three joined tables hold [y], yet the second join
    gets a [JoinError]. *)
Theorem join_tables_leave_out_earlier_joins :
  (forall base j,
      join_tables_of base j
      = base ++ [{| name := t_name (j_this j);
                    alias := alias_or_name (j_this j) |}])
  /\ joins_rule Examples.abc_catalog Examples.three_tables_query fresh_result
     = Py.Return (report fresh_result JoinError ["y"; "c"])
  /\ snd (validate
            (Examples.parser Examples.three_tables_text
               Examples.three_tables_query)
            Examples.no_text Examples.first_seen
            (new_validator Examples.abc_catalog) Examples.three_tables_text)
     = Py.Return (report fresh_result JoinError ["y"; "c"])
  /\ map name
       (tables_with_column Examples.abc_catalog "y"
          [{| name := "a"; alias := "a" |}; {| name := "b"; alias := "b" |};
           {| name := "c"; alias := "c" |}])
     = ["b"; "c"].
Proof.
  split; [|repeat split; reflexivity].
  intros base j. unfold join_tables_of. destruct base; reflexivity.
Qed.

(* ================================================================== *)
(** ** HAVING columns *)

(** C5 (the code departs from the claim). The loop over the HAVING columns
    sits inside the loop over the select list, so the columns are checked
    once per select expression, against the names collected so far. In
    [SELECT COUNT( * ), user_id ... HAVING user_id > 0] the column [user_id]
    is among the select-exposed names and is reported once; in
    [SELECT user_id, COUNT( * ) ... HAVING phone_num > 0] the column
    [phone_num] is reported twice. *)
Theorem having_columns_checked_per_select_expression (sql_text : expr -> string) :
  having_rule sql_text Examples.having_exposed_query fresh_result
  = report fresh_result IllegalHavingColumn ["user_id"]
  /\ Str.In_b "user_id"
       (exposed_names sql_text (expressions Examples.having_exposed_query))
     = true
  /\ having_rule sql_text Examples.having_hidden_query fresh_result
     = report (report fresh_result IllegalHavingColumn ["phone_num"])
         IllegalHavingColumn ["phone_num"]
  /\ snd (validate
            (Examples.parser Examples.having_exposed_text
               Examples.having_exposed_query)
            sql_text Examples.first_seen
            (new_validator Examples.users_catalog) Examples.having_exposed_text)
     = Py.Return (report fresh_result IllegalHavingColumn ["user_id"])
  /\ (exists r,
        snd (validate
               (Examples.parser Examples.having_hidden_text
                  Examples.having_hidden_query)
               sql_text Examples.first_seen
               (new_validator Examples.users_catalog)
               Examples.having_hidden_text)
        = Py.Return r
        /\ count_kind IllegalHavingColumn r = 2).
Proof.
  repeat split; try reflexivity.
  eexists. split; reflexivity.
Qed.

(* ================================================================== *)
(** ** Tables that the catalog does not know *)

Lemma column_in_table_absent (md : SchemaCatalog) (t c : string) :
  Dict.mem md t = false -> column_in_table md t c = false.
Proof.
  unfold Dict.mem, column_in_table.
  destruct (Dict.get md t); [discriminate | reflexivity].
Qed.

Lemma tables_with_column_absent (md : SchemaCatalog) (c : string)
    (jts : list table_info) :
  (forall t, In t jts -> Dict.mem md (name t) = false) ->
  tables_with_column md c jts = [].
Proof.
  unfold tables_with_column. induction jts as [|t jts IH]; intros H; simpl.
  - reflexivity.
  - rewrite (column_in_table_absent md (name t) c (H t (or_introl eq_refl))).
    apply IH. intros t' Ht'. apply H. right. exact Ht'.
Qed.

Lemma fold_left_keep {A B} (l : list B) (a : A) :
  fold_left (fun acc _ => acc) l a = a.
Proof. induction l as [|x l IH]; simpl; [reflexivity | exact IH]. Qed.

Lemma available_columns_absent (md : SchemaCatalog) (jts : list table_info) :
  (forall t, In t jts -> Dict.mem md (name t) = false) ->
  available_columns md jts = Py.Return [].
Proof.
  intros H. unfold available_columns.
  rewrite (for_each_pure _ (fun acc _ => acc)).
  - rewrite fold_left_keep. reflexivity.
  - intros acc t Ht. destruct (Str.In_b t (map name jts)) eqn:E; [|reflexivity].
    apply In_b_In in E. apply in_map_iff in E. destruct E as [ti [<- Hti]].
    apply Dict_keys_mem in Ht. rewrite (H ti Hti) in Ht. discriminate Ht.
Qed.

(** C4, counterexample. With an empty catalog the two ON columns of
    [SELECT * FROM a JOIN b ON a.x = b.x] are not passed over in silence:
    each gets a [ColumnNotFound] entry, from the join rule and so from
    [validate]. *)
Lemma missing_metadata_is_reported :
  let r := report
             (report fresh_result ColumnNotFound ["a"; "x"; "无可用列信息"])
             ColumnNotFound ["b"; "x"; "无可用列信息"] in
  joins_rule [] Examples.two_tables_query fresh_result = Py.Return r
  /\ snd (validate
            (Examples.parser Examples.two_tables_text Examples.two_tables_query)
            Examples.no_text Examples.first_seen
            (new_validator []) Examples.two_tables_text)
     = Py.Return r
  /\ count_kind ColumnNotFound r = 2.
Proof. repeat split; reflexivity. Qed.

(** C4, as amended. Whatever the catalog holds, the join rule returns: no
    look-up in it fails. A table that the catalog does not know is a table
    without columns: an ON column whose qualifier resolves to such a table,
    the table being one of the joined ones, gets a [ColumnNotFound] entry
    that says no column information is available, and a USING column none of
    whose joined tables is known gets a [ColumnNotFound] entry. *)
Theorem join_checks_on_missing_metadata
    (md : SchemaCatalog) (s : statement) (r : Result)
    (table_aliases : Dict.t string) (jts : list table_info) (r0 : Result)
    (column : visited) (col : string) :
  (exists r', joins_rule md s r = Py.Return r')
  /\ (let real_table := resolve table_aliases (table_of (snd column)) in
      existsb (fun t => String.eqb (name t) real_table) jts = true ->
      Dict.mem md real_table = false ->
      check_on_column md table_aliases jts r0 column
      = Py.Return (report r0 ColumnNotFound
                     [real_table; name_of (snd column); "无可用列信息"]))
  /\ ((forall t, In t jts -> Dict.mem md (name t) = false) ->
      check_using_column md jts r0 col
      = Py.Return (report r0 ColumnNotFound (col :: map alias jts))).
Proof.
  split; [apply joins_rule_total|]. split.
  - intros real_table Hin Habs. unfold check_on_column.
    rewrite resolve_eq. cbn [Py.bind]. fold real_table.
    rewrite Hin. cbn [negb]. rewrite has_column_eq. cbn [Py.bind].
    rewrite (column_in_table_absent md real_table _ Habs), Habs.
    reflexivity.
  - intros Habs. unfold check_using_column.
    rewrite using_valid_tables_eq. cbn [Py.bind].
    rewrite (tables_with_column_absent md col jts Habs). cbn [map nonempty negb].
    rewrite (available_columns_absent md jts Habs). cbn [Py.bind].
    rewrite app_nil_r. reflexivity.
Qed.

Lemma join_checks_on_missing_metadata_witness :
  let jts := [{| name := "a"; alias := "a" |}; {| name := "b"; alias := "b" |}] in
  let aliases := table_aliases_of Examples.two_tables_query in
  (existsb (fun t => String.eqb (name t) (resolve aliases "a")) jts = true
   /\ Dict.mem (@nil (string * ColumnMap)) (resolve aliases "a") = false
   /\ (forall t, In t jts -> Dict.mem (@nil (string * ColumnMap)) (name t) = false))
  /\ (exists r', joins_rule [] Examples.two_tables_query fresh_result = Py.Return r')
  /\ check_on_column [] aliases jts fresh_result (None, Column "a" "x")
     = Py.Return (report fresh_result ColumnNotFound ["a"; "x"; "无可用列信息"])
  /\ check_using_column [] jts fresh_result "x"
     = Py.Return (report fresh_result ColumnNotFound ["x"; "a"; "b"]).
Proof.
  intros jts aliases.
  assert (H1 : existsb (fun t => String.eqb (name t) (resolve aliases "a")) jts
               = true) by reflexivity.
  assert (H2 : Dict.mem (@nil (string * ColumnMap)) (resolve aliases "a") = false)
    by reflexivity.
  assert (H3 : forall t, In t jts ->
                 Dict.mem (@nil (string * ColumnMap)) (name t) = false)
    by (intros t _; reflexivity).
  destruct (join_checks_on_missing_metadata [] Examples.two_tables_query
              fresh_result aliases jts fresh_result (None, Column "a" "x") "x")
    as [T1 [T2 T3]].
  split; [repeat split; assumption|].
  split; [exact T1|]. split; [exact (T2 H1 H2) | exact (T3 H3)].
Defined.

(* ================================================================== *)
(** ** USING columns *)

(** A join with a USING clause runs the column check once per listed
    column, over the table list that the loop builds for the join; each
    check returns, and the number of tables in that list whose ColumnMap
    contains the column decides what it appends: with none a
    [ColumnNotFound] entry, with exactly one a [JoinError] entry, with two
    or more nothing. *)
Theorem using_column_count_decides
    (md : SchemaCatalog) (base : list table_info)
    (table_aliases : Dict.t string) (j : join) (r : Result) :
  j_using j <> [] ->
  let join_tables := join_tables_of base j in
  check_join md base table_aliases r j
  = Py.for_each (check_using_column md join_tables) (j_using j) r
  /\ forall (r0 : Result) (col : string),
       exists r',
         check_using_column md join_tables r0 col = Py.Return r'
         /\ match List.length (tables_with_column md col join_tables) with
            | 0 => exists i, r' = report r0 ColumnNotFound i
            | 1 => exists i, r' = report r0 JoinError i
            | _ => r' = r0
            end.
Proof.
  intros Hu join_tables. split.
  - unfold check_join. destruct (j_using j) as [|c cs]; [contradiction|].
    simpl nonempty. rewrite andb_false_r. reflexivity.
  - intros r0 col. apply check_using_column_cases.
Qed.

Lemma using_column_count_decides_witness :
  let base := base_tables_of Examples.three_tables_query in
  let aliases := table_aliases_of Examples.three_tables_query in
  let j := Examples.join_c_using_y in
  j_using j <> []
  /\ check_join Examples.abc_catalog base aliases fresh_result j
     = Py.for_each
         (check_using_column Examples.abc_catalog (join_tables_of base j))
         (j_using j) fresh_result
  /\ List.length
       (tables_with_column Examples.abc_catalog "y" (join_tables_of base j)) = 1
  /\ check_using_column Examples.abc_catalog (join_tables_of base j)
       fresh_result "y"
     = Py.Return (report fresh_result JoinError ["y"; "c"]).
Proof.
  intros base aliases j.
  assert (Hu : j_using j <> []) by discriminate.
  split; [exact Hu|].
  destruct (using_column_count_decides Examples.abc_catalog base aliases j
              fresh_result Hu) as [T _].
  split; [exact T|]. split; reflexivity.
Defined.

(** C6 (the code departs from the claim). The three-way verdict on a USING
    column is taken over the FROM tables and the join's own table only, for
    every statement and join. For a first join that list is the
    JoinTableSet, and the verdicts are those of the claim: with [x] a column
    of [a] and [b], [FROM a JOIN b USING (x)] gets nothing, [USING (y)] a
    [JoinError] and [USING (z)] a [ColumnNotFound]. For a later join the
    list leaves out the earlier joins: in
    [FROM a JOIN b ON a.x = b.x JOIN c USING (y)] the JoinTableSet of the
    second join is [a, b, c], two of its tables hold [y], and the join gets
    a [JoinError] all the same. *)
Theorem using_count_leaves_out_earlier_joins :
  (forall (md : SchemaCatalog) (s : statement) (j : join) (r : Result)
          (col : string),
      exists r',
        check_using_column md (join_tables_of (base_tables_of s) j) r col
        = Py.Return r'
        /\ match List.length
                 (tables_with_column md col (base_tables_of s ++ [own_table j]))
           with
           | 0 => exists i, r' = report r ColumnNotFound i
           | 1 => exists i, r' = report r JoinError i
           | _ => r' = r
           end)
  /\ (let using_b (c : string) :=
        Examples.select [Star] [Examples.table "a"]
          [{| j_kind := EmptyString; j_this := Examples.table "b";
              j_on := None; j_using := [c] |}] None None None in
      map name (spec_JoinTableSet (using_b "x") 1) = ["a"; "b"]
      /\ joins_rule Examples.abc_catalog (using_b "x") fresh_result
         = Py.Return fresh_result
      /\ joins_rule Examples.abc_catalog (using_b "y") fresh_result
         = Py.Return (report fresh_result JoinError ["y"; "b"])
      /\ joins_rule Examples.abc_catalog (using_b "z") fresh_result
         = Py.Return (report fresh_result ColumnNotFound
                        ["z"; "a"; "b"; "a"; "x"; "b"; "x"; "y"]))
  /\ map name (spec_JoinTableSet Examples.three_tables_query 2) = ["a"; "b"; "c"]
  /\ List.length
       (tables_with_column Examples.abc_catalog "y"
          (spec_JoinTableSet Examples.three_tables_query 2)) = 2
  /\ check_join Examples.abc_catalog
       (base_tables_of Examples.three_tables_query)
       (table_aliases_of Examples.three_tables_query)
       fresh_result Examples.join_c_using_y
     = Py.Return (report fresh_result JoinError ["y"; "c"])
  /\ snd (validate
            (Examples.parser Examples.three_tables_text
               Examples.three_tables_query)
            Examples.no_text Examples.first_seen
            (new_validator Examples.abc_catalog) Examples.three_tables_text)
     = Py.Return (report fresh_result JoinError ["y"; "c"]).
Proof.
  split; [|repeat split; reflexivity].
  intros md s j r col.
  replace (base_tables_of s ++ [own_table j])
    with (join_tables_of (base_tables_of s) j)
    by (unfold join_tables_of, own_table; destruct (base_tables_of s);
        reflexivity).
  apply check_using_column_cases.
Qed.

(* ================================================================== *)
(** ** Joins without a condition *)

Lemma no_condition_iff (j : join) :
  no_condition j = true <-> j_on j = None /\ j_using j = [].
Proof.
  unfold no_condition. destruct (j_on j), (j_using j); simpl; split;
    intros H; try discriminate H; try (destruct H; discriminate); auto.
Qed.

Lemma missing_condition_count (md : SchemaCatalog) (base : list table_info)
    (table_aliases : Dict.t string) (js : list join) :
  forall r r',
    Py.for_each (check_join md base table_aliases) js r = Py.Return r' ->
    count_kind MissingJoinCondition r'
    = count_kind MissingJoinCondition r + List.length (filter no_condition js).
Proof.
  induction js as [|j js IH]; intros r r' H; simpl in H.
  - injection H as <-. simpl. lia.
  - apply bind_Return_inv in H. destruct H as [r1 [H1 H2]].
    rewrite (IH r1 r' H2). simpl. destruct (no_condition j) eqn:N.
    + rewrite check_join_no_condition in H1 by exact N. injection H1 as <-.
      rewrite count_kind_report. simpl. lia.
    + rewrite (emits_count join_column_kind MissingJoinCondition r r1
                 eq_refl (check_join_emits md base table_aliases r r1 j N H1)).
      reflexivity.
Qed.

(** C7. The iteration of the join loop for a join with neither ON nor USING
    appends one [MissingJoinCondition] entry and nothing else: no USING or ON
    column is looked at. Over a whole statement, the join rule returns and
    has appended as many [MissingJoinCondition] entries as there are such
    joins. *)
Theorem join_without_condition
    (md : SchemaCatalog) (s : statement) (r : Result) :
  (forall (j : join) (r0 : Result),
      j_on j = None -> j_using j = [] ->
      check_join md (base_tables_of s) (table_aliases_of s) r0 j
      = Py.Return (report r0 MissingJoinCondition [Str.upper (j_kind j)]))
  /\ exists r',
       joins_rule md s r = Py.Return r'
       /\ count_kind MissingJoinCondition r'
          = count_kind MissingJoinCondition r
            + List.length (filter no_condition (joins s)).
Proof.
  split.
  - intros j r0 Hon Hus. apply check_join_no_condition.
    apply no_condition_iff. split; assumption.
  - destruct (joins_rule_total md s r) as [r' H]. exists r'.
    split; [exact H|]. eapply missing_condition_count. exact H.
Qed.

Lemma join_without_condition_witness :
  (j_on Examples.cross_join = None /\ j_using Examples.cross_join = [])
  /\ check_join Examples.abc_catalog
       (base_tables_of Examples.cross_join_query)
       (table_aliases_of Examples.cross_join_query)
       fresh_result Examples.cross_join
     = Py.Return (report fresh_result MissingJoinCondition ["CROSS"])
  /\ joins_rule Examples.abc_catalog Examples.cross_join_query fresh_result
     = Py.Return (report fresh_result MissingJoinCondition ["CROSS"]).
Proof.
  destruct (join_without_condition Examples.abc_catalog
              Examples.cross_join_query fresh_result) as [T _].
  split; [split; reflexivity|].
  split; [exact (T Examples.cross_join fresh_result eq_refl eq_refl)|].
  reflexivity.
Defined.

(* ================================================================== *)
(** ** The flag and the list of entries *)

Lemma fresh_result_consistent : consistent fresh_result.
Proof.
  unfold consistent. simpl. split; [discriminate | intros H; contradiction H; auto].
Qed.

(** What [validate] returns is the fresh result with entries appended. *)
Lemma validate_emits
    (parse_one : string -> parse_outcome) (sql_text : expr -> string)
    (set_iter : list string -> list string) (self : validator)
    (q : string) (r : Result) :
  snd (validate parse_one sql_text set_iter self q) = Py.Return r ->
  emits any_kind fresh_result r.
Proof.
  unfold validate. destruct (parse_one q) as [s|msg|e]; simpl; intros H.
  - apply run_rules_emits in H. exact H.
  - apply run_rules_emits in H.
    apply (emits_trans _ _ (report fresh_result SyntaxError [msg]));
      [apply emits_report; reflexivity | exact H].
  - discriminate H.
Qed.

(** C8. In every result that [validate] returns, [is_valid] is false exactly
    when the list of entries is non-empty. The result starts valid and
    empty; every rule leaves the entries it found in place, appends its own,
    and clears the flag when it appends ([emits]); nothing sets it again. *)
Theorem validate_result_consistent
    (parse_one : string -> parse_outcome) (sql_text : expr -> string)
    (set_iter : list string -> list string) (self : validator)
    (q : string) (r : Result) :
  snd (validate parse_one sql_text set_iter self q) = Py.Return r ->
  (is_valid r = false <-> errors r <> []).
Proof.
  intros H. apply validate_emits in H.
  destruct H as [ds [E [V _]]]. simpl in E, V. rewrite E, V.
  destruct ds as [|d ds]; simpl; split; intros H.
  - discriminate H.
  - contradiction H. reflexivity.
  - discriminate.
  - reflexivity.
Qed.

Lemma validate_result_consistent_witness :
  let r := report fresh_result MissingGroupBy [] in
  snd (validate (Examples.parser Examples.no_group_text Examples.no_group_query)
         Examples.no_text Examples.first_seen
         (new_validator Examples.users_catalog) Examples.no_group_text)
  = Py.Return r
  /\ (is_valid r = false <-> errors r <> []).
Proof.
  intros r.
  assert (H : snd (validate
                     (Examples.parser Examples.no_group_text Examples.no_group_query)
                     Examples.no_text Examples.first_seen
                     (new_validator Examples.users_catalog)
                     Examples.no_group_text) = Py.Return r) by reflexivity.
  split; [exact H|].
  exact (validate_result_consistent _ _ _ _ _ r H).
Defined.

(** The formatter prints the pass message exactly for the results without
    entries. *)
Lemma formatted_pass_iff_no_errors
    (parse_one : string -> parse_outcome) (sql_text : expr -> string)
    (set_iter : list string -> list string) (self : validator)
    (q : string) (r : Result) :
  snd (validate parse_one sql_text set_iter self q) = Py.Return r ->
  (get_formatted_errors r = PassMessage <-> errors r = []).
Proof.
  intros H. apply validate_emits in H.
  pose proof (emits_consistent _ _ _ fresh_result_consistent H) as [H1 H2].
  unfold get_formatted_errors. destruct (is_valid r) eqn:V; split; intros H0.
  - destruct (errors r) as [|d ds]; [reflexivity|].
    assert (true = false) by (apply H2; discriminate). discriminate.
  - reflexivity.
  - discriminate H0.
  - exfalso. apply H1; [reflexivity | exact H0].
Qed.

(* ================================================================== *)
(** ** Aggregates without GROUP BY *)



(** What counts as a column reference of the select list is an item that is
    itself a column node: the rule builds [selected_columns] from the items
    of the list, not from the nodes below them. An aliased column is an
    [Alias] item, and [SELECT user_id AS uid, COUNT( * ) FROM users] passes. *)
Lemma aliased_column_is_not_selected :
  snd (validate (Examples.parser Examples.aliased_text Examples.aliased_query)
         Examples.no_text Examples.first_seen
         (new_validator Examples.users_catalog) Examples.aliased_text)
  = Py.Return fresh_result.
Proof. reflexivity. Qed.


(* ================================================================== *)
(** ** A literal on the left of a comparison *)

(** C10. The type check looks at a comparison only when its left operand is
    a column and its right operand a literal. A comparison with the literal
    on the left and the column on the right leaves the result as it was,
    whatever the catalog says about the column and whatever the literal is;
    and a query whose WHERE clause is such a comparison comes back from
    [validate] without any [TypeMismatch] entry. *)
Theorem literal_on_the_left_is_not_type_checked
    (op : binop) (ty : option DataType) (this : string) (is_string : bool)
    (table column : string) :
  let comparison :=
    Binary op ty (Literal this is_string) (Column table column) in
  (forall (ct : Dict.t string) (r : Result) (p : option expr),
      check_condition ct r (p, comparison) = r)
  /\ forall (parse_one : string -> parse_outcome) (sql_text : expr -> string)
       (set_iter : list string -> list string) (self : validator)
       (q : string) (s : statement),
       parse_one q = Parsed s ->
       where_ s = Some comparison ->
       exists r,
         snd (validate parse_one sql_text set_iter self q) = Py.Return r
         /\ count_kind TypeMismatch r = 0.
Proof.
  intros comparison. split; [reflexivity|].
  intros parse_one sql_text set_iter self q s Hp Hw.
  unfold validate. rewrite Hp. cbn [snd].
  set (self' := {| metadata := _; parsed := Some s; query := q |}).
  destruct (run_rules_parsed sql_text set_iter self' s fresh_result eq_refl)
    as [r2 [H2 H3]].
  rewrite H3. eexists. split; [reflexivity|].
  assert (C2 : count_kind TypeMismatch r2 = 0).
  { rewrite (emits_count join_kind TypeMismatch _ r2 eq_refl
               (joins_rule_emits _ s _ r2 H2)).
    destruct (class s); [|reflexivity].
    rewrite (emits_count select_kind TypeMismatch fresh_result _ eq_refl
               (select_rule_emits set_iter s fresh_result)).
    reflexivity. }
  unfold later_rules. cbv zeta.
  assert (W : where_rule (metadata self') s r2 = r2).
  { unfold where_rule. rewrite Hw. reflexivity. }
  rewrite W.
  assert (C4 : count_kind TypeMismatch (having_rule sql_text s r2) = 0).
  { rewrite (emits_count having_kind TypeMismatch r2 _ eq_refl
               (having_rule_emits sql_text s r2)).
    exact C2. }
  destruct (Dict.nonempty (metadata self')); [|exact C4].
  rewrite (emits_count catalog_kind TypeMismatch _ _ eq_refl
             (tables_and_columns_rule_emits set_iter _ s _)).
  exact C4.
Qed.

Lemma literal_on_the_left_is_not_type_checked_witness :
  let p := Examples.parser Examples.literal_left_text Examples.literal_left_query in
  (p Examples.literal_left_text = Parsed Examples.literal_left_query
   /\ where_ Examples.literal_left_query
      = Some (Binary EQ None (Literal "abc" true) (Column EmptyString "user_id")))
  /\ exists r,
       snd (validate p Examples.no_text Examples.first_seen
              (new_validator Examples.users_catalog) Examples.literal_left_text)
       = Py.Return r
       /\ count_kind TypeMismatch r = 0.
Proof.
  intros p.
  assert (H1 : p Examples.literal_left_text = Parsed Examples.literal_left_query)
    by reflexivity.
  assert (H2 : where_ Examples.literal_left_query
               = Some (Binary EQ None (Literal "abc" true) (Column EmptyString "user_id")))
    by reflexivity.
  split; [split; assumption|].
  destruct (literal_on_the_left_is_not_type_checked EQ None "abc" true
              EmptyString "user_id") as [_ T].
  exact (T p Examples.no_text Examples.first_seen
           (new_validator Examples.users_catalog) Examples.literal_left_text
           Examples.literal_left_query H1 H2).
Defined.

(* ================================================================== *)
(** ** Rules append: what a rule reports does not depend on what was
       reported before *)

Lemma report_append (r : Result) (k : DiagKind) (i : list string) :
  report r k i = append_entries r [{| kind := k; info := i |}].
Proof. unfold report, append_entries. simpl. rewrite andb_false_r. reflexivity. Qed.

Lemma append_entries_nil (r : Result) : append_entries r [] = r.
Proof.
  destruct r as [v es]. unfold append_entries. simpl.
  rewrite andb_true_r, app_nil_r. reflexivity.
Qed.

Lemma append_entries_app (r : Result) (a b : list Diagnostic) :
  append_entries (append_entries r a) b = append_entries r (a ++ b).
Proof.
  unfold append_entries. simpl. rewrite app_assoc. f_equal.
  destruct a, b; simpl; rewrite ?andb_true_r, ?andb_false_r; reflexivity.
Qed.

Lemma errors_append_fresh (ds : list Diagnostic) :
  errors (append_entries fresh_result ds) = ds.
Proof. reflexivity. Qed.

Lemma appends_id : appends (fun r => r).
Proof. intros r. simpl. rewrite append_entries_nil. reflexivity. Qed.

Lemma appends_report (k : DiagKind) (i : list string) :
  appends (fun r => report r k i).
Proof. intros r. apply report_append. Qed.

Lemma appends_comp (f g : Result -> Result) :
  appends f -> appends g -> appends (fun r => g (f r)).
Proof.
  intros Hf Hg r. rewrite (Hg (f r)), (Hf r), append_entries_app.
  rewrite (Hg (f fresh_result)). reflexivity.
Qed.

Lemma appends_if (b : bool) (f g : Result -> Result) :
  appends f -> appends g -> appends (fun r => if b then f r else g r).
Proof. intros Hf Hg. destruct b; assumption. Qed.

Lemma appends_fold_left {A} (f : Result -> A -> Result) (xs : list A) :
  (forall x, appends (fun r => f r x)) ->
  appends (fun r => fold_left f xs r).
Proof.
  intros Hf. induction xs as [|x xs IH]; simpl.
  - apply appends_id.
  - apply (appends_comp (fun r => f r x) (fun r => fold_left f xs r));
      [apply Hf | exact IH].
Qed.

Lemma appendsM_for_each {A} (body : Result -> A -> Py.res Result)
    (xs : list A) :
  (forall x, appendsM (fun r => body r x)) ->
  appendsM (fun r => Py.for_each body xs r).
Proof.
  intros Hb. induction xs as [|x xs IH]; intros r; simpl.
  - rewrite append_entries_nil. reflexivity.
  - rewrite (Hb x r).
    destruct (body fresh_result x) as [r0|e] eqn:E0; simpl; [|reflexivity].
    rewrite (IH (append_entries r (errors r0))).
    assert (R0 : r0 = append_entries fresh_result (errors r0)).
    { pose proof (Hb x fresh_result) as H. simpl in H. rewrite E0 in H.
      injection H as H. exact H. }
    rewrite (IH r0).
    destruct (Py.for_each body xs fresh_result) as [r1|e]; [|reflexivity].
    rewrite append_entries_app. rewrite R0 at 2.
    rewrite append_entries_app. reflexivity.
Qed.

(** Goals [appends f] and [appendsM f] where [f] is built from
    conditionals that do not look at the result, and [report]s. *)
Ltac appends_cases :=
  intros ?r;
  repeat (simpl;
          match goal with
          | |- context [if ?b then _ else _] => destruct b
          | |- context [Dict.get ?d ?k] => destruct (Dict.get d k)
          end);
  simpl;
  rewrite ?report_append, ?append_entries_app, ?append_entries_nil;
  reflexivity.

Lemma check_condition_appends (ct : Dict.t string) (c : visited) :
  appends (fun r => check_condition ct r c).
Proof.
  unfold check_condition, type_check. destruct (snd c); try apply appends_id.
  appends_cases.
Qed.

Lemma where_rule_appends (md : SchemaCatalog) (s : statement) :
  appends (where_rule md s).
Proof.
  unfold where_rule. destruct (where_ s) as [w|]; [|apply appends_id].
  apply (appends_fold_left (check_condition (column_types_of md))).
  intros c. apply check_condition_appends.
Qed.

Lemma select_rule_appends (set_iter : list string -> list string)
    (s : statement) :
  appends (select_rule set_iter s).
Proof. unfold select_rule. cbv zeta. appends_cases. Qed.

Lemma check_having_column_appends (sc : list string) (c : visited) :
  appends (fun r => check_having_column sc r c).
Proof. unfold check_having_column. appends_cases. Qed.

Lemma having_loop_appends (sql_text : expr -> string) (h : expr)
    (es : list expr) :
  forall (sc : list string) (r : Result),
    snd (fold_left (having_step sql_text h) es (sc, r))
    = append_entries r
        (errors (snd (fold_left (having_step sql_text h) es (sc, fresh_result)))).
Proof.
  induction es as [|e es IH]; intros sc r; simpl.
  - rewrite append_entries_nil. reflexivity.
  - unfold having_step at 2 4. simpl.
    set (sc' := expose sql_text sc e).
    set (inner := fun r0 =>
           fold_left (check_having_column sc') (find_all is_Column h) r0).
    assert (Hin : appends inner).
    { apply (appends_fold_left (check_having_column sc')).
      intros c. apply check_having_column_appends. }
    change (snd (fold_left (having_step sql_text h) es (sc', inner r))
            = append_entries r
                (errors (snd (fold_left (having_step sql_text h) es
                                (sc', inner fresh_result))))).
    rewrite (IH sc' (inner r)), (IH sc' (inner fresh_result)), (Hin r).
    rewrite append_entries_app. reflexivity.
Qed.

Lemma having_rule_appends (sql_text : expr -> string) (s : statement) :
  appends (having_rule sql_text s).
Proof.
  unfold having_rule. destruct (having s) as [h|]; [|apply appends_id].
  intros r. cbv zeta.
  set (pre := fun r0 : Result =>
         if negb (is_some (group s)) then
           if negb (nonempty (find_all is_AggFunc h))
           then report r0 MisusedHaving [] else r0
         else r0).
  assert (Hpre : appends pre) by (subst pre; appends_cases).
  change (snd (fold_left (having_step sql_text h) (expressions s) ([], pre r))
          = append_entries r
              (errors (snd (fold_left (having_step sql_text h) (expressions s)
                              ([], pre fresh_result))))).
  rewrite (having_loop_appends sql_text h (expressions s) [] (pre r)).
  rewrite (having_loop_appends sql_text h (expressions s) [] (pre fresh_result)).
  rewrite (Hpre r), append_entries_app. reflexivity.
Qed.

Lemma tables_and_columns_rule_appends (set_iter : list string -> list string)
    (md : SchemaCatalog) (s : statement) :
  appends (tables_and_columns_rule set_iter md s).
Proof.
  unfold tables_and_columns_rule. cbv zeta.
  match goal with
  | |- appends (fun r => fold_left ?f ?xs (fold_left ?g ?ys r)) =>
      apply (appends_comp (fun r => fold_left g ys r) (fun r => fold_left f xs r))
  end.
  - apply (appends_fold_left
             (fun result table =>
                if negb (Dict.mem md table)
                then report result TableNotFound (table :: Dict.keys md)
                else result)).
    intros t. appends_cases.
  - match goal with
    | |- appends (fun r => fold_left ?f ?xs r) => apply (appends_fold_left f)
    end.
    intros c. appends_cases.
Qed.

Lemma check_using_column_appends (md : SchemaCatalog) (jts : list table_info)
    (col : string) :
  appendsM (fun r => check_using_column md jts r col).
Proof.
  intros r. unfold check_using_column. rewrite using_valid_tables_eq.
  cbn [Py.bind].
  destruct (tables_with_column md col jts) as [|t1 [|t2 ts]]; simpl.
  - destruct (available_columns md jts) as [l|e]; simpl; [|reflexivity].
    rewrite report_append. reflexivity.
  - rewrite report_append. reflexivity.
  - rewrite append_entries_nil. reflexivity.
Qed.

Lemma check_on_column_appends (md : SchemaCatalog)
    (table_aliases : Dict.t string) (jts : list table_info) (column : visited) :
  appendsM (fun r => check_on_column md table_aliases jts r column).
Proof.
  intros r. unfold check_on_column. rewrite resolve_eq. cbn [Py.bind].
  destruct (negb _); simpl.
  - rewrite report_append. reflexivity.
  - rewrite has_column_eq. cbn [Py.bind].
    destruct (column_in_table _ _ _); simpl.
    + rewrite append_entries_nil. reflexivity.
    + destruct (Dict.mem md _); simpl.
      * destruct (Dict.getitem md _) as [cols|e]; simpl; [|reflexivity].
        rewrite report_append. reflexivity.
      * rewrite report_append. reflexivity.
Qed.

Lemma check_join_appends (md : SchemaCatalog) (base : list table_info)
    (table_aliases : Dict.t string) (j : join) :
  appendsM (fun r => check_join md base table_aliases r j).
Proof.
  unfold check_join. cbv zeta.
  destruct (negb (is_some (j_on j)) && negb (nonempty (j_using j))).
  - intros r. simpl. rewrite report_append. reflexivity.
  - destruct (nonempty (j_using j)).
    + apply (appendsM_for_each (check_using_column md (join_tables_of base j))).
      intros col. apply check_using_column_appends.
    + destruct (j_on j) as [on|].
      * apply (appendsM_for_each
                 (check_on_column md table_aliases (join_tables_of base j))).
        intros c. apply check_on_column_appends.
      * intros r. simpl. rewrite append_entries_nil. reflexivity.
Qed.

Lemma joins_rule_appends (md : SchemaCatalog) (s : statement) (r : Result) :
  joins_rule md s r = Py.Return (append_entries r (join_entries md s)).
Proof.
  unfold join_entries.
  pose proof (appendsM_for_each
                (check_join md (base_tables_of s) (table_aliases_of s))
                (joins s)
                (fun j => check_join_appends md (base_tables_of s)
                            (table_aliases_of s) j) r) as H.
  simpl in H. unfold joins_rule. rewrite H.
  destruct (joins_rule_total md s fresh_result) as [r0 H0].
  unfold joins_rule in H0. rewrite H0. reflexivity.
Qed.

(** With a tree in [self.parsed], the rules append, in their order, what
    each of them reports on its own. *)
Lemma run_rules_appends (sql_text : expr -> string)
    (set_iter : list string -> list string) (self : validator)
    (s : statement) (r : Result) :
  parsed self = Some s ->
  run_rules sql_text set_iter self r
  = Py.Return
      (append_entries r (all_entries sql_text set_iter (metadata self) s)).
Proof.
  intros P.
  destruct (run_rules_parsed sql_text set_iter self s r P) as [r2 [H2 H3]].
  rewrite H3. f_equal. rewrite joins_rule_appends in H2. injection H2 as <-.
  unfold later_rules, all_entries. cbv zeta.
  rewrite (where_rule_appends (metadata self) s _).
  rewrite (having_rule_appends sql_text s _).
  fold (where_entries (metadata self) s). fold (having_entries sql_text s).
  assert (S1 : match class s with
               | Select => select_rule set_iter s r
               | OtherStatement => r
               end = append_entries r (select_entries set_iter s)).
  { unfold select_entries. destruct (class s).
    - apply select_rule_appends.
    - rewrite append_entries_nil. reflexivity. }
  rewrite S1. unfold catalog_entries.
  destruct (Dict.nonempty (metadata self)).
  - rewrite (tables_and_columns_rule_appends set_iter (metadata self) s _).
    rewrite !append_entries_app. reflexivity.
  - rewrite !append_entries_app, app_nil_r. reflexivity.
Qed.

Lemma validate_parsed (parse_one : string -> parse_outcome)
    (sql_text : expr -> string) (set_iter : list string -> list string)
    (self : validator) (q : string) (s : statement) :
  parse_one q = Parsed s ->
  validate parse_one sql_text set_iter self q
  = ({| metadata := metadata self; parsed := Some s; query := q |},
     Py.Return
       (append_entries fresh_result
          (all_entries sql_text set_iter (metadata self) s))).
Proof.
  intros H. unfold validate. rewrite H. cbn [metadata]. f_equal.
  exact (run_rules_appends sql_text set_iter
           {| metadata := metadata self; parsed := Some s; query := q |}
           s fresh_result eq_refl).
Qed.

Lemma count_kind_entries (k : DiagKind) (ds : list Diagnostic) :
  count_kind k (append_entries fresh_result ds) = count_in k ds.
Proof. reflexivity. Qed.

Lemma count_in_app (k : DiagKind) (a b : list Diagnostic) :
  count_in k (a ++ b) = count_in k a + count_in k b.
Proof. unfold count_in. rewrite filter_app, length_app. reflexivity. Qed.

Lemma count_in_none (a : DiagKind -> bool) (k : DiagKind)
    (ds : list Diagnostic) :
  a k = false -> forallb (fun d => a (kind d)) ds = true -> count_in k ds = 0.
Proof.
  intros Hk F. unfold count_in. rewrite (filter_kind_none a k ds Hk F).
  reflexivity.
Qed.

Lemma emits_fresh_kinds (a : DiagKind -> bool) (r : Result) :
  emits a fresh_result r -> forallb (fun d => a (kind d)) (errors r) = true.
Proof. intros [ds [E [_ F]]]. simpl in E. rewrite E. exact F. Qed.

Lemma select_entries_kinds (set_iter : list string -> list string)
    (s : statement) :
  forallb (fun d => select_kind (kind d)) (select_entries set_iter s) = true.
Proof.
  unfold select_entries. destruct (class s); [|reflexivity].
  apply emits_fresh_kinds. apply select_rule_emits.
Qed.

Lemma join_entries_kinds (md : SchemaCatalog) (s : statement) :
  forallb (fun d => join_kind (kind d)) (join_entries md s) = true.
Proof.
  unfold join_entries.
  destruct (joins_rule md s fresh_result) as [r|e] eqn:E; [|reflexivity].
  apply emits_fresh_kinds. eapply joins_rule_emits. exact E.
Qed.

Lemma where_entries_kinds (md : SchemaCatalog) (s : statement) :
  forallb (fun d => where_kind (kind d)) (where_entries md s) = true.
Proof. apply emits_fresh_kinds. apply where_rule_emits. Qed.

Lemma having_entries_kinds (sql_text : expr -> string) (s : statement) :
  forallb (fun d => having_kind (kind d)) (having_entries sql_text s) = true.
Proof. apply emits_fresh_kinds. apply having_rule_emits. Qed.

Lemma catalog_entries_kinds (set_iter : list string -> list string)
    (md : SchemaCatalog) (s : statement) :
  forallb (fun d => catalog_kind (kind d)) (catalog_entries set_iter md s) = true.
Proof.
  unfold catalog_entries. destruct (Dict.nonempty md); [|reflexivity].
  apply emits_fresh_kinds. apply tables_and_columns_rule_emits.
Qed.

(** The count of a kind in all entries, rule by rule. *)
Lemma count_in_all_entries (sql_text : expr -> string)
    (set_iter : list string -> list string) (md : SchemaCatalog)
    (s : statement) (k : DiagKind) :
  count_in k (all_entries sql_text set_iter md s)
  = (if select_kind k then count_in k (select_entries set_iter s) else 0)
    + (if join_kind k then count_in k (join_entries md s) else 0)
    + (if where_kind k then count_in k (where_entries md s) else 0)
    + (if having_kind k then count_in k (having_entries sql_text s) else 0)
    + (if catalog_kind k then count_in k (catalog_entries set_iter md s) else 0).
Proof.
  unfold all_entries. rewrite !count_in_app.
  assert (H1 : count_in k (select_entries set_iter s)
               = if select_kind k then count_in k (select_entries set_iter s)
                 else 0).
  { destruct (select_kind k) eqn:E; [reflexivity|].
    exact (count_in_none select_kind k _ E (select_entries_kinds set_iter s)). }
  assert (H2 : count_in k (join_entries md s)
               = if join_kind k then count_in k (join_entries md s) else 0).
  { destruct (join_kind k) eqn:E; [reflexivity|].
    exact (count_in_none join_kind k _ E (join_entries_kinds md s)). }
  assert (H3 : count_in k (where_entries md s)
               = if where_kind k then count_in k (where_entries md s) else 0).
  { destruct (where_kind k) eqn:E; [reflexivity|].
    exact (count_in_none where_kind k _ E (where_entries_kinds md s)). }
  assert (H4 : count_in k (having_entries sql_text s)
               = if having_kind k then count_in k (having_entries sql_text s)
                 else 0).
  { destruct (having_kind k) eqn:E; [reflexivity|].
    exact (count_in_none having_kind k _ E (having_entries_kinds sql_text s)). }
  assert (H5 : count_in k (catalog_entries set_iter md s)
               = if catalog_kind k then count_in k (catalog_entries set_iter md s)
                 else 0).
  { destruct (catalog_kind k) eqn:E; [reflexivity|].
    exact (count_in_none catalog_kind k _ E (catalog_entries_kinds set_iter md s)). }
  lia.
Qed.

(* ================================================================== *)
(** ** [validate] as a whole *)

(** X1. Whenever the parser returns a tree, [validate] returns a result:
    none of the look-ups in the catalog, in the alias table or in a list can
    fail, whatever the catalog and the tree are. Afterwards the validator
    holds that tree and the query text, and its catalog is unchanged. *)
Theorem validate_returns_on_parsed
    (parse_one : string -> parse_outcome) (sql_text : expr -> string)
    (set_iter : list string -> list string) (self : validator)
    (q : string) (s : statement) :
  parse_one q = Parsed s ->
  (exists r, snd (validate parse_one sql_text set_iter self q) = Py.Return r)
  /\ fst (validate parse_one sql_text set_iter self q)
     = {| metadata := metadata self; parsed := Some s; query := q |}.
Proof.
  intros H. rewrite (validate_parsed parse_one sql_text set_iter self q s H).
  split; [eexists; reflexivity | reflexivity].
Qed.

Lemma validate_returns_on_parsed_witness :
  let p := Examples.parser Examples.three_tables_text
             Examples.three_tables_query in
  p Examples.three_tables_text = Parsed Examples.three_tables_query
  /\ (exists r,
        snd (validate p Examples.no_text Examples.first_seen
               (new_validator Examples.abc_catalog) Examples.three_tables_text)
        = Py.Return r)
  /\ fst (validate p Examples.no_text Examples.first_seen
            (new_validator Examples.abc_catalog) Examples.three_tables_text)
     = {| metadata := Examples.abc_catalog;
          parsed := Some Examples.three_tables_query;
          query := Examples.three_tables_text |}.
Proof.
  intros p.
  assert (H : p Examples.three_tables_text = Parsed Examples.three_tables_query)
    by reflexivity.
  split; [exact H|].
  exact (validate_returns_on_parsed p Examples.no_text Examples.first_seen
           (new_validator Examples.abc_catalog) Examples.three_tables_text
           Examples.three_tables_query H).
Defined.

(** X2. The entries of a result come in the order of the rules: first what
    the select rule reports, then the join rule, the WHERE rule, the HAVING
    rule and the catalog rule, each exactly as that rule reports when run on
    its own from the fresh result; the result is valid exactly when there
    are none. *)
Theorem validate_entries_in_rule_order
    (parse_one : string -> parse_outcome) (sql_text : expr -> string)
    (set_iter : list string -> list string) (self : validator)
    (q : string) (s : statement) :
  parse_one q = Parsed s ->
  exists r,
    snd (validate parse_one sql_text set_iter self q) = Py.Return r
    /\ errors r
       = select_entries set_iter s ++ join_entries (metadata self) s
         ++ where_entries (metadata self) s ++ having_entries sql_text s
         ++ catalog_entries set_iter (metadata self) s
    /\ is_valid r = negb (nonempty (errors r)).
Proof.
  intros H. rewrite (validate_parsed parse_one sql_text set_iter self q s H).
  eexists. split; [reflexivity|]. split; reflexivity.
Qed.

Lemma validate_entries_in_rule_order_witness :
  let p := Examples.parser Examples.having_hidden_text
             Examples.having_hidden_query in
  p Examples.having_hidden_text = Parsed Examples.having_hidden_query
  /\ exists r,
       snd (validate p Examples.no_text Examples.first_seen
              (new_validator Examples.users_catalog) Examples.having_hidden_text)
       = Py.Return r
       /\ errors r
          = [{| kind := IllegalHavingColumn; info := ["phone_num"] |};
             {| kind := IllegalHavingColumn; info := ["phone_num"] |};
             {| kind := ColumnNotFound;
                info := ["phone_num"; "user_id"; "username"; "e_mail"] |}]
       /\ is_valid r = false.
Proof.
  intros p.
  assert (H : p Examples.having_hidden_text = Parsed Examples.having_hidden_query)
    by reflexivity.
  split; [exact H|].
  destruct (validate_entries_in_rule_order p Examples.no_text
              Examples.first_seen (new_validator Examples.users_catalog)
              Examples.having_hidden_text Examples.having_hidden_query H)
    as [r [R [E V]]].
  exists r. split; [exact R|]. split.
  - rewrite E. reflexivity.
  - rewrite V, E. reflexivity.
Defined.

(** X3. A validator keeps the tree of the last query that parsed. When a
    later query fails to parse, the call reports the syntax entry and then
    every entry of the earlier query again. *)
Theorem parse_failure_repeats_earlier_entries
    (parse_one : string -> parse_outcome) (sql_text : expr -> string)
    (set_iter : list string -> list string) (self : validator)
    (q1 q2 msg : string) (s : statement) :
  parse_one q1 = Parsed s ->
  parse_one q2 = ParseError msg ->
  exists r1 r2,
    snd (validate parse_one sql_text set_iter self q1) = Py.Return r1
    /\ snd (validate parse_one sql_text set_iter
              (fst (validate parse_one sql_text set_iter self q1)) q2)
       = Py.Return r2
    /\ errors r2 = {| kind := SyntaxError; info := [msg] |} :: errors r1
    /\ is_valid r2 = false.
Proof.
  intros H1 H2.
  rewrite (validate_parsed parse_one sql_text set_iter self q1 s H1).
  cbn [fst snd]. unfold validate at 1. rewrite H2. cbn [snd metadata parsed].
  rewrite (run_rules_appends sql_text set_iter
             {| metadata := metadata self; parsed := Some s; query := q2 |}
             s (report fresh_result SyntaxError [msg]) eq_refl).
  cbn [metadata].
  eexists. eexists. split; [reflexivity|]. split; [reflexivity|].
  split; reflexivity.
Qed.

Lemma parse_failure_repeats_earlier_entries_witness :
  let p := Examples.parser Examples.no_group_text Examples.no_group_query in
  let v := new_validator Examples.users_catalog in
  let bad := "SELECT (" in
  let msg := "Invalid expression / Unexpected token" in
  (p Examples.no_group_text = Parsed Examples.no_group_query
   /\ p bad = ParseError msg)
  /\ exists r1 r2,
       snd (validate p Examples.no_text Examples.first_seen v
              Examples.no_group_text) = Py.Return r1
       /\ snd (validate p Examples.no_text Examples.first_seen
                 (fst (validate p Examples.no_text Examples.first_seen v
                         Examples.no_group_text)) bad)
          = Py.Return r2
       /\ errors r2 = {| kind := SyntaxError; info := [msg] |} :: errors r1
       /\ is_valid r2 = false.
Proof.
  intros p v bad msg.
  assert (H1 : p Examples.no_group_text = Parsed Examples.no_group_query)
    by reflexivity.
  assert (H2 : p bad = ParseError msg) by reflexivity.
  split; [split; assumption|].
  exact (parse_failure_repeats_earlier_entries p Examples.no_text
           Examples.first_seen v Examples.no_group_text bad msg
           Examples.no_group_query H1 H2).
Defined.

(* ================================================================== *)
(** ** [find_all] finds exactly the nodes of the tree *)

Lemma level_contains (cls : expr -> bool) (n : nat) :
  forall (p : option expr) (e : expr) (v : visited),
    In v (level n p e) -> cls (snd v) = true -> contains cls e = true.
Proof.
  induction n as [|n IH]; intros p e v Hv Hc; rewrite contains_children.
  - destruct Hv as [<-|[]]. simpl in Hc. rewrite Hc. reflexivity.
  - simpl in Hv. apply in_flat_map in Hv. destruct Hv as [c [Hin Hv]].
    apply orb_true_iff. right. apply existsb_exists. exists c.
    split; [exact Hin | exact (IH (Some e) c v Hv Hc)].
Qed.

Lemma find_all_nonempty (cls : expr -> bool) (e : expr) :
  nonempty (find_all cls e) = contains cls e.
Proof.
  destruct (contains cls e) eqn:C.
  - apply contains_find_all. exact C.
  - destruct (find_all cls e) as [|v vs] eqn:F; [reflexivity|].
    assert (Hv : In v (find_all cls e)) by (rewrite F; left; reflexivity).
    unfold find_all in Hv. apply filter_In in Hv. destruct Hv as [Hw Hc].
    unfold walk in Hw. apply in_flat_map in Hw. destruct Hw as [n [_ Hl]].
    rewrite (level_contains cls n None e v Hl Hc) in C. discriminate C.
Qed.

Lemma nonempty_filter {A} (f : A -> bool) (l : list A) :
  nonempty (filter f l) = existsb f l.
Proof.
  induction l as [|x l IH]; simpl; [reflexivity|].
  destruct (f x); [reflexivity | exact IH].
Qed.

Lemma nonempty_flat_map {A B} (g : A -> list B) (l : list A) :
  nonempty (flat_map g l) = existsb (fun x => nonempty (g x)) l.
Proof.
  induction l as [|x l IH]; simpl; [reflexivity|].
  destruct (g x); simpl; [exact IH | reflexivity].
Qed.

Lemma find_all_in_statement_nonempty (cls : expr -> bool) (s : statement) :
  nonempty (find_all_in_statement cls s)
  = existsb (contains cls) (statement_roots s).
Proof.
  unfold find_all_in_statement. rewrite nonempty_flat_map.
  induction (statement_roots s) as [|e l IH]; simpl; [reflexivity|].
  rewrite find_all_nonempty, IH. reflexivity.
Qed.

Lemma nonempty_filter_map_filter {A B} (q : A -> bool) (f : A -> B)
    (p : B -> bool) (l : list A) :
  nonempty (filter p (map f (filter q l)))
  = existsb (fun x => q x && p (f x)) l.
Proof.
  induction l as [|x l IH]; simpl; [reflexivity|].
  destruct (q x); simpl; [|exact IH].
  destruct (p (f x)); [reflexivity | exact IH].
Qed.

Ltac split_ifs :=
  repeat match goal with
         | |- context [if ?b then _ else _] => destruct b
         end.

(* ================================================================== *)
(** ** The select rule *)

(** X4. A query that parses gets exactly one [MissingFrom] entry when it is
    a SELECT without a FROM clause, and none otherwise. *)
Theorem missing_from_exactly
    (parse_one : string -> parse_outcome) (sql_text : expr -> string)
    (set_iter : list string -> list string) (self : validator)
    (q : string) (s : statement) :
  parse_one q = Parsed s ->
  exists r,
    snd (validate parse_one sql_text set_iter self q) = Py.Return r
    /\ count_kind MissingFrom r
       = match class s, from_ s with
         | Select, None => 1
         | _, _ => 0
         end.
Proof.
  intros H. rewrite (validate_parsed parse_one sql_text set_iter self q s H).
  eexists. split; [reflexivity|].
  rewrite count_kind_entries, count_in_all_entries.
  cbn [select_kind join_kind join_column_kind where_kind having_kind
       catalog_kind].
  rewrite !Nat.add_0_r. unfold select_entries.
  destruct (class s); [|reflexivity].
  unfold select_rule. cbv zeta.
  destruct (from_ s); cbn [is_some negb]; split_ifs; reflexivity.
Qed.

Lemma missing_from_exactly_witness :
  let s := {| class := Select; expressions := [Literal "1" false];
              from_ := None; joins := []; where_ := None; group := None;
              having := None; rest := [] |} in
  let p := Examples.parser "SELECT 1" s in
  p "SELECT 1" = Parsed s
  /\ exists r,
       snd (validate p Examples.no_text Examples.first_seen
              (new_validator Examples.users_catalog) "SELECT 1") = Py.Return r
       /\ count_kind MissingFrom r = 1.
Proof.
  intros s p.
  assert (H : p "SELECT 1" = Parsed s) by reflexivity.
  split; [exact H|].
  exact (missing_from_exactly p Examples.no_text Examples.first_seen
           (new_validator Examples.users_catalog) "SELECT 1" s H).
Defined.

(** X5. A query that parses gets exactly one [MissingGroupBy] entry when it
    is a SELECT without GROUP BY that has an aggregate call somewhere in the
    statement (in any clause, not only in the select list) and a select-list
    item that is a column; it gets none otherwise, in particular never when
    a GROUP BY clause is present. *)
Theorem missing_group_by_exactly
    (parse_one : string -> parse_outcome) (sql_text : expr -> string)
    (set_iter : list string -> list string) (self : validator)
    (q : string) (s : statement) :
  parse_one q = Parsed s ->
  exists r,
    snd (validate parse_one sql_text set_iter self q) = Py.Return r
    /\ count_kind MissingGroupBy r
       = match class s with
         | Select =>
             if existsb (contains is_AggFunc) (statement_roots s)
                && existsb is_Column (expressions s)
                && negb (is_some (group s))
             then 1 else 0
         | OtherStatement => 0
         end.
Proof.
  intros H. rewrite (validate_parsed parse_one sql_text set_iter self q s H).
  eexists. split; [reflexivity|].
  rewrite count_kind_entries, count_in_all_entries.
  cbn [select_kind join_kind join_column_kind where_kind having_kind
       catalog_kind].
  rewrite !Nat.add_0_r. unfold select_entries.
  destruct (class s); [|reflexivity].
  rewrite <- find_all_in_statement_nonempty, <- nonempty_filter.
  unfold select_rule. cbv zeta.
  destruct (nonempty (find_all_in_statement is_AggFunc s));
    destruct (nonempty (filter is_Column (expressions s)));
    destruct (group s); cbn [is_some negb andb];
    split_ifs; reflexivity.
Qed.

Lemma missing_group_by_exactly_witness :
  let p := Examples.parser Examples.having_exposed_text
             Examples.having_exposed_query in
  p Examples.having_exposed_text = Parsed Examples.having_exposed_query
  /\ exists r,
       snd (validate p Examples.no_text Examples.first_seen
              (new_validator Examples.users_catalog)
              Examples.having_exposed_text) = Py.Return r
       /\ count_kind MissingGroupBy r = 0.
Proof.
  intros p.
  assert (H : p Examples.having_exposed_text
              = Parsed Examples.having_exposed_query) by reflexivity.
  split; [exact H|].
  exact (missing_group_by_exactly p Examples.no_text Examples.first_seen
           (new_validator Examples.users_catalog)
           Examples.having_exposed_text Examples.having_exposed_query H).
Defined.

(** X6. A query that parses gets exactly one [IncompleteGroupBy] entry when
    it is a SELECT with a GROUP BY clause and some select-list column whose
    name, written with its table qualifier when it has one, is not the name
    of a column of the GROUP BY list written the same way; it gets none
    otherwise. Several missing columns share the one entry. *)
Theorem incomplete_group_by_exactly
    (parse_one : string -> parse_outcome) (sql_text : expr -> string)
    (set_iter : list string -> list string) (self : validator)
    (q : string) (s : statement) :
  parse_one q = Parsed s ->
  exists r,
    snd (validate parse_one sql_text set_iter self q) = Py.Return r
    /\ count_kind IncompleteGroupBy r
       = match class s, group s with
         | Select, Some g =>
             let grouped := map qualified_name (filter is_Column g) in
             if existsb
                  (fun e => is_Column e
                            && negb (Str.In_b (qualified_name e) grouped))
                  (expressions s)
             then 1 else 0
         | _, _ => 0
         end.
Proof.
  intros H. rewrite (validate_parsed parse_one sql_text set_iter self q s H).
  eexists. split; [reflexivity|].
  rewrite count_kind_entries, count_in_all_entries.
  cbn [select_kind join_kind join_column_kind where_kind having_kind
       catalog_kind].
  rewrite !Nat.add_0_r. unfold select_entries.
  destruct (class s); [|reflexivity].
  unfold select_rule. cbv zeta.
  destruct (group s) as [g|]; cbn [is_some negb andb].
  - rewrite <- (nonempty_filter_map_filter is_Column qualified_name
                  (fun n => negb (Str.In_b n
                                    (map qualified_name (filter is_Column g))))
                  (expressions s)).
    destruct (filter is_Column (expressions s)) as [|c cs].
    + cbn [nonempty map filter andb]. rewrite ?andb_false_r.
      split_ifs; reflexivity.
    + match goal with
      | |- context [nonempty (filter ?f (map qualified_name (c :: cs)))] =>
          destruct (nonempty (filter f (map qualified_name (c :: cs))))
      end; cbn [nonempty andb]; rewrite ?andb_false_r; split_ifs; reflexivity.
  - rewrite ?andb_false_r. split_ifs; reflexivity.
Qed.

Lemma incomplete_group_by_exactly_witness :
  let s := Examples.select
             [Column EmptyString "user_id"; Column EmptyString "username"]
             [Examples.table "users"] [] None
             (Some [Column EmptyString "user_id"]) None in
  let text := "SELECT user_id, username FROM users GROUP BY user_id" in
  let p := Examples.parser text s in
  p text = Parsed s
  /\ exists r,
       snd (validate p Examples.no_text Examples.first_seen
              (new_validator Examples.users_catalog) text) = Py.Return r
       /\ count_kind IncompleteGroupBy r = 1.
Proof.
  intros s text p.
  assert (H : p text = Parsed s) by reflexivity.
  split; [exact H|].
  exact (incomplete_group_by_exactly p Examples.no_text Examples.first_seen
           (new_validator Examples.users_catalog) text s H).
Defined.

(* ================================================================== *)
(** ** ON columns *)

(** X7. A join with an ON clause and no USING clause checks every column
    reference of the ON expression, in breadth-first order, against the
    join's table list. Each check returns and does one of three things: when
    the qualifier, resolved through the alias table, names no table of the
    list it appends [UnknownTableReference]; when it names one whose
    ColumnMap holds the column it appends nothing; otherwise it appends
    [ColumnNotFound]. *)
Theorem on_column_cases
    (md : SchemaCatalog) (base : list table_info)
    (table_aliases : Dict.t string) (j : join) (on : expr) (r : Result) :
  j_using j = [] ->
  j_on j = Some on ->
  let join_tables := join_tables_of base j in
  check_join md base table_aliases r j
  = Py.for_each (check_on_column md table_aliases join_tables)
      (find_all is_Column on) r
  /\ forall (r0 : Result) (column : visited),
       let real_table := resolve table_aliases (table_of (snd column)) in
       exists r',
         check_on_column md table_aliases join_tables r0 column = Py.Return r'
         /\ (if negb (existsb (fun t => String.eqb (name t) real_table)
                        join_tables)
             then exists i, r' = report r0 UnknownTableReference i
             else if column_in_table md real_table (name_of (snd column))
             then r' = r0
             else exists i, r' = report r0 ColumnNotFound i).
Proof.
  intros Hu Ho join_tables. split.
  - unfold check_join. rewrite Hu, Ho. reflexivity.
  - intros r0 column. apply check_on_column_cases.
Qed.

Lemma on_column_cases_witness :
  let s := Examples.two_tables_query in
  let j := Examples.join_b in
  (j_using j = []
   /\ j_on j = Some (Binary EQ None (Column "a" "x") (Column "b" "x")))
  /\ check_join Examples.abc_catalog (base_tables_of s) (table_aliases_of s)
       fresh_result j
     = Py.for_each
         (check_on_column Examples.abc_catalog (table_aliases_of s)
            (join_tables_of (base_tables_of s) j))
         (find_all is_Column (Binary EQ None (Column "a" "x") (Column "b" "x")))
         fresh_result
  /\ check_on_column Examples.abc_catalog (table_aliases_of s)
       (join_tables_of (base_tables_of s) j) fresh_result
       (None, Column "c" "y")
     = Py.Return (report fresh_result UnknownTableReference ["c"; "a"; "b"]).
Proof.
  intros s j.
  assert (H1 : j_using j = []) by reflexivity.
  assert (H2 : j_on j = Some (Binary EQ None (Column "a" "x") (Column "b" "x")))
    by reflexivity.
  split; [split; assumption|].
  destruct (on_column_cases Examples.abc_catalog (base_tables_of s)
              (table_aliases_of s) j _ fresh_result H1 H2) as [T _].
  split; [exact T | reflexivity].
Defined.

(* ================================================================== *)
(** ** Writing into a dict: the last write wins *)

Lemma Dict_get_set_same {V} (d : Dict.t V) (k : string) (v : V) :
  Dict.get (Dict.set d k v) k = Some v.
Proof.
  induction d as [|[k' v'] d IH]; simpl.
  - rewrite String.eqb_refl. reflexivity.
  - destruct (String.eqb k' k) eqn:E; simpl.
    + rewrite String.eqb_refl. reflexivity.
    + rewrite E. exact IH.
Qed.

Lemma Dict_get_set_other {V} (d : Dict.t V) (k k0 : string) (v : V) :
  k <> k0 -> Dict.get (Dict.set d k v) k0 = Dict.get d k0.
Proof.
  intros N. assert (Nb : String.eqb k k0 = false) by (apply String.eqb_neq; exact N).
  induction d as [|[k' v'] d IH]; simpl.
  - rewrite Nb. reflexivity.
  - destruct (String.eqb k' k) eqn:E; simpl.
    + apply String.eqb_eq in E. subst k'. rewrite Nb. reflexivity.
    + destruct (String.eqb k' k0); [reflexivity | exact IH].
Qed.

Lemma get_writes_unbound {V} (kvs : list (string * V)) (k : string) :
  (forall p, In p kvs -> fst p <> k) ->
  forall d,
    Dict.get (fold_left (fun d kv => Dict.set d (fst kv) (snd kv)) kvs d) k
    = Dict.get d k.
Proof.
  induction kvs as [|[k' v'] kvs IH]; intros H d; simpl; [reflexivity|].
  rewrite IH by (intros p Hp; apply H; right; exact Hp).
  apply Dict_get_set_other. exact (H (k', v') (or_introl eq_refl)).
Qed.

Lemma get_writes_last {V} (l1 l2 : list (string * V)) (k : string) (v : V)
    (d : Dict.t V) :
  (forall p, In p l2 -> fst p <> k) ->
  Dict.get
    (fold_left (fun d kv => Dict.set d (fst kv) (snd kv)) (l1 ++ (k, v) :: l2) d)
    k
  = Some v.
Proof.
  intros H. rewrite fold_left_app. simpl.
  rewrite (get_writes_unbound l2 k H). apply Dict_get_set_same.
Qed.

Lemma get_writes_origin {V} (kvs : list (string * V)) (k : string) (v : V) :
  forall d,
    Dict.get (fold_left (fun d kv => Dict.set d (fst kv) (snd kv)) kvs d) k
    = Some v ->
    In (k, v) kvs \/ Dict.get d k = Some v.
Proof.
  induction kvs as [|[k' v'] kvs IH]; intros d H; simpl in H; [right; exact H|].
  destruct (IH _ H) as [Hin|Hg]; [left; right; exact Hin|].
  destruct (string_dec k' k) as [->|N].
  - rewrite Dict_get_set_same in Hg. injection Hg as ->.
    left. left. reflexivity.
  - rewrite Dict_get_set_other in Hg by exact N. right. exact Hg.
Qed.

Lemma fold_left_map_list {A B C} (f : A -> C -> A) (g : B -> C) (l : list B)
    (a : A) :
  fold_left f (map g l) a = fold_left (fun a x => f a (g x)) l a.
Proof. revert a. induction l as [|x l IH]; intros a; simpl; [reflexivity | apply IH]. Qed.

Lemma table_aliases_writes (s : statement) :
  table_aliases_of s
  = fold_left (fun d kv => Dict.set d (fst kv) (snd kv)) (alias_bindings s) [].
Proof.
  unfold table_aliases_of, alias_bindings.
  rewrite fold_left_app, !fold_left_map_list. reflexivity.
Qed.

Lemma column_types_writes (md : SchemaCatalog) :
  column_types_of md
  = fold_left (fun d kv => Dict.set d (fst kv) (snd kv)) (catalog_columns md) [].
Proof.
  unfold column_types_of, catalog_columns. generalize (@nil (string * string)).
  induction md as [|[t cols] md IH]; intros d; simpl; [reflexivity|].
  rewrite fold_left_app. apply IH.
Qed.

(* ================================================================== *)
(** ** The alias table *)

(** X8. In the alias table that the join rule builds, the FROM tables
    first, then the joins, each under its alias or else its own name, a
    name bound several times stands for the table bound last, a name bound
    once for that table, and a name never bound for itself. *)
Theorem alias_table_last_binding_wins (s : statement) :
  (forall (a n : string) (l1 l2 : list (string * string)),
      alias_bindings s = l1 ++ (a, n) :: l2 ->
      (forall p, In p l2 -> fst p <> a) ->
      Dict.mem (table_aliases_of s) a = true
      /\ resolve (table_aliases_of s) a = n)
  /\ (forall a : string,
         (forall p, In p (alias_bindings s) -> fst p <> a) ->
         Dict.mem (table_aliases_of s) a = false
         /\ resolve (table_aliases_of s) a = a).
Proof.
  split.
  - intros a n l1 l2 E H. unfold Dict.mem, resolve.
    rewrite table_aliases_writes, E, (get_writes_last l1 l2 a n [] H).
    split; reflexivity.
  - intros a H. unfold Dict.mem, resolve.
    rewrite table_aliases_writes, (get_writes_unbound _ a H). split; reflexivity.
Qed.

Lemma alias_table_last_binding_wins_witness :
  let s := Examples.select [Star]
             [{| t_name := "users"; t_alias := "u" |}]
             [{| j_kind := EmptyString;
                 j_this := {| t_name := "users"; t_alias := "u2" |};
                 j_on := Some (Binary EQ None (Column "u" "user_id")
                                 (Column "u2" "user_id"));
                 j_using := [] |}] None None None in
  (alias_bindings s = [] ++ ("u", "users") :: [("u2", "users")]
   /\ (forall p, In p [("u2", "users")] -> fst p <> "u")
   /\ (forall p, In p (alias_bindings s) -> fst p <> "users"))
  /\ (Dict.mem (table_aliases_of s) "u" = true
      /\ resolve (table_aliases_of s) "u" = "users")
  /\ (Dict.mem (table_aliases_of s) "users" = false
      /\ resolve (table_aliases_of s) "users" = "users").
Proof.
  intros s.
  assert (H1 : alias_bindings s = [] ++ ("u", "users") :: [("u2", "users")])
    by reflexivity.
  assert (H2 : forall p : string * string,
             In p [("u2", "users")] -> fst p <> "u").
  { intros p [<-|[]]. discriminate. }
  assert (H3 : forall p, In p (alias_bindings s) -> fst p <> "users").
  { intros p [<-|[<-|[]]]; discriminate. }
  split; [repeat split; assumption|].
  destruct (alias_table_last_binding_wins s) as [T1 T2].
  split; [exact (T1 "u" "users" [] [("u2", "users")] H1 H2) | exact (T2 "users" H3)].
Defined.

(* ================================================================== *)
(** ** The WHERE rule: column types *)



Lemma digit_is_not_dot (c : ascii) :
  Str.is_digit_ascii c = true -> Ascii.eqb c "."%char = false.
Proof.
  intros H. destruct (Ascii.eqb c "."%char) eqn:E; [|reflexivity].
  apply Ascii.eqb_eq in E. subst c. discriminate H.
Qed.

Lemma remove_first_dot_digits (a : string) :
  Str.all_digits a = true -> Str.remove_first_dot a = a.
Proof.
  induction a as [|c a IH]; simpl; intros H; [reflexivity|].
  apply andb_true_iff in H. destruct H as [Hc Ha].
  rewrite (digit_is_not_dot c Hc), (IH Ha). reflexivity.
Qed.

Lemma remove_first_dot_app (a b : string) :
  Str.all_digits a = true ->
  Str.remove_first_dot (a ++ "." ++ b)%string = (a ++ b)%string.
Proof.
  induction a as [|c a IH]; simpl; intros H; [reflexivity|].
  apply andb_true_iff in H. destruct H as [Hc Ha].
  rewrite (digit_is_not_dot c Hc). simpl in IH. rewrite (IH Ha). reflexivity.
Qed.

Lemma all_digits_app (a b : string) :
  Str.all_digits (a ++ b)%string = Str.all_digits a && Str.all_digits b.
Proof.
  induction a as [|c a IH]; simpl; [reflexivity|].
  rewrite IH, andb_assoc. reflexivity.
Qed.

Lemma isdigit_eq (x : string) :
  Str.isdigit x = true <-> x <> EmptyString /\ Str.all_digits x = true.
Proof.
  destruct x as [|c x]; simpl; split.
  - discriminate.
  - intros [H _]. contradiction H. reflexivity.
  - intros H. split; [discriminate | exact H].
  - intros [_ H]. exact H.
Qed.

Lemma all_digits_after_removal (s : string) :
  Str.all_digits (Str.remove_first_dot s) = true ->
  Str.all_digits s = true
  \/ exists a b,
       s = (a ++ "." ++ b)%string
       /\ Str.all_digits a = true /\ Str.all_digits b = true.
Proof.
  induction s as [|c s IH]; simpl; intros H; [left; reflexivity|].
  destruct (Ascii.eqb c "."%char) eqn:E.
  - apply Ascii.eqb_eq in E. subst c. right.
    exists EmptyString, s. repeat split. exact H.
  - simpl in H. apply andb_true_iff in H. destruct H as [Hc Hs].
    destruct (IH Hs) as [Hd|[a [b [-> [Ha Hb]]]]].
    + left. rewrite Hc, Hd. reflexivity.
    + right. exists (String c a), b. repeat split; [|exact Hb].
      simpl. rewrite Hc, Ha. reflexivity.
Qed.

Lemma numeric_shape (v : string) :
  Str.isdigit (Str.remove_first_dot v) = true <-> numeric_literal v.
Proof.
  unfold numeric_literal. rewrite isdigit_eq. split.
  - intros [Hne Hd]. destruct (all_digits_after_removal v Hd)
      as [Hv|[a [b [-> [Ha Hb]]]]].
    + left. rewrite (remove_first_dot_digits v Hv) in Hne. split; assumption.
    + right. exists a, b. rewrite (remove_first_dot_app a b Ha) in Hne.
      repeat split; assumption.
  - intros [[Hne Hd]|[a [b [-> [Ha [Hb Hne]]]]]].
    + rewrite (remove_first_dot_digits v Hd). split; assumption.
    + rewrite (remove_first_dot_app a b Ha), all_digits_app, Ha, Hb.
      split; [exact Hne | reflexivity].
Qed.

Lemma integer_type_truthy (cty : string) :
  Str.startswith cty "integer" = true -> Str.truthy cty = true.
Proof. destruct cty; [discriminate | reflexivity]. Qed.

(** X10. A comparison of a column whose flattened type starts with
    [integer] with a quoted literal is left alone when the literal is made
    of ASCII digits with at most one dot and at least one digit; every
    other quoted literal written in ASCII (empty, signed, with spaces, with
    an exponent or a second dot) gets a [TypeMismatch] entry. *)
Theorem integer_column_against_string
    (ct : Dict.t string) (r : Result) (p : option expr) (op : binop)
    (ty : option DataType) (table column cty v : string) :
  Dict.get ct column = Some cty ->
  Str.startswith cty "integer" = true ->
  let comparison := Binary op ty (Column table column) (Literal v true) in
  (numeric_literal v -> check_condition ct r (p, comparison) = r)
  /\ (ascii_text v = true -> ~ numeric_literal v ->
      check_condition ct r (p, comparison)
      = report r TypeMismatch [column; v]).
Proof.
  intros Hg Hi comparison. unfold check_condition, type_check. simpl.
  rewrite Hg, (integer_type_truthy cty Hi), Hi. simpl.
  destruct (Str.isdigit (Str.remove_first_dot v)) eqn:E; simpl.
  - apply numeric_shape in E. split; [|intros _ N; contradiction].
    intros _. destruct (Str.startswith cty "character"); reflexivity.
  - split; [|reflexivity].
    intros N. apply numeric_shape in N. rewrite N in E. discriminate E.
Qed.

Lemma integer_column_against_string_witness :
  let ct := column_types_of Examples.users_catalog in
  (Dict.get ct "user_id" = Some "integer"
   /\ Str.startswith "integer" "integer" = true
   /\ numeric_literal "12.5"
   /\ ascii_text "-1" = true
   /\ ~ numeric_literal "-1")
  /\ check_condition ct fresh_result
       (None, Binary EQ None (Column "u" "user_id") (Literal "12.5" true))
     = fresh_result
  /\ check_condition ct fresh_result
       (None, Binary EQ None (Column "u" "user_id") (Literal "-1" true))
     = report fresh_result TypeMismatch ["user_id"; "-1"].
Proof.
  intros ct.
  assert (H1 : Dict.get ct "user_id" = Some "integer") by reflexivity.
  assert (H2 : Str.startswith "integer" "integer" = true) by reflexivity.
  assert (H3 : numeric_literal "12.5") by (apply numeric_shape; reflexivity).
  assert (H4 : ascii_text "-1" = true) by reflexivity.
  assert (H5 : ~ numeric_literal "-1").
  { intros N. apply numeric_shape in N. discriminate N. }
  split; [repeat split; assumption|].
  split.
  - exact (proj1 (integer_column_against_string ct fresh_result None EQ None
                    "u" "user_id" "integer" "12.5" H1 H2) H3).
  - exact (proj2 (integer_column_against_string ct fresh_result None EQ None
                    "u" "user_id" "integer" "-1" H1 H2) H4 H5).
Defined.

Lemma count_kind_fold_left_same {A} (k : DiagKind) (f : Result -> A -> Result)
    (xs : list A) :
  (forall r x, count_kind k (f r x) = count_kind k r) ->
  forall r, count_kind k (fold_left f xs r) = count_kind k r.
Proof.
  intros Hf. induction xs as [|x xs IH]; intros r; simpl; [reflexivity|].
  rewrite IH. apply Hf.
Qed.

Lemma check_condition_unclassified (ct : Dict.t string) (r : Result)
    (c : visited) :
  (forall col cty, Dict.get ct col = Some cty ->
     Str.startswith cty "integer" = false
     /\ Str.startswith cty "character" = false) ->
  count_kind TypeMismatch (check_condition ct r c) = count_kind TypeMismatch r.
Proof.
  intros H. unfold check_condition, type_check. destruct (snd c); try reflexivity.
  destruct (is_Column e1 && is_Literal e2).
  - destruct (Dict.get ct (name_of e1)) as [cty|] eqn:G; [|reflexivity].
    destruct (H _ _ G) as [Hi Hc]. rewrite Hi, Hc. cbn [andb].
    destruct (negb (Str.truthy cty)); [reflexivity|].
    destruct (is_null_value e2 && _); [|reflexivity].
    rewrite count_kind_report. simpl. lia.
  - destruct (is_null_value e2 && _); [|reflexivity].
    rewrite count_kind_report. simpl. lia.
Qed.

(** X11. When no type declared in the catalog starts with [integer] or
    [character] (timestamps, text and the like, or an empty catalog), no
    query gets a [TypeMismatch] entry. *)
Theorem unclassified_types_are_never_checked
    (parse_one : string -> parse_outcome) (sql_text : expr -> string)
    (set_iter : list string -> list string) (self : validator)
    (q : string) (s : statement) :
  parse_one q = Parsed s ->
  (forall c ty, In (c, ty) (catalog_columns (metadata self)) ->
     Str.startswith ty "integer" = false
     /\ Str.startswith ty "character" = false) ->
  exists r,
    snd (validate parse_one sql_text set_iter self q) = Py.Return r
    /\ count_kind TypeMismatch r = 0.
Proof.
  intros H Hty. rewrite (validate_parsed parse_one sql_text set_iter self q s H).
  eexists. split; [reflexivity|].
  rewrite count_kind_entries, count_in_all_entries.
  cbn [select_kind join_kind join_column_kind where_kind having_kind
       catalog_kind].
  rewrite !Nat.add_0_r. cbn [Nat.add].
  change (count_kind TypeMismatch (where_rule (metadata self) s fresh_result) = 0).
  unfold where_rule. destruct (where_ s) as [w|]; [|reflexivity].
  rewrite count_kind_fold_left_same; [reflexivity|].
  intros r0 c. apply check_condition_unclassified.
  intros col cty G. apply (Hty col cty). rewrite column_types_writes in G.
  destruct (get_writes_origin _ col cty [] G) as [Hin|Hn];
    [exact Hin | discriminate Hn].
Qed.

Lemma unclassified_types_are_never_checked_witness :
  let md : SchemaCatalog :=
    [("usage_records", [("start_time", "timestamp without time zone");
                        ("note", "text")])] in
  let s := Examples.select [Column EmptyString "note"]
             [Examples.table "usage_records"] []
             (Some (Binary EQ None (Column EmptyString "start_time")
                      (Literal "abc" true))) None None in
  let text := "SELECT note FROM usage_records WHERE start_time = 'abc'" in
  let p := Examples.parser text s in
  (p text = Parsed s
   /\ (forall c ty, In (c, ty) (catalog_columns md) ->
         Str.startswith ty "integer" = false
         /\ Str.startswith ty "character" = false))
  /\ exists r,
       snd (validate p Examples.no_text Examples.first_seen (new_validator md)
              text) = Py.Return r
       /\ count_kind TypeMismatch r = 0.
Proof.
  intros md s text p.
  assert (H1 : p text = Parsed s) by reflexivity.
  assert (H2 : forall c ty, In (c, ty) (catalog_columns md) ->
                 Str.startswith ty "integer" = false
                 /\ Str.startswith ty "character" = false).
  { intros c ty [E|[E|[]]]; injection E as <- <-; split; reflexivity. }
  split; [split; assumption|].
  exact (unclassified_types_are_never_checked p Examples.no_text
           Examples.first_seen (new_validator md) text s H1 H2).
Defined.

(* ================================================================== *)
(** ** The WHERE rule: NULL on the right *)

Lemma literal_is_not_null (e : expr) :
  is_Literal e = true -> is_null_value e = false.
Proof. destruct e; simpl; intros H; try discriminate H; reflexivity. Qed.

Lemma check_condition_null_count (ct : Dict.t string) (r : Result)
    (c : visited) :
  count_kind NullComparisonError (check_condition ct r c)
  = count_kind NullComparisonError r + (if null_on_the_right c then 1 else 0).
Proof.
  unfold check_condition, type_check, null_on_the_right.
  destruct (snd c) as [| | | | |op ty e1 e2| | | |]; try (simpl; lia).
  rewrite type_is_never_an_operator_name. cbn [negb].
  destruct (is_Column e1 && is_Literal e2) eqn:CL.
  - apply andb_true_iff in CL. destruct CL as [_ L].
    rewrite (literal_is_not_null e2 L). cbn [andb].
    destruct (Dict.get ct (name_of e1)) as [cty|]; [|lia].
    split_ifs; rewrite ?count_kind_report; simpl; lia.
  - rewrite andb_true_r. destruct (is_null_value e2).
    + rewrite count_kind_report. reflexivity.
    + lia.
Qed.

Lemma count_kind_fold_left_filter {A} (k : DiagKind)
    (f : Result -> A -> Result) (hit : A -> bool) (xs : list A) :
  (forall r x, count_kind k (f r x) = count_kind k r + (if hit x then 1 else 0)) ->
  forall r,
    count_kind k (fold_left f xs r)
    = count_kind k r + List.length (filter hit xs).
Proof.
  intros Hf. induction xs as [|x xs IH]; intros r; simpl; [lia|].
  rewrite IH, Hf. destruct (hit x); simpl; lia.
Qed.

(** X12. A query that parses gets one [NullComparisonError] entry for every
    binary node of its WHERE clause, at any depth, whose right operand is
    the NULL literal or an identifier spelled NULL in any case, and no other:
    a quoted ['NULL'] or a NULL on the left is not reported. *)
Theorem null_comparisons_counted
    (parse_one : string -> parse_outcome) (sql_text : expr -> string)
    (set_iter : list string -> list string) (self : validator)
    (q : string) (s : statement) :
  parse_one q = Parsed s ->
  exists r,
    snd (validate parse_one sql_text set_iter self q) = Py.Return r
    /\ count_kind NullComparisonError r
       = match where_ s with
         | Some w =>
             List.length (filter null_on_the_right (find_all is_Binary w))
         | None => 0
         end.
Proof.
  intros H. rewrite (validate_parsed parse_one sql_text set_iter self q s H).
  eexists. split; [reflexivity|].
  rewrite count_kind_entries, count_in_all_entries.
  cbn [select_kind join_kind join_column_kind where_kind having_kind
       catalog_kind].
  rewrite !Nat.add_0_r. cbn [Nat.add].
  change (count_kind NullComparisonError
            (where_rule (metadata self) s fresh_result)
          = match where_ s with
            | Some w =>
                List.length (filter null_on_the_right (find_all is_Binary w))
            | None => 0
            end).
  unfold where_rule. destruct (where_ s) as [w|]; [|reflexivity].
  rewrite (count_kind_fold_left_filter NullComparisonError _ null_on_the_right).
  - reflexivity.
  - intros r0 c. apply check_condition_null_count.
Qed.

Lemma null_comparisons_counted_witness :
  let w := Binary And None
             (Binary EQ None (Column EmptyString "e_mail") Null)
             (Unary Paren
                (Binary Or None
                   (Binary NEQ None (Column EmptyString "phone_num") Null)
                   (Binary EQ None (Column EmptyString "username")
                      (Literal "NULL" true)))) in
  let s := Examples.select [Column EmptyString "user_id"]
             [Examples.table "users"] [] (Some w) None None in
  let text :=
    "SELECT user_id FROM users WHERE e_mail = NULL AND (phone_num <> NULL OR username = 'NULL')" in
  let p := Examples.parser text s in
  p text = Parsed s
  /\ exists r,
       snd (validate p Examples.no_text Examples.first_seen
              (new_validator Examples.users_catalog) text) = Py.Return r
       /\ count_kind NullComparisonError r = 2.
Proof.
  intros w s text p.
  assert (H : p text = Parsed s) by reflexivity.
  split; [exact H|].
  exact (null_comparisons_counted p Examples.no_text Examples.first_seen
           (new_validator Examples.users_catalog) text s H).
Defined.

(* ================================================================== *)
(** ** The HAVING rule *)

Lemma check_having_column_eq (sc : list string) (r : Result) (v : visited) :
  check_having_column sc r v
  = if hidden_from sc v
    then report r IllegalHavingColumn [qualified_name (snd v)]
    else r.
Proof.
  unfold check_having_column, hidden_from.
  destruct (parent_is_AggFunc v); reflexivity.
Qed.

Lemma check_having_column_misused (sc : list string) (r : Result) (v : visited) :
  count_kind MisusedHaving (check_having_column sc r v)
  = count_kind MisusedHaving r.
Proof.
  rewrite check_having_column_eq. destruct (hidden_from sc v); [|reflexivity].
  rewrite count_kind_report. simpl. lia.
Qed.

Lemma having_loop_misused (sql_text : expr -> string) (h : expr)
    (es : list expr) :
  forall st,
    count_kind MisusedHaving (snd (fold_left (having_step sql_text h) es st))
    = count_kind MisusedHaving (snd st).
Proof.
  induction es as [|e es IH]; intros st; simpl; [reflexivity|].
  rewrite IH. unfold having_step. simpl.
  apply count_kind_fold_left_same. intros r0 v.
  apply check_having_column_misused.
Qed.

(** X13. A query that parses gets exactly one [MisusedHaving] entry when it
    has a HAVING clause, no GROUP BY clause and no aggregate call anywhere
    in the HAVING clause; it gets none otherwise. *)
Theorem misused_having_exactly
    (parse_one : string -> parse_outcome) (sql_text : expr -> string)
    (set_iter : list string -> list string) (self : validator)
    (q : string) (s : statement) :
  parse_one q = Parsed s ->
  exists r,
    snd (validate parse_one sql_text set_iter self q) = Py.Return r
    /\ count_kind MisusedHaving r
       = match having s with
         | Some h =>
             if negb (is_some (group s)) && negb (contains is_AggFunc h)
             then 1 else 0
         | None => 0
         end.
Proof.
  intros H. rewrite (validate_parsed parse_one sql_text set_iter self q s H).
  eexists. split; [reflexivity|].
  rewrite count_kind_entries, count_in_all_entries.
  cbn [select_kind join_kind join_column_kind where_kind having_kind
       catalog_kind].
  rewrite !Nat.add_0_r. cbn [Nat.add].
  change (count_kind MisusedHaving (having_rule sql_text s fresh_result)
          = match having s with
            | Some h =>
                if negb (is_some (group s)) && negb (contains is_AggFunc h)
                then 1 else 0
            | None => 0
            end).
  unfold having_rule. destruct (having s) as [h|]; [|reflexivity].
  cbv zeta. rewrite having_loop_misused. cbn [snd].
  rewrite find_all_nonempty.
  destruct (negb (is_some (group s))); destruct (negb (contains is_AggFunc h));
    reflexivity.
Qed.

Lemma misused_having_exactly_witness :
  let s := Examples.select [Column EmptyString "user_id"]
             [Examples.table "users"] [] None None
             (Some (Binary GT None (Column EmptyString "user_id")
                      (Literal "5" false))) in
  let text := "SELECT user_id FROM users HAVING user_id > 5" in
  let p := Examples.parser text s in
  p text = Parsed s
  /\ exists r,
       snd (validate p Examples.no_text Examples.first_seen
              (new_validator Examples.users_catalog) text) = Py.Return r
       /\ count_kind MisusedHaving r = 1.
Proof.
  intros s text p.
  assert (H : p text = Parsed s) by reflexivity.
  split; [exact H|].
  exact (misused_having_exactly p Examples.no_text Examples.first_seen
           (new_validator Examples.users_catalog) text s H).
Defined.

Lemma set_add_incl (x : string) (sc : list string) : incl sc (set_add x sc).
Proof.
  unfold set_add. destruct (Str.In_b x sc); intros y Hy; [exact Hy|].
  apply in_or_app. left. exact Hy.
Qed.

Lemma expose_incl (sql_text : expr -> string) (sc : list string) (e : expr) :
  incl sc (expose sql_text sc e).
Proof.
  unfold expose.
  destruct e; split_ifs;
    repeat (try apply incl_refl;
            match goal with
            | |- incl _ (set_add _ _) =>
                eapply incl_tran; [|apply set_add_incl]
            end).
Qed.

Lemma exposed_incl (sql_text : expr -> string) (es : list expr) :
  forall sc, incl sc (fold_left (expose sql_text) es sc).
Proof.
  induction es as [|e es IH]; intros sc; simpl; [apply incl_refl|].
  eapply incl_tran; [apply expose_incl | apply IH].
Qed.

Lemma In_b_incl (x : string) (a b : list string) :
  incl a b -> Str.In_b x a = true -> Str.In_b x b = true.
Proof. intros I H. apply In_b_In. apply I. apply In_b_In. exact H. Qed.

(** More names hide fewer columns. *)
Lemma hidden_from_incl (a b : list string) (v : visited) :
  incl a b -> hidden_from b v = true -> hidden_from a v = true.
Proof.
  unfold hidden_from. intros I H.
  destruct (parent_is_AggFunc v); [discriminate H|]. cbn [negb andb] in *.
  apply andb_true_iff in H. destruct H as [H1 H2].
  apply negb_true_iff in H1. apply negb_true_iff in H2.
  destruct (Str.In_b (qualified_name (snd v)) a) eqn:E1.
  - rewrite (In_b_incl _ a b I E1) in H1. discriminate H1.
  - destruct (Str.In_b (name_of (snd v)) a) eqn:E2; [|reflexivity].
    rewrite (In_b_incl _ a b I E2) in H2. discriminate H2.
Qed.

Lemma having_inner_count (sc : list string) (cols : list visited) (r : Result) :
  count_kind IllegalHavingColumn (fold_left (check_having_column sc) cols r)
  = count_kind IllegalHavingColumn r + List.length (filter (hidden_from sc) cols).
Proof.
  apply (count_kind_fold_left_filter IllegalHavingColumn
           (check_having_column sc) (hidden_from sc)).
  intros r0 v. rewrite check_having_column_eq.
  destruct (hidden_from sc v); [|lia].
  rewrite count_kind_report. reflexivity.
Qed.

Lemma filter_all_false {A} (f : A -> bool) (l : list A) :
  (forall x, In x l -> f x = false) -> filter f l = [].
Proof.
  induction l as [|x l IH]; intros H; simpl; [reflexivity|].
  rewrite (H x (or_introl eq_refl)). apply IH.
  intros y Hy. apply H. right. exact Hy.
Qed.

Lemma filter_same {A} (f g : A -> bool) (l : list A) :
  (forall x, In x l -> f x = g x) -> filter f l = filter g l.
Proof.
  induction l as [|x l IH]; intros H; simpl; [reflexivity|].
  rewrite (H x (or_introl eq_refl)), IH; [reflexivity|].
  intros y Hy. apply H. right. exact Hy.
Qed.

(** Once no column is hidden, none is later. *)
Lemma having_loop_quiet (sql_text : expr -> string) (h : expr)
    (es : list expr) :
  forall (sc : list string) (r : Result),
    (forall v, In v (find_all is_Column h) -> hidden_from sc v = false) ->
    count_kind IllegalHavingColumn
      (snd (fold_left (having_step sql_text h) es (sc, r)))
    = count_kind IllegalHavingColumn r.
Proof.
  induction es as [|e es IH]; intros sc r Hq; simpl; [reflexivity|].
  unfold having_step at 2. cbn [fst snd].
  assert (Hq' : forall v, In v (find_all is_Column h) ->
                  hidden_from (expose sql_text sc e) v = false).
  { intros v Hv. destruct (hidden_from (expose sql_text sc e) v) eqn:E;
      [|reflexivity].
    pose proof (hidden_from_incl sc _ v (expose_incl sql_text sc e) E) as E'.
    rewrite (Hq v Hv) in E'. discriminate E'. }
  rewrite (IH _ _ Hq'), having_inner_count, (filter_all_false _ _ Hq').
  simpl. lia.
Qed.

Lemma hidden_from_aggregate_argument (sc : list string) (v : visited) :
  parent_is_AggFunc v = true -> hidden_from sc v = false.
Proof. unfold hidden_from. intros ->. reflexivity. Qed.

(** While no name of a column is exposed, every pass reports them all. *)
Lemma having_loop_loud (sql_text : expr -> string) (h : expr)
    (es : list expr) :
  forall (sc : list string) (r : Result),
    (forall v, In v (find_all is_Column h) ->
       parent_is_AggFunc v = false ->
       hidden_from (fold_left (expose sql_text) es sc) v = true) ->
    count_kind IllegalHavingColumn
      (snd (fold_left (having_step sql_text h) es (sc, r)))
    = count_kind IllegalHavingColumn r
      + List.length es
        * List.length (filter (fun v => negb (parent_is_AggFunc v))
                         (find_all is_Column h)).
Proof.
  induction es as [|e es IH]; intros sc r Hl; simpl; [lia|].
  unfold having_step at 2. cbn [fst snd].
  simpl in Hl. rewrite (IH _ _ Hl), having_inner_count.
  rewrite (filter_same (hidden_from (expose sql_text sc e))
             (fun v => negb (parent_is_AggFunc v))).
  - lia.
  - intros v Hv. destruct (parent_is_AggFunc v) eqn:P.
    + apply hidden_from_aggregate_argument. exact P.
    + apply (hidden_from_incl _ (fold_left (expose sql_text) es
                                   (expose sql_text sc e))).
      * apply exposed_incl.
      * apply Hl; assumption.
Qed.

Lemma having_pre_count (s : statement) (h : expr) :
  count_kind IllegalHavingColumn
    (if negb (is_some (group s)) then
       if negb (nonempty (find_all is_AggFunc h))
       then report fresh_result MisusedHaving [] else fresh_result
     else fresh_result) = 0.
Proof. split_ifs; reflexivity. Qed.

Lemma illegal_having_in_entries (sql_text : expr -> string)
    (set_iter : list string -> list string) (md : SchemaCatalog)
    (s : statement) :
  count_in IllegalHavingColumn (all_entries sql_text set_iter md s)
  = count_kind IllegalHavingColumn (having_rule sql_text s fresh_result).
Proof.
  rewrite count_in_all_entries.
  cbn [select_kind join_kind join_column_kind where_kind having_kind
       catalog_kind].
  rewrite !Nat.add_0_r. reflexivity.
Qed.

(** X14. A query gets no [IllegalHavingColumn] entry when every column of
    its HAVING clause is a direct argument of an aggregate call or has its
    bare or qualified name exposed by the first item of the select list
    already. (Names exposed only by later items do not protect a column from
    the passes made before them.) *)
Theorem having_columns_exposed_at_once
    (parse_one : string -> parse_outcome) (sql_text : expr -> string)
    (set_iter : list string -> list string) (self : validator)
    (q : string) (s : statement) (h : expr) :
  parse_one q = Parsed s ->
  having s = Some h ->
  (forall e es v,
      expressions s = e :: es ->
      In v (find_all is_Column h) ->
      hidden_from (expose sql_text [] e) v = false) ->
  exists r,
    snd (validate parse_one sql_text set_iter self q) = Py.Return r
    /\ count_kind IllegalHavingColumn r = 0.
Proof.
  intros H Hh Hq.
  rewrite (validate_parsed parse_one sql_text set_iter self q s H).
  eexists. split; [reflexivity|].
  rewrite count_kind_entries, illegal_having_in_entries.
  unfold having_rule. rewrite Hh. cbv zeta.
  destruct (expressions s) as [|e es] eqn:E.
  - simpl fold_left. cbn [snd]. apply having_pre_count.
  - simpl fold_left. unfold having_step at 2. cbn [fst snd].
    rewrite (having_loop_quiet sql_text h es _ _ (fun v => Hq e es v eq_refl)).
    rewrite having_inner_count,
      (filter_all_false _ _ (fun v => Hq e es v eq_refl)).
    rewrite having_pre_count. reflexivity.
Qed.

Lemma having_columns_exposed_at_once_witness :
  let h := Binary And None
             (Binary GT None (Column "u" "user_id") (Literal "5" false))
             (Binary GT None (AggFunc "COUNT" [Column EmptyString "device_id"])
                (Literal "1" false)) in
  let s := Examples.select
             [Column "u" "user_id"; AggFunc "COUNT" [Star]]
             [{| t_name := "users"; t_alias := "u" |}] [] None
             (Some [Column "u" "user_id"]) (Some h) in
  let text :=
    "SELECT u.user_id, COUNT(*) FROM users u GROUP BY u.user_id HAVING u.user_id > 5 AND COUNT(device_id) > 1" in
  let p := Examples.parser text s in
  (p text = Parsed s
   /\ having s = Some h
   /\ (forall e es v,
         expressions s = e :: es ->
         In v (find_all is_Column h) ->
         hidden_from (expose Examples.no_text [] e) v = false))
  /\ exists r,
       snd (validate p Examples.no_text Examples.first_seen
              (new_validator Examples.users_catalog) text) = Py.Return r
       /\ count_kind IllegalHavingColumn r = 0.
Proof.
  intros h s text p.
  assert (H1 : p text = Parsed s) by reflexivity.
  assert (H2 : having s = Some h) by reflexivity.
  assert (H3 : forall e es v,
             expressions s = e :: es ->
             In v (find_all is_Column h) ->
             hidden_from (expose Examples.no_text [] e) v = false).
  { intros e es v E Hv. injection E as <- _.
    destruct Hv as [<-|[<-|[]]]; reflexivity. }
  split; [repeat split; assumption|].
  exact (having_columns_exposed_at_once p Examples.no_text Examples.first_seen
           (new_validator Examples.users_catalog) text s h H1 H2 H3).
Defined.

(** X15. When no column of the HAVING clause outside the aggregate calls
    has its bare or qualified name among the names that the whole select
    list exposes, each such column is reported once for every item of the
    select list: the number of [IllegalHavingColumn] entries is the number
    of select items times the number of these columns. *)
Theorem hidden_having_columns_reported_per_item
    (parse_one : string -> parse_outcome) (sql_text : expr -> string)
    (set_iter : list string -> list string) (self : validator)
    (q : string) (s : statement) (h : expr) :
  parse_one q = Parsed s ->
  having s = Some h ->
  (forall v,
      In v (find_all is_Column h) ->
      parent_is_AggFunc v = false ->
      hidden_from (exposed_names sql_text (expressions s)) v = true) ->
  exists r,
    snd (validate parse_one sql_text set_iter self q) = Py.Return r
    /\ count_kind IllegalHavingColumn r
       = List.length (expressions s)
         * List.length (filter (fun v => negb (parent_is_AggFunc v))
                          (find_all is_Column h)).
Proof.
  intros H Hh Hl.
  rewrite (validate_parsed parse_one sql_text set_iter self q s H).
  eexists. split; [reflexivity|].
  rewrite count_kind_entries, illegal_having_in_entries.
  unfold having_rule. rewrite Hh. cbv zeta.
  rewrite (having_loop_loud sql_text h (expressions s) [] _ Hl).
  rewrite having_pre_count. reflexivity.
Qed.

Lemma hidden_having_columns_reported_per_item_witness :
  let s := Examples.having_hidden_query in
  let h := Binary GT None (Column EmptyString "phone_num") (Literal "0" false) in
  let p := Examples.parser Examples.having_hidden_text s in
  (p Examples.having_hidden_text = Parsed s
   /\ having s = Some h
   /\ (forall v,
         In v (find_all is_Column h) ->
         parent_is_AggFunc v = false ->
         hidden_from (exposed_names Examples.no_text (expressions s)) v = true))
  /\ exists r,
       snd (validate p Examples.no_text Examples.first_seen
              (new_validator Examples.users_catalog)
              Examples.having_hidden_text) = Py.Return r
       /\ count_kind IllegalHavingColumn r = 2 * 1.
Proof.
  intros s h p.
  assert (H1 : p Examples.having_hidden_text = Parsed s) by reflexivity.
  assert (H2 : having s = Some h) by reflexivity.
  assert (H3 : forall v,
             In v (find_all is_Column h) ->
             parent_is_AggFunc v = false ->
             hidden_from (exposed_names Examples.no_text (expressions s)) v
             = true).
  { intros v [<-|[]] _. reflexivity. }
  split; [repeat split; assumption|].
  exact (hidden_having_columns_reported_per_item p Examples.no_text
           Examples.first_seen (new_validator Examples.users_catalog)
           Examples.having_hidden_text s h H1 H2 H3).
Defined.

(* ================================================================== *)
(** ** The catalog rule *)

Lemma count_about_app (k : DiagKind) (x : string) (a b : list Diagnostic) :
  count_about k x (a ++ b) = count_about k x a + count_about k x b.
Proof. unfold count_about. rewrite filter_app, length_app. reflexivity. Qed.

Lemma count_about_none (a : DiagKind -> bool) (k : DiagKind) (x : string)
    (ds : list Diagnostic) :
  a k = false -> forallb (fun d => a (kind d)) ds = true ->
  count_about k x ds = 0.
Proof.
  intros Hk. unfold count_about.
  induction ds as [|d ds IH]; simpl; intros F; [reflexivity|].
  apply andb_true_iff in F. destruct F as [Fd F].
  destruct (DiagKind_eqb (kind d) k) eqn:E.
  - apply DiagKind_eqb_eq in E. congruence.
  - simpl. apply IH. exact F.
Qed.

Lemma In_b_cons (t x : string) (xs : list string) :
  Str.In_b t (x :: xs) = String.eqb t x || Str.In_b t xs.
Proof. reflexivity. Qed.

(** A loop that reports the elements of a duplicate-free list that fail a
    test reports each of them once. *)
Lemma report_each_once (k : DiagKind) (test : string -> bool)
    (rest : string -> list string) (xs : list string) (t : string) :
  NoDup xs ->
  forall r,
    count_about k t
      (errors (fold_left
                 (fun r x => if test x then report r k (x :: rest x) else r)
                 xs r))
    = count_about k t (errors r)
      + (if Str.In_b t xs && test t then 1 else 0).
Proof.
  induction xs as [|x xs IH]; intros ND r; [simpl; lia|].
  inversion ND as [|? ? Hx ND']; subst.
  cbn [fold_left]. rewrite (IH ND'). rewrite In_b_cons.
  destruct (String.eqb t x) eqn:E.
  - apply String.eqb_eq in E. subst x.
    assert (Hn : Str.In_b t xs = false).
    { destruct (Str.In_b t xs) eqn:B; [|reflexivity].
      apply In_b_In in B. contradiction. }
    rewrite Hn. cbn [orb andb]. destruct (test t); [|lia].
    cbn [errors report]. rewrite count_about_app.
    unfold count_about at 2. cbn [filter kind subject info hd].
    rewrite String.eqb_refl.
    destruct k; simpl; lia.
  - cbn [orb]. destruct (test x); [|reflexivity].
    cbn [errors report]. rewrite count_about_app.
    unfold count_about at 2. cbn [filter kind subject info hd].
    rewrite String.eqb_sym, E, andb_false_r. simpl. lia.
Qed.

Lemma emits_count_about (a : DiagKind -> bool) (k : DiagKind) (x : string)
    (r r' : Result) :
  a k = false -> emits a r r' ->
  count_about k x (errors r') = count_about k x (errors r).
Proof.
  intros Hk [ds [E [_ F]]]. rewrite E, count_about_app.
  rewrite (count_about_none a k x ds Hk F). lia.
Qed.

Lemma report_each_emits (k : DiagKind) (test : string -> bool)
    (rest : string -> list string) (xs : list string) (r : Result) :
  emits (fun k' => DiagKind_eqb k' k) r
    (fold_left (fun r x => if test x then report r k (x :: rest x) else r) xs r).
Proof.
  apply emits_fold_left. intros r0 x. destruct (test x).
  - apply emits_report. destruct k; reflexivity.
  - apply emits_refl.
Qed.

Lemma all_columns_declared (md : SchemaCatalog) (c : string) :
  Str.In_b c (flat_map (fun tc => Dict.keys (snd tc)) md)
  = existsb (fun tc => Dict.mem (snd tc) c) md.
Proof.
  induction md as [|[t cols] md IH]; simpl; [reflexivity|].
  rewrite <- IH. unfold Str.In_b. rewrite existsb_app. f_equal.
  destruct (Dict.mem cols c) eqn:M.
  - apply existsb_exists. exists c. split; [|apply String.eqb_refl].
    clear IH. unfold Dict.mem, Dict.keys in *.
    induction cols as [|[k v] cols IHc]; simpl in *; [discriminate M|].
    destruct (String.eqb k c) eqn:E.
    + left. apply String.eqb_eq. exact E.
    + right. apply IHc. exact M.
  - destruct (existsb (String.eqb c) (Dict.keys cols)) eqn:X; [|reflexivity].
    apply existsb_exists in X. destruct X as [y [Hy E]].
    apply String.eqb_eq in E. subst y.
    rewrite (Dict_keys_mem cols c Hy) in M. discriminate M.
Qed.

Lemma In_b_enumerated (set_iter : list string -> list string)
    (l : list string) (t : string) :
  enumerates_sets set_iter -> Str.In_b t (set_iter l) = Str.In_b t l.
Proof.
  intros En. destruct (En l) as [_ Hin].
  destruct (Str.In_b t l) eqn:B.
  - apply In_b_In. apply Hin. apply In_b_In. exact B.
  - destruct (Str.In_b t (set_iter l)) eqn:B'; [|reflexivity].
    apply In_b_In in B'. apply Hin in B'. apply In_b_In in B'.
    rewrite B' in B. discriminate B.
Qed.

(** What the catalog rule reports about one table name and one column
    name. *)
Lemma catalog_rule_about (set_iter : list string -> list string)
    (md : SchemaCatalog) (s : statement) (x : string) :
  enumerates_sets set_iter ->
  let ds := errors (tables_and_columns_rule set_iter md s fresh_result) in
  count_about TableNotFound x ds
  = (if Str.In_b x (referenced_tables s) && negb (Dict.mem md x) then 1 else 0)
  /\ count_about ColumnNotFound x ds
     = (if Str.In_b x (referenced_columns s)
           && negb (existsb (fun tc => Dict.mem (snd tc) x) md)
        then 1 else 0).
Proof.
  intros En ds. subst ds. unfold tables_and_columns_rule. cbv zeta.
  cbn [tables columns extract_tables_and_columns].
  fold (referenced_tables s). fold (referenced_columns s).
  set (tf := fold_left
               (fun result table =>
                  if negb (Dict.mem md table)
                  then report result TableNotFound (table :: Dict.keys md)
                  else result)
               (set_iter (referenced_tables s)) fresh_result).
  pose proof (report_each_once TableNotFound (fun t => negb (Dict.mem md t))
                (fun _ => Dict.keys md) (set_iter (referenced_tables s)) x
                (proj1 (En _)) fresh_result) as T.
  pose proof (report_each_emits TableNotFound (fun t => negb (Dict.mem md t))
                (fun _ => Dict.keys md) (set_iter (referenced_tables s))
                fresh_result) as Te.
  set (all := flat_map (fun tc => Dict.keys (snd tc)) md).
  pose proof (report_each_once ColumnNotFound
                (fun c => negb (Str.In_b c all)) (fun _ => set_iter all)
                (set_iter (referenced_columns s)) x (proj1 (En _)) tf) as C.
  pose proof (report_each_emits ColumnNotFound
                (fun c => negb (Str.In_b c all)) (fun _ => set_iter all)
                (set_iter (referenced_columns s)) tf) as Ce.
  cbv beta in T, Te, C, Ce. fold tf in T, Te.
  split.
  - rewrite (emits_count_about _ TableNotFound x _ _ eq_refl Ce), T.
    rewrite (In_b_enumerated set_iter _ x En). reflexivity.
  - rewrite C, (emits_count_about _ ColumnNotFound x _ _ eq_refl Te).
    rewrite (In_b_enumerated set_iter _ x En).
    subst all. rewrite all_columns_declared. reflexivity.
Qed.

Lemma first_seen_enumerates : enumerates_sets Examples.first_seen.
Proof.
  intros l. split; [apply NoDup_nodup | intros x; apply nodup_In].
Qed.

Lemma earlier_rules_about_table (sql_text : expr -> string)
    (set_iter : list string -> list string) (md : SchemaCatalog)
    (s : statement) (x : string) :
  count_about TableNotFound x
    (select_entries set_iter s ++ join_entries md s ++ where_entries md s
     ++ having_entries sql_text s) = 0.
Proof.
  rewrite !count_about_app.
  rewrite (count_about_none select_kind TableNotFound x _ eq_refl
             (select_entries_kinds set_iter s)).
  rewrite (count_about_none join_kind TableNotFound x _ eq_refl
             (join_entries_kinds md s)).
  rewrite (count_about_none where_kind TableNotFound x _ eq_refl
             (where_entries_kinds md s)).
  rewrite (count_about_none having_kind TableNotFound x _ eq_refl
             (having_entries_kinds sql_text s)).
  reflexivity.
Qed.

(** X16. With a non-empty catalog, a query that parses gets exactly one
    [TableNotFound] entry for each table name of its FROM clause and joins
    that is not a table of the catalog, however often the name occurs, and
    none for any other name. With an empty catalog the rule does not run and
    no table is ever reported. *)
Theorem missing_tables_reported_once
    (parse_one : string -> parse_outcome) (sql_text : expr -> string)
    (set_iter : list string -> list string) (self : validator)
    (q : string) (s : statement) (t : string) :
  parse_one q = Parsed s ->
  enumerates_sets set_iter ->
  exists r,
    snd (validate parse_one sql_text set_iter self q) = Py.Return r
    /\ count_about TableNotFound t (errors r)
       = if Dict.nonempty (metadata self)
            && (Str.In_b t (referenced_tables s)
                && negb (Dict.mem (metadata self) t))
         then 1 else 0.
Proof.
  intros H En.
  rewrite (validate_parsed parse_one sql_text set_iter self q s H).
  eexists. split; [reflexivity|].
  rewrite errors_append_fresh. unfold all_entries.
  rewrite !app_assoc, count_about_app, <- !app_assoc.
  rewrite earlier_rules_about_table. unfold catalog_entries.
  destruct (Dict.nonempty (metadata self)); [|reflexivity].
  cbn [andb Nat.add].
  exact (proj1 (catalog_rule_about set_iter (metadata self) s t En)).
Qed.

Lemma missing_tables_reported_once_witness :
  let s := Examples.select [Star]
             [{| t_name := "ghost_table"; t_alias := "g" |}]
             [{| j_kind := EmptyString;
                 j_this := {| t_name := "ghost_table"; t_alias := "h" |};
                 j_on := None; j_using := ["id"] |}] None None None in
  let text := "SELECT * FROM ghost_table g JOIN ghost_table h USING (id)" in
  let p := Examples.parser text s in
  (p text = Parsed s /\ enumerates_sets Examples.first_seen)
  /\ exists r,
       snd (validate p Examples.no_text Examples.first_seen
              (new_validator Examples.users_catalog) text) = Py.Return r
       /\ count_about TableNotFound "ghost_table" (errors r) = 1.
Proof.
  intros s text p.
  assert (H : p text = Parsed s) by reflexivity.
  split; [split; [exact H | exact first_seen_enumerates]|].
  exact (missing_tables_reported_once p Examples.no_text Examples.first_seen
           (new_validator Examples.users_catalog) text s "ghost_table" H
           first_seen_enumerates).
Defined.

(** X17. The catalog rule comes last and looks at column names only: with a
    non-empty catalog it reports a column name once, with [ColumnNotFound],
    when the name occurs in a column reference anywhere in the query and no
    table of the catalog declares it, and not otherwise. A column that its
    own table lacks passes this rule as soon as any other table declares the
    name. *)
Theorem missing_columns_reported_once
    (parse_one : string -> parse_outcome) (sql_text : expr -> string)
    (set_iter : list string -> list string) (self : validator)
    (q : string) (s : statement) (c : string) :
  parse_one q = Parsed s ->
  enumerates_sets set_iter ->
  exists r earlier,
    snd (validate parse_one sql_text set_iter self q) = Py.Return r
    /\ errors r = earlier ++ catalog_entries set_iter (metadata self) s
    /\ count_about ColumnNotFound c
         (catalog_entries set_iter (metadata self) s)
       = if Dict.nonempty (metadata self)
            && (Str.In_b c (referenced_columns s)
                && negb (existsb (fun tc => Dict.mem (snd tc) c) (metadata self)))
         then 1 else 0.
Proof.
  intros H En.
  rewrite (validate_parsed parse_one sql_text set_iter self q s H).
  eexists. eexists. split; [reflexivity|].
  rewrite errors_append_fresh. unfold all_entries. split.
  - rewrite !app_assoc. reflexivity.
  - unfold catalog_entries.
    destruct (Dict.nonempty (metadata self)); [|reflexivity].
    cbn [andb].
    exact (proj2 (catalog_rule_about set_iter (metadata self) s c En)).
Qed.

Lemma missing_columns_reported_once_witness :
  let md : SchemaCatalog :=
    [("users", [("user_id", "integer")]);
     ("devices", [("device_id", "character varying")])] in
  let s := Examples.select [Column "u" "device_id"; Column "u" "nickname"]
             [{| t_name := "users"; t_alias := "u" |}] [] None None None in
  let text := "SELECT u.device_id, u.nickname FROM users u" in
  let p := Examples.parser text s in
  (p text = Parsed s /\ enumerates_sets Examples.first_seen)
  /\ count_about ColumnNotFound "device_id"
       (catalog_entries Examples.first_seen md s) = 0
  /\ count_about ColumnNotFound "nickname"
       (catalog_entries Examples.first_seen md s) = 1.
Proof.
  intros md s text p.
  assert (H : p text = Parsed s) by reflexivity.
  split; [split; [exact H | exact first_seen_enumerates]|].
  destruct (missing_columns_reported_once p Examples.no_text
              Examples.first_seen (new_validator md) text s "device_id" H
              first_seen_enumerates) as [r1 [e1 [_ [_ C1]]]].
  destruct (missing_columns_reported_once p Examples.no_text
              Examples.first_seen (new_validator md) text s "nickname" H
              first_seen_enumerates) as [r2 [e2 [_ [_ C2]]]].
  split; [exact C1 | exact C2].
Defined.

(* ================================================================== *)
(** ** The formatter *)

Lemma combine_numbered {A} (l : list A) :
  forall a,
    map snd (combine (seq a (List.length l)) l) = l
    /\ map fst (combine (seq a (List.length l)) l) = seq a (List.length l).
Proof.
  induction l as [|x l IH]; intros a; simpl; [split; reflexivity|].
  destruct (IH (S a)) as [H1 H2]. rewrite H1, H2. split; reflexivity.
Qed.

(** X18. For every result that [validate] returns, the formatter gives the
    pass message when the result has no entry, and otherwise lists every
    entry, in the order of the result, numbered from 1. *)
Theorem formatter_lists_every_entry
    (parse_one : string -> parse_outcome) (sql_text : expr -> string)
    (set_iter : list string -> list string) (self : validator)
    (q : string) (r : Result) :
  snd (validate parse_one sql_text set_iter self q) = Py.Return r ->
  (errors r = [] -> get_formatted_errors r = PassMessage)
  /\ (errors r <> [] ->
      exists entries,
        get_formatted_errors r = ErrorList entries
        /\ map snd entries = errors r
        /\ map fst entries = seq 1 (List.length (errors r))).
Proof.
  intros H. apply validate_emits in H.
  pose proof (emits_consistent _ _ _ fresh_result_consistent H) as [C1 C2].
  unfold get_formatted_errors. split.
  - intros E. destruct (is_valid r) eqn:V; [reflexivity|].
    contradiction (C1 eq_refl).
  - intros N. rewrite (C2 N). eexists. split; [reflexivity|].
    apply combine_numbered.
Qed.

Lemma formatter_lists_every_entry_witness :
  let p := Examples.parser Examples.having_hidden_text
             Examples.having_hidden_query in
  let r := append_entries fresh_result
             (all_entries Examples.no_text Examples.first_seen
                Examples.users_catalog Examples.having_hidden_query) in
  (snd (validate p Examples.no_text Examples.first_seen
          (new_validator Examples.users_catalog) Examples.having_hidden_text)
   = Py.Return r
   /\ errors r <> [])
  /\ exists entries,
       get_formatted_errors r = ErrorList entries
       /\ map snd entries = errors r
       /\ map fst entries = [1; 2; 3].
Proof.
  intros p r.
  assert (H1 : snd (validate p Examples.no_text Examples.first_seen
                      (new_validator Examples.users_catalog)
                      Examples.having_hidden_text) = Py.Return r)
    by reflexivity.
  assert (H2 : errors r <> []) by discriminate.
  split; [split; assumption|].
  exact (proj2 (formatter_lists_every_entry p Examples.no_text
                  Examples.first_seen (new_validator Examples.users_catalog)
                  Examples.having_hidden_text r H1) H2).
Defined.

(* ================================================================== *)
(** ** Clauses that are absent *)

Lemma where_entries_absent (md : SchemaCatalog) (s : statement) :
  where_ s = None -> where_entries md s = [].
Proof. unfold where_entries, where_rule. intros ->. reflexivity. Qed.

Lemma having_entries_absent (sql_text : expr -> string) (s : statement) :
  having s = None -> having_entries sql_text s = [].
Proof. unfold having_entries, having_rule. intros ->. reflexivity. Qed.

Lemma join_entries_absent (md : SchemaCatalog) (s : statement) :
  joins s = [] -> join_entries md s = [].
Proof. unfold join_entries, joins_rule. intros ->. reflexivity. Qed.

(** X19. A query without a JOIN gets no [MissingJoinCondition], [JoinError]
    or [UnknownTableReference] entry; without a WHERE clause no
    [TypeMismatch] or [NullComparisonError] entry; without a HAVING clause
    no [MisusedHaving] or [IllegalHavingColumn] entry; and a statement that
    is not a SELECT no [MissingFrom], [MissingGroupBy] or
    [IncompleteGroupBy] entry. *)
Theorem absent_clauses_are_not_reported
    (parse_one : string -> parse_outcome) (sql_text : expr -> string)
    (set_iter : list string -> list string) (self : validator)
    (q : string) (s : statement) :
  parse_one q = Parsed s ->
  exists r,
    snd (validate parse_one sql_text set_iter self q) = Py.Return r
    /\ (joins s = [] ->
        count_kind MissingJoinCondition r = 0
        /\ count_kind JoinError r = 0
        /\ count_kind UnknownTableReference r = 0)
    /\ (where_ s = None ->
        count_kind TypeMismatch r = 0 /\ count_kind NullComparisonError r = 0)
    /\ (having s = None ->
        count_kind MisusedHaving r = 0 /\ count_kind IllegalHavingColumn r = 0)
    /\ (class s = OtherStatement ->
        count_kind MissingFrom r = 0
        /\ count_kind MissingGroupBy r = 0
        /\ count_kind IncompleteGroupBy r = 0).
Proof.
  intros H. rewrite (validate_parsed parse_one sql_text set_iter self q s H).
  eexists. split; [reflexivity|].
  repeat split;
    rewrite count_kind_entries, count_in_all_entries;
    cbn [select_kind join_kind join_column_kind where_kind having_kind
         catalog_kind];
    rewrite ?Nat.add_0_r; cbn [Nat.add].
  - rewrite join_entries_absent by assumption. reflexivity.
  - rewrite join_entries_absent by assumption. reflexivity.
  - rewrite join_entries_absent by assumption. reflexivity.
  - rewrite where_entries_absent by assumption. reflexivity.
  - rewrite where_entries_absent by assumption. reflexivity.
  - rewrite having_entries_absent by assumption. reflexivity.
  - rewrite having_entries_absent by assumption. reflexivity.
  - unfold select_entries.
    match goal with E : class s = OtherStatement |- _ => rewrite E end.
    reflexivity.
  - unfold select_entries.
    match goal with E : class s = OtherStatement |- _ => rewrite E end.
    reflexivity.
  - unfold select_entries.
    match goal with E : class s = OtherStatement |- _ => rewrite E end.
    reflexivity.
Qed.

Lemma absent_clauses_are_not_reported_witness :
  let s := {| class := OtherStatement; expressions := []; from_ := None;
              joins := []; where_ := None; group := None; having := None;
              rest := [] |} in
  let text := "DELETE FROM users" in
  let p := Examples.parser text s in
  (p text = Parsed s /\ joins s = [] /\ where_ s = None /\ having s = None
   /\ class s = OtherStatement)
  /\ exists r,
       snd (validate p Examples.no_text Examples.first_seen
              (new_validator Examples.users_catalog) text) = Py.Return r
       /\ (count_kind MissingJoinCondition r = 0
           /\ count_kind JoinError r = 0
           /\ count_kind UnknownTableReference r = 0)
       /\ (count_kind TypeMismatch r = 0 /\ count_kind NullComparisonError r = 0)
       /\ (count_kind MisusedHaving r = 0
           /\ count_kind IllegalHavingColumn r = 0)
       /\ (count_kind MissingFrom r = 0
           /\ count_kind MissingGroupBy r = 0
           /\ count_kind IncompleteGroupBy r = 0).
Proof.
  intros s text p.
  assert (H : p text = Parsed s) by reflexivity.
  split; [repeat split; reflexivity|].
  destruct (absent_clauses_are_not_reported p Examples.no_text
              Examples.first_seen (new_validator Examples.users_catalog)
              text s H) as [r [R [J [W [Hv C]]]]].
  exists r. split; [exact R|].
  split; [exact (J eq_refl)|]. split; [exact (W eq_refl)|].
  split; [exact (Hv eq_refl) | exact (C eq_refl)].
Defined.

(* ================================================================== *)
(** ** More on join conditions *)

Lemma filter_length_member {A} (f : A -> bool) (l : list A) (x : A) :
  In x l -> f x = true -> 1 <= List.length (filter f l).
Proof.
  intros Hin Hf. assert (H : In x (filter f l)) by (apply filter_In; split; assumption).
  destruct (filter f l); [contradiction | simpl; lia].
Qed.

Lemma join_tables_of_eq (base : list table_info) (j : join) :
  join_tables_of base j
  = base ++ [{| name := t_name (j_this j); alias := alias_or_name (j_this j) |}].
Proof. unfold join_tables_of. destruct base; reflexivity. Qed.

(** X20. A USING column that the joined table holds passes without an entry
    when a FROM table with the same real name is in scope, as in a
    self-join: the table is counted once for each of its two entries. *)
Theorem using_column_in_self_join
    (md : SchemaCatalog) (base : list table_info) (j : join) (b : table_info)
    (r : Result) (col : string) :
  In b base ->
  name b = t_name (j_this j) ->
  column_in_table md (t_name (j_this j)) col = true ->
  check_using_column md (join_tables_of base j) r col = Py.Return r.
Proof.
  intros Hb Hn Hc.
  destruct (check_using_column_cases md (join_tables_of base j) r col)
    as [r' [R C]].
  rewrite R. f_equal.
  assert (L : 2 <= List.length
                     (tables_with_column md col (join_tables_of base j))).
  { rewrite join_tables_of_eq. unfold tables_with_column.
    rewrite filter_app, length_app.
    cbn [filter name]. rewrite Hc. cbn [List.length].
    assert (1 <= List.length
                   (filter (fun ti => column_in_table md (name ti) col) base)).
    { apply (filter_length_member _ _ b Hb). rewrite Hn. exact Hc. }
    lia. }
  destruct (List.length (tables_with_column md col (join_tables_of base j)))
    as [|[|n]]; [lia | lia | exact C].
Qed.

Lemma using_column_in_self_join_witness :
  let base := [{| name := "users"; alias := "u" |}] in
  let j := {| j_kind := EmptyString;
              j_this := {| t_name := "users"; t_alias := "u2" |};
              j_on := None; j_using := ["user_id"] |} in
  (In {| name := "users"; alias := "u" |} base
   /\ name {| name := "users"; alias := "u" |} = t_name (j_this j)
   /\ column_in_table Examples.users_catalog (t_name (j_this j)) "user_id"
      = true)
  /\ check_using_column Examples.users_catalog (join_tables_of base j)
       fresh_result "user_id"
     = Py.Return fresh_result.
Proof.
  intros base j.
  assert (H1 : In {| name := "users"; alias := "u" |} base)
    by (left; reflexivity).
  assert (H2 : name {| name := "users"; alias := "u" |} = t_name (j_this j))
    by reflexivity.
  assert (H3 : column_in_table Examples.users_catalog (t_name (j_this j))
                 "user_id" = true) by reflexivity.
  split; [repeat split; assumption|].
  exact (using_column_in_self_join Examples.users_catalog base j
           {| name := "users"; alias := "u" |} fresh_result "user_id"
           H1 H2 H3).
Defined.

(** X21. A column written without a table qualifier in an ON clause is
    reported as [UnknownTableReference], whatever the catalog says, unless
    the empty name is an alias or a table in scope. *)
Theorem unqualified_on_column_is_rejected
    (md : SchemaCatalog) (table_aliases : Dict.t string)
    (jts : list table_info) (r : Result) (p : option expr) (column : string) :
  Dict.get table_aliases EmptyString = None ->
  (forall t, In t jts -> name t <> EmptyString) ->
  check_on_column md table_aliases jts r (p, Column EmptyString column)
  = Py.Return (report r UnknownTableReference (EmptyString :: map alias jts)).
Proof.
  intros Ha Hn. unfold check_on_column. rewrite resolve_eq. cbn [Py.bind].
  cbn [snd table_of]. unfold resolve. rewrite Ha.
  assert (E : existsb (fun t => String.eqb (name t) EmptyString) jts = false).
  { destruct (existsb _ jts) eqn:X; [|reflexivity].
    apply existsb_exists in X. destruct X as [t [Ht Et]].
    apply String.eqb_eq in Et. contradiction (Hn t Ht). }
  rewrite E. reflexivity.
Qed.

Lemma unqualified_on_column_is_rejected_witness :
  let s := Examples.two_tables_query in
  let jts := join_tables_of (base_tables_of s) Examples.join_b in
  (Dict.get (table_aliases_of s) EmptyString = None
   /\ (forall t, In t jts -> name t <> EmptyString))
  /\ check_on_column Examples.abc_catalog (table_aliases_of s) jts
       fresh_result (None, Column EmptyString "x")
     = Py.Return
         (report fresh_result UnknownTableReference [EmptyString; "a"; "b"]).
Proof.
  intros s jts.
  assert (H1 : Dict.get (table_aliases_of s) EmptyString = None)
    by reflexivity.
  assert (H2 : forall t, In t jts -> name t <> EmptyString).
  { intros t [<-|[<-|[]]]; discriminate. }
  split; [split; assumption|].
  exact (unqualified_on_column_is_rejected Examples.abc_catalog
           (table_aliases_of s) jts fresh_result None "x" H1 H2).
Defined.
